(** * Laximo cross-number updater: a shallow embedding of
      [laximo_cross_updater.py] and the properties of its batch pipeline.

    The development follows the source file top to bottom:
    - Python string primitives used by the script ([str.strip],
      [str.rstrip], [str.endswith], [str.join], [sorted],
      [os.path.splitext]);
    - the [LaximoAPI] class ([find_oem], [find_replacements]);
    - the [ExcelProcessor] class ([load_workbook], [save_workbook],
      [process_file]);
    - the theorems.

    A Python [str] is a [string] whose characters are read as code points
    below 256.  The HTTP session, the XML parser and the workbook reader
    and writer are libraries outside the script: they are Section
    variables, and every call to them is recorded in a trace. *)

From Stdlib Require Import ZArith Ascii String List Lia Sorting.Sorted.
From Stdlib Require QArith_base.
From stdpp Require Import base option list gmap strings sorting.

Import ListNotations.
Local Open Scope string_scope.
Local Open Scope list_scope.

(** ** Python string primitives *)

Module PyStr.

(** [str.isspace] on one character: the code points below 256 for which
    CPython's [Py_UNICODE_ISSPACE] holds. *)
Definition isspace (c : ascii) : bool :=
  let n := nat_of_ascii c in
  (((9 <=? n) && (n <=? 13)) || ((28 <=? n) && (n <=? 32))
   || (n =? 133) || (n =? 160))%nat.

(** [s.lstrip()] *)
Fixpoint lstrip (s : string) : string :=
  match s with
  | EmptyString => EmptyString
  | String c s' => if isspace c then lstrip s' else s
  end.

(** [s.rstrip()] *)
Fixpoint rstrip (s : string) : string :=
  match s with
  | EmptyString => EmptyString
  | String c s' =>
      match rstrip s' with
      | EmptyString => if isspace c then EmptyString else String c EmptyString
      | r => String c r
      end
  end.

(** [s.strip()] *)
Definition strip (s : string) : string := lstrip (rstrip s).

(** [s.endswith(suffix)] for one suffix. *)
Fixpoint endswith (s suffix : string) : bool :=
  if String.eqb s suffix then true
  else match s with
       | EmptyString => false
       | String _ s' => endswith s' suffix
       end.

(** [s.endswith((x, y, ...))]: true when some member of the tuple is a
    suffix. *)
Definition endswith_any (s : string) (suffixes : list string) : bool :=
  existsb (endswith s) suffixes.

(** [bool(s)] for a string. *)
Definition nonempty (s : string) : bool :=
  match s with EmptyString => false | _ => true end.

(** [sep.join(items)] *)
Definition join (sep : string) (items : list string) : string :=
  String.concat sep items.

(** [sorted(items)] on strings: ascending by code point, the order of
    Python's [<] on [str]. *)
Definition sorted (items : list string) : list string :=
  merge_sort String.le items.

(** [p.rfind(c)] for a one-character needle: the highest index, or -1. *)
Fixpoint rfind_from (c : ascii) (p : string) (i : Z) (found : Z) : Z :=
  match p with
  | EmptyString => found
  | String a p' =>
      rfind_from c p' (i + 1) (if Ascii.eqb a c then i else found)
  end.
Definition rfind (c : ascii) (p : string) : Z := rfind_from c p 0 (-1).

(** [p[:n]] and [p[n:]] for [0 <= n]. *)
Definition take (n : nat) (p : string) : string := String.substring 0 n p.
Definition drop (n : nat) (p : string) : string :=
  String.substring n (String.length p - n) p.

(** The [while filenameIndex < dotIndex] loop of
    [genericpath._splitext]: [true] when a character other than the dot
    is met before [dotIndex]. *)
Fixpoint splitext_scan (p : string) (filenameIndex : nat) (steps : nat)
  : bool :=
  match steps with
  | O => false
  | S k =>
      match String.get filenameIndex p with
      | Some "."%char => splitext_scan p (S filenameIndex) k
      | _ => true
      end
  end.

(** [os.path.splitext(p)] of [posixpath] ([sep = "/"], no [altsep]). *)
Definition splitext (p : string) : string * string :=
  let sepIndex := rfind "/" p in
  let dotIndex := rfind "." p in
  if (sepIndex <? dotIndex)%Z
     && splitext_scan p (Z.to_nat (sepIndex + 1))
          (Z.to_nat (dotIndex - (sepIndex + 1)))
  then (take (Z.to_nat dotIndex) p, drop (Z.to_nat dotIndex) p)
  else (p, EmptyString).

End PyStr.

(** ** Values, exceptions and the outside world *)

(** The classes of [Exception] the script can meet.  [RequestException]
    stands for [requests.exceptions.RequestException] and its subclasses
    ([HTTPError], [ConnectionError], [Timeout], ...), [ParseError] for
    [xml.etree.ElementTree.ParseError], [AttributeError] for a method
    looked up on an object that lacks it, [OtherException] for any other
    subclass of [Exception]. *)
Inductive exn := RequestException | ParseError | AttributeError | OtherException.

Inductive result (A : Type) :=
| Return (a : A)
| Raise (e : exn).
Arguments Return {A} a.
Arguments Raise {A} e.

(** The value of a spreadsheet cell: [None], a [str], or another object
    (a number, a boolean, a date) of which the script only uses the truth
    value and [str(...)]. *)
Inductive CellValue :=
| VNone
| VStr (s : string)
| VObj (truth : bool) (repr : string).

(** [bool(v)] *)
Definition truthy (v : CellValue) : bool :=
  match v with
  | VNone => false
  | VStr s => PyStr.nonempty s
  | VObj b _ => b
  end.

(** [str(v)] *)
Definition py_str (v : CellValue) : string :=
  match v with
  | VNone => "None"
  | VStr s => s
  | VObj _ r => r
  end.

(** [v or w] *)
Definition py_or (v w : CellValue) : CellValue := if truthy v then v else w.

(** [bool(x)] for the result of a [dict.get] holding [None] or a [str]. *)
Definition truthy_opt (x : option string) : bool :=
  match x with
  | None => false
  | Some s => PyStr.nonempty s
  end.

(** The active worksheet of the workbook: its cells by (row, column),
    both counted from 1, and [max_row]. *)
Record Worksheet := mkWorksheet {
  cells : gmap (nat * nat) CellValue;
  max_row : nat
}.

(** [sheet.cell(row=r, column=c).value] *)
Definition cell_value (ws : Worksheet) (r c : nat) : CellValue :=
  default VNone (cells ws !! (r, c)).

(** The sheet with [v] stored in cell [(r, c)]: the effect of
    [sheet.cell(row=r, column=c).value = v] once the setter of
    [Cell.value] has accepted [v] (see [bind_value]). *)
Definition set_cell_value (ws : Worksheet) (r c : nat) (v : CellValue) : Worksheet :=
  {| cells := <[(r, c) := v]> (cells ws); max_row := Nat.max (max_row ws) r |}.

(** The setter of [Cell.value] in [openpyxl.cell.cell].  A [str] goes
    through [Cell.check_string]: it is cut at 32767 characters
    ([value = value[:32767]]), and what is kept must hold none of the
    characters of [ILLEGAL_CHARACTERS_RE], the control characters other
    than tab, line feed and carriage return; [IllegalCharacterError] is
    an [OtherException] here. *)
Definition MAX_CELL_TEXT : nat := Z.to_nat 32767.

Definition illegal_character (c : ascii) : bool :=
  let n := nat_of_ascii c in
  ((n <=? 8) || ((11 <=? n) && (n <=? 12)) || ((14 <=? n) && (n <=? 31)))%nat.

Definition check_string (value : string) : result string :=
  let value := PyStr.take MAX_CELL_TEXT value in
  if existsb illegal_character (list_ascii_of_string value)
  then Raise OtherException
  else Return value.

(** What the setter stores for [v]: the checked text for a [str], the
    value itself for [None], a number, a boolean or a date. *)
Definition bind_value (v : CellValue) : result CellValue :=
  match v with
  | VStr s =>
      match check_string s with
      | Return kept => Return (VStr kept)
      | Raise e => Raise e
      end
  | _ => Return v
  end.

(** An [xml.etree.ElementTree.Element]. *)
#[warnings="-register-all"]
Inductive Element :=
| mkElement (tag : string) (attrib : gmap string string) (children : list Element).

Definition Element_tag (e : Element) : string :=
  match e with mkElement t _ _ => t end.

(** [e.get(key)] *)
Definition Element_get (e : Element) (key : string) : option string :=
  match e with mkElement _ a _ => a !! key end.

(** [root.findall(".//" + t)]: every descendant of [root] with tag [t], in
    document order. *)
Fixpoint findall_descendants (t : string) (root : Element) : list Element :=
  match root with
  | mkElement _ _ ch =>
      (fix over (l : list Element) : list Element :=
         match l with
         | [] => []
         | c :: l' =>
             (if String.eqb (Element_tag c) t then [c] else [])
               ++ findall_descendants t c ++ over l'
         end) ch
  end.

(** A [requests.Response]. *)
Record Response := mkResponse { status_code : Z; text : string }.

(** The dictionaries built by [find_oem] and [find_replacements]. *)
Record detail_info := mkDetail {
  detailid : option string;
  d_manufacturer : option string;
  d_oem : option string;
  d_formattedoem : option string;
  d_name : option string
}.

Record replacement_info := mkReplacement {
  r_manufacturer : option string;
  r_oem : option string;
  formattedoem : option string;
  r_name : option string;
  rate : option string
}.

(** ** Constants of the script *)

Definition LAXIMO_BASE_URL : string := "https://ws.laximo.net/ws/".
Definition SAVE_INTERVAL : nat := 100.
Definition REQUEST_DELAY : QArith_base.Q := QArith_base.Qmake 1 2.

(** ** Log lines and trace events *)

Inductive Level := INFO | WARNING | ERROR.

(** One constructor per [logger] call of the script, with the values its
    f-string interpolates; wall-clock figures are left out. *)
Inductive Message :=
| MsgFindOemRequestError (oem : string) (e : exn)
| MsgFindOemParseError (oem : string) (e : exn)
| MsgFindReplacementsRequestError (detail_id : string) (e : exn)
| MsgFindReplacementsParseError (detail_id : string) (e : exn)
| MsgLoading (path : string)
| MsgLoaded (total_rows : nat)
| MsgLoadError (e : exn)
| MsgSaved (path : string)
| MsgSaveError (e : exn)
| MsgEmptyArticle (row_idx : nat)
| MsgProcessing (row_idx total_rows : nat) (article : string)
| MsgNoDetails (row_idx : nat) (article : string)
| MsgNoCrossNumbers (row_idx : nat) (article : string)
| MsgSuccess (row_idx : nat) (cross_numbers_text : string)
| MsgRowError (row_idx : nat) (e : exn)
| MsgProgress (processed_rows total_rows : nat)
| MsgTimeLeft
| MsgRule
| MsgDone
| MsgTotalRows (n : nat)
| MsgProcessedRows (n : nat)
| MsgSuccessCount (n : nat)
| MsgErrorCount (n : nat)
| MsgNoDataCount (n : nat)
| MsgTotalTime.

Inductive Event :=
| EvGet (url : string) (params : list (string * string))
| EvSleep (seconds : QArith_base.Q)
| EvLoad (path : string)
| EvSave (path : string) (ws : Worksheet)
| EvLog (lvl : Level) (msg : Message).

(** The libraries the script calls.  [World] is whatever they depend on
    (the network, the remote service, the file system). *)
Class Env := {
  World : Type;
  (** [session.get(url, params=params)] *)
  session_get : World -> string -> list (string * string) -> World * result Response;
  (** [ET.fromstring(text)] *)
  ET_fromstring : string -> result Element;
  (** [openpyxl.load_workbook(path)].  A workbook is seen through its
      active worksheet, the one object the script reads and writes;
      workbooks whose active sheet is not a worksheet (a chart sheet,
      which has no [max_row]) are not modelled. *)
  openpyxl_load_workbook : World -> string -> World * result Worksheet;
  (** [workbook.save(path)] *)
  workbook_save : World -> string -> Worksheet -> World * result unit
}.

(** ** The [ExcelProcessor] object and the state of a run *)

(** The attributes set by [ExcelProcessor.__init__].  [self.workbook] and
    [self.sheet] are one object seen through two names (the workbook and
    its active sheet): the field [sheet] holds it, [None] before
    [load_workbook]. *)
Record ExcelProcessor := mkExcelProcessor {
  input_file : string;
  output_file : string;
  sheet : option Worksheet;
  total_rows : nat;
  processed_rows : nat;
  success_count : nat;
  error_count : nat;
  no_data_count : nat
}.

(** [ExcelProcessor(input_file, output_file)] *)
Definition ExcelProcessor_init (input output : string) : ExcelProcessor :=
  {| input_file := input; output_file := output; sheet := None;
     total_rows := 0; processed_rows := 0; success_count := 0;
     error_count := 0; no_data_count := 0 |}.

(** How control leaves the [try] block of one loop iteration. *)
Inductive flow := FallThrough | Continue.

Section Pipeline.
Context {E : Env}.

Record State := mkState {
  self : ExcelProcessor;
  world : World;
  trace : list Event
}.

(** Computations: state passing, with Python exceptions.  A raised
    exception keeps the state reached so far. *)
Definition M (A : Type) : Type := State -> result A * State.

Definition ret {A} (a : A) : M A := fun st => (Return a, st).
Definition raise {A} (e : exn) : M A := fun st => (Raise e, st).
Definition bind {A B} (m : M A) (k : A -> M B) : M B :=
  fun st =>
    match m st with
    | (Return a, st') => k a st'
    | (Raise e, st') => (Raise e, st')
    end.

(** [try: m  except ...: h]: the handler [h e] is [None] when no
    [except] clause matches the class of [e]. *)
Definition try_except {A} (m : M A) (h : exn -> option (M A)) : M A :=
  fun st =>
    match m st with
    | (Return a, st') => (Return a, st')
    | (Raise e, st') =>
        match h e with
        | Some handler => handler st'
        | None => (Raise e, st')
        end
    end.

Definition lift {A} (r : result A) : M A := fun st => (r, st).

Definition emit (ev : Event) : M unit :=
  fun st => (Return tt, {| self := self st; world := world st;
                           trace := trace st ++ [ev] |}).

Definition logger (lvl : Level) (msg : Message) : M unit := emit (EvLog lvl msg).

Definition get_self : M ExcelProcessor := fun st => (Return (self st), st).

Definition set_self (p : ExcelProcessor) : M unit :=
  fun st => (Return tt, {| self := p; world := world st; trace := trace st |}).

(** A call into a library: the request is recorded, the world moves on. *)
Definition call {A} (ev : Event) (f : World -> World * result A) : M A :=
  fun st =>
    let (w, r) := f (world st) in
    (r, {| self := self st; world := w; trace := trace st ++ [ev] |}).

(** [for x in xs: body] *)
Fixpoint for_each {A} (xs : list A) (body : A -> M unit) : M unit :=
  match xs with
  | [] => ret tt
  | x :: xs' => bind (body x) (fun _ => for_each xs' body)
  end.

End Pipeline.

Arguments State : clear implicits.
Arguments State {E}.

Notation "'let*' x ':=' m 'in' k" := (bind m (fun x => k))
  (at level 10, x name, m at level 100, k at level 200).
Notation "m ';;;' k" := (bind m (fun _ => k))
  (at level 100, k at level 200, right associativity).

(** ** class LaximoAPI *)

Section LaximoAPI.
Context {E : Env}.

(** [time.sleep(seconds)] *)
Definition sleep (seconds : QArith_base.Q) : M unit := emit (EvSleep seconds).

(** [self.session.get(url, params=params)] *)
Definition get (url : string) (params : list (string * string)) : M Response :=
  call (EvGet url params) (fun w => session_get w url params).

(** [response.raise_for_status()]: [HTTPError] for a 4xx or 5xx status. *)
Definition raise_for_status (response : Response) : M unit :=
  if ((400 <=? status_code response) && (status_code response <? 600))%Z
  then raise RequestException
  else ret tt.

Definition detail_of (detail : Element) : detail_info :=
  {| detailid := Element_get detail "detailid";
     d_manufacturer := Element_get detail "manufacturer";
     d_oem := Element_get detail "oem";
     d_formattedoem := Element_get detail "formattedoem";
     d_name := Element_get detail "name" |}.

Definition replacement_of (row : Element) : replacement_info :=
  {| r_manufacturer := Element_get row "manufacturer";
     r_oem := Element_get row "oem";
     formattedoem := Element_get row "formattedoem";
     r_name := Element_get row "name";
     rate := Element_get row "rate" |}.

Definition find_oem (oem : string) : M (list detail_info) :=
  let params :=
    [("FindOEM", "Locale=ru_RU|OEM=" +:+ oem +:+ "|ReplacementTypes=|Options=")] in
  try_except
    (let* response := get LAXIMO_BASE_URL params in
     raise_for_status response ;;;
     let* root := lift (ET_fromstring (text response)) in
     ret (map detail_of (findall_descendants "detail" root)))
    (fun e =>
       match e with
       | RequestException =>
           Some (logger ERROR (MsgFindOemRequestError oem e) ;;; ret [])
       | ParseError =>
           Some (logger ERROR (MsgFindOemParseError oem e) ;;; ret [])
       | _ => None
       end).

Definition find_replacements (detail_id : string) : M (list replacement_info) :=
  let params :=
    [("FindReplacements", "Locale=ru_RU|DetailId=" +:+ detail_id)] in
  try_except
    (let* response := get LAXIMO_BASE_URL params in
     raise_for_status response ;;;
     let* root := lift (ET_fromstring (text response)) in
     ret (map replacement_of (findall_descendants "row" root)))
    (fun e =>
       match e with
       | RequestException =>
           Some (logger ERROR (MsgFindReplacementsRequestError detail_id e) ;;; ret [])
       | ParseError =>
           Some (logger ERROR (MsgFindReplacementsParseError detail_id e) ;;; ret [])
       | _ => None
       end).

End LaximoAPI.

(** ** class ExcelProcessor *)

(** Attribute assignments on [self]. *)
Definition set_loaded (p : ExcelProcessor) (ws : Worksheet) : ExcelProcessor :=
  {| input_file := input_file p; output_file := output_file p;
     sheet := Some ws; total_rows := max_row ws;
     processed_rows := processed_rows p; success_count := success_count p;
     error_count := error_count p; no_data_count := no_data_count p |}.

Definition set_sheet (p : ExcelProcessor) (ws : Worksheet) : ExcelProcessor :=
  {| input_file := input_file p; output_file := output_file p;
     sheet := Some ws; total_rows := total_rows p;
     processed_rows := processed_rows p; success_count := success_count p;
     error_count := error_count p; no_data_count := no_data_count p |}.

Definition incr_processed_rows (p : ExcelProcessor) : ExcelProcessor :=
  {| input_file := input_file p; output_file := output_file p;
     sheet := sheet p; total_rows := total_rows p;
     processed_rows := processed_rows p + 1; success_count := success_count p;
     error_count := error_count p; no_data_count := no_data_count p |}.

Definition incr_success_count (p : ExcelProcessor) : ExcelProcessor :=
  {| input_file := input_file p; output_file := output_file p;
     sheet := sheet p; total_rows := total_rows p;
     processed_rows := processed_rows p; success_count := success_count p + 1;
     error_count := error_count p; no_data_count := no_data_count p |}.

Definition incr_error_count (p : ExcelProcessor) : ExcelProcessor :=
  {| input_file := input_file p; output_file := output_file p;
     sheet := sheet p; total_rows := total_rows p;
     processed_rows := processed_rows p; success_count := success_count p;
     error_count := error_count p + 1; no_data_count := no_data_count p |}.

Definition incr_no_data_count (p : ExcelProcessor) : ExcelProcessor :=
  {| input_file := input_file p; output_file := output_file p;
     sheet := sheet p; total_rows := total_rows p;
     processed_rows := processed_rows p; success_count := success_count p;
     error_count := error_count p; no_data_count := no_data_count p + 1 |}.

(** The inner loop of step 2: [all_cross_numbers.add(formatted_oem)] for
    every replacement whose [formattedoem] is truthy. *)
Fixpoint add_cross_numbers (all_cross_numbers : gset string)
    (replacements : list replacement_info) : gset string :=
  match replacements with
  | [] => all_cross_numbers
  | replacement :: rest =>
      match formattedoem replacement with
      | Some formatted_oem =>
          if PyStr.nonempty formatted_oem
          then add_cross_numbers ({[formatted_oem]} ∪ all_cross_numbers) rest
          else add_cross_numbers all_cross_numbers rest
      | None => add_cross_numbers all_cross_numbers rest
      end
  end.

(** [", ".join(sorted(all_cross_numbers))] *)
Definition cross_numbers_text (all_cross_numbers : gset string) : string :=
  PyStr.join ", " (PyStr.sorted (elements all_cross_numbers)).

(** Step 3, lines 250 to 258.  [current_description] is the cell value
    or [""]; [.rstrip()] on a value that is not a [str] raises
    [AttributeError]. *)
Definition merge_description (current_description : CellValue) (text : string)
  : result string :=
  if truthy current_description then
    match current_description with
    | VStr s =>
        let s :=
          if negb (PyStr.endswith_any (PyStr.rstrip s) [","; " "])
          then s +:+ ", "
          else s in
        Return (s +:+ text)
    | _ => Raise AttributeError
    end
  else Return text.

(** The non-final save path: [f"{base}_temp{ext}"]. *)
Definition temp_path (output : string) : string :=
  let (base, ext) := PyStr.splitext output in
  base +:+ "_temp" +:+ ext.

Section ExcelProcessorMethods.
Context {E : Env}.

Definition modify_self (f : ExcelProcessor -> ExcelProcessor) : M unit :=
  let* p := get_self in set_self (f p).

(** [self.sheet.cell(row=r, column=c).value]; [self.sheet] being [None]
    is an [AttributeError]. *)
Definition read_cell (r c : nat) : M CellValue :=
  let* p := get_self in
  match sheet p with
  | Some ws => ret (cell_value ws r c)
  | None => raise AttributeError
  end.

(** [self.sheet.cell(row=r, column=c).value = v]: the cell is looked
    up first, then the setter checks [v] and stores it. *)
Definition write_cell (r c : nat) (v : CellValue) : M unit :=
  let* p := get_self in
  match sheet p with
  | Some ws =>
      let* kept := lift (bind_value v) in
      set_self (set_sheet p (set_cell_value ws r c kept))
  | None => raise AttributeError
  end.

(** [load_workbook()], lines 147 to 158.  The workbook the library
    returns is held through its active worksheet, so the assignments to
    [self.workbook] and [self.sheet] are one; [max_row] of a worksheet is
    always there. *)
Definition load_workbook : M bool :=
  try_except
    (let* p := get_self in
     logger INFO (MsgLoading (input_file p)) ;;;
     let* ws := call (EvLoad (input_file p))
                     (fun w => openpyxl_load_workbook w (input_file p)) in
     set_self (set_loaded p ws) ;;;
     logger INFO (MsgLoaded (max_row ws)) ;;;
     ret true)
    (fun e => Some (logger ERROR (MsgLoadError e) ;;; ret false)).

Definition save_workbook (is_final : bool) : M bool :=
  try_except
    (let* p := get_self in
     let save_path :=
       if negb is_final then temp_path (output_file p) else output_file p in
     match sheet p with
     | Some ws =>
         call (EvSave save_path ws) (fun w => workbook_save w save_path ws)
     | None => raise AttributeError
     end ;;;
     logger INFO (MsgSaved save_path) ;;;
     ret true)
    (fun e => Some (logger ERROR (MsgSaveError e) ;;; ret false)).

(** Step 2: the loop over [details]. *)
Fixpoint fan_out (details : list detail_info) (all_cross_numbers : gset string)
  : M (gset string) :=
  match details with
  | [] => ret all_cross_numbers
  | detail :: rest =>
      match detailid detail with
      | Some detail_id =>
          if PyStr.nonempty detail_id then
            sleep REQUEST_DELAY ;;;
            let* replacements := find_replacements detail_id in
            fan_out rest (add_cross_numbers all_cross_numbers replacements)
          else fan_out rest all_cross_numbers
      | None => fan_out rest all_cross_numbers
      end
  end.

(** The body of the [try] block for one row (lines 199 to 264). *)
Definition row_body (row_idx : nat) : M flow :=
  let* article := read_cell row_idx 4 in
  if negb (truthy article) then
    logger WARNING (MsgEmptyArticle row_idx) ;;;
    modify_self incr_no_data_count ;;;
    ret Continue
  else
    let article := PyStr.strip (py_str article) in
    let* p := get_self in
    logger INFO (MsgProcessing row_idx (total_rows p) article) ;;;
    let* description := read_cell row_idx 6 in
    let current_description := py_or description (VStr "") in
    let* details := find_oem article in
    match details with
    | [] =>
        logger WARNING (MsgNoDetails row_idx article) ;;;
        modify_self incr_no_data_count ;;;
        ret Continue
    | _ :: _ =>
        let* all_cross_numbers := fan_out details ∅ in
        if decide (all_cross_numbers = ∅) then
          logger WARNING (MsgNoCrossNumbers row_idx article) ;;;
          modify_self incr_no_data_count ;;;
          ret Continue
        else
          let text := cross_numbers_text all_cross_numbers in
          let* new_description := lift (merge_description current_description text) in
          write_cell row_idx 6 (VStr new_description) ;;;
          modify_self incr_success_count ;;;
          logger INFO (MsgSuccess row_idx text) ;;;
          ret FallThrough
    end.

(** The statements after the [try] block (lines 270 to 282), which
    [continue] skips. *)
Definition after_try : M unit :=
  modify_self incr_processed_rows ;;;
  let* p := get_self in
  if (processed_rows p mod SAVE_INTERVAL =? 0)%nat then
    logger INFO (MsgProgress (processed_rows p) (total_rows p)) ;;;
    logger INFO MsgTimeLeft ;;;
    save_workbook false ;;;
    ret tt
  else ret tt.

(** One iteration of the [for] loop (lines 198 to 282). *)
Definition iteration (row_idx : nat) : M unit :=
  let* f :=
    try_except (row_body row_idx)
      (fun e => Some (logger ERROR (MsgRowError row_idx e) ;;;
                      modify_self incr_error_count ;;;
                      ret FallThrough)) in
  match f with
  | Continue => ret tt
  | FallThrough => after_try
  end.

(** The final save and the summary (lines 284 to 299). *)
Definition finish : M bool :=
  let* result := save_workbook true in
  logger INFO MsgRule ;;;
  logger INFO MsgDone ;;;
  let* p := get_self in
  logger INFO (MsgTotalRows (total_rows p)) ;;;
  logger INFO (MsgProcessedRows (processed_rows p)) ;;;
  logger INFO (MsgSuccessCount (success_count p)) ;;;
  logger INFO (MsgErrorCount (error_count p)) ;;;
  logger INFO (MsgNoDataCount (no_data_count p)) ;;;
  logger INFO MsgTotalTime ;;;
  logger INFO MsgRule ;;;
  ret result.

(** [range(2, self.total_rows + 1)] *)
Definition data_rows (p : ExcelProcessor) : list nat :=
  seq 2 (total_rows p + 1 - 2).

Definition process_file : M bool :=
  let* loaded := load_workbook in
  if negb loaded then ret false
  else
    let* p := get_self in
    for_each (data_rows p) iteration ;;;
    finish.

(** [ExcelProcessor(input, output).process_file(laximo_api)] from a
    given world, with an empty trace. *)
Definition run (input output : string) (w : World) : result bool * State :=
  process_file {| self := ExcelProcessor_init input output;
                  world := w; trace := [] |}.

End ExcelProcessorMethods.

(** ** Reading a trace *)

Inductive Outcome := Success | Error | NoData.

(** The row and outcome a log line reports, for the five lines that close
    the handling of a row. *)
Definition row_outcome (ev : Event) : option (nat * Outcome) :=
  match ev with
  | EvLog _ (MsgEmptyArticle r) => Some (r, NoData)
  | EvLog _ (MsgNoDetails r _) => Some (r, NoData)
  | EvLog _ (MsgNoCrossNumbers r _) => Some (r, NoData)
  | EvLog _ (MsgSuccess r _) => Some (r, Success)
  | EvLog _ (MsgRowError r _) => Some (r, Error)
  | _ => None
  end.

Definition save_of (ev : Event) : option (string * Worksheet) :=
  match ev with
  | EvSave path ws => Some (path, ws)
  | _ => None
  end.

Definition remote_call_of (ev : Event) : option (string * list (string * string)) :=
  match ev with
  | EvGet url params => Some (url, params)
  | _ => None
  end.

Definition row_outcomes (tr : list Event) : list (nat * Outcome) := omap row_outcome tr.
Definition saves (tr : list Event) : list (string * Worksheet) := omap save_of tr.
Definition remote_calls (tr : list Event) := omap remote_call_of tr.

Definition is_outcome (o : Outcome) (x : nat * Outcome) : bool :=
  match o, snd x with
  | Success, Success | Error, Error | NoData, NoData => true
  | _, _ => false
  end.

(** The counter an outcome increments. *)
Definition count_outcome (o : Outcome) (p : ExcelProcessor) : ExcelProcessor :=
  match o with
  | Success => incr_success_count p
  | Error => incr_error_count p
  | NoData => incr_no_data_count p
  end.


(** The normalized code a replacement record contributes, if any. *)
Definition has_code (c : string) (r : replacement_info) : Prop :=
  formattedoem r = Some c /\ c <> "".

Definition lacks_code (r : replacement_info) : Prop :=
  truthy_opt (formattedoem r) = false.

(** "Absent or blank" for a source cell, in the words of the
    specification: no value, or text that is empty once trimmed. *)
Definition absent_or_blank (v : CellValue) : Prop :=
  match v with
  | VNone => True
  | VStr s => PyStr.strip s = ""
  | VObj _ _ => False
  end.

Section Ghost.
Context {E : Env}.

(** The replacement records the loop of step 2 receives, in the order
    of the calls: [fan_out] with the records kept instead of added to
    the set.  Used in statements only. *)
Fixpoint fetched (details : list detail_info) : M (list replacement_info) :=
  match details with
  | [] => ret []
  | detail :: rest =>
      match detailid detail with
      | Some detail_id =>
          if PyStr.nonempty detail_id then
            sleep REQUEST_DELAY ;;;
            let* replacements := find_replacements detail_id in
            let* more := fetched rest in
            ret (replacements ++ more)
          else fetched rest
      | None => fetched rest
      end
  end.

(** The state in which step 1 of a row calls [find_oem]: after the
    "processing" log line. *)
Definition at_find_oem (st : State) (row_idx : nat) (article : string) : State :=
  snd (logger INFO (MsgProcessing row_idx (total_rows (self st)) article) st).

(** The state a run is in when its loop starts. *)
Definition loaded (input output : string) (w : World) : State :=
  snd (load_workbook {| self := ExcelProcessor_init input output;
                        world := w; trace := [] |}).

(** The two lookups of the client, and the request each one sends. *)
Inductive Lookup := FindOEM | FindReplacements.

Definition lookup_params (q : Lookup) (arg : string) : list (string * string) :=
  match q with
  | FindOEM =>
      [("FindOEM", "Locale=ru_RU|OEM=" +:+ arg +:+ "|ReplacementTypes=|Options=")]
  | FindReplacements =>
      [("FindReplacements", "Locale=ru_RU|DetailId=" +:+ arg)]
  end.

Definition lookup_tag (q : Lookup) : string :=
  match q with FindOEM => "detail" | FindReplacements => "row" end.



End Ghost.

(** ** Predicates on steps of a run *)

(** Events that neither close a row nor save the workbook. *)
Definition silent (evs : list Event) : Prop :=
  row_outcomes evs = [] /\ saves evs = [].

(** A step that leaves [self] alone and adds only silent events: what the
    calls into [LaximoAPI] do. *)
Definition api_step {E : Env} (st st' : State) : Prop :=
  self st' = self st /\ exists evs, trace st' = trace st ++ evs /\ silent evs.

(** The state after the log line and counter increment that close a row
    as [o]. *)
Definition close_row {E : Env} (st : State) (o : Outcome) (ev : Event) : State :=
  {| self := count_outcome o (self st); world := world st;
     trace := trace st ++ [ev] |}.

(** The path [save_workbook(is_final)] writes to. *)
Definition save_path (p : ExcelProcessor) (is_final : bool) : string :=
  if negb is_final then temp_path (output_file p) else output_file p.

(** The save a checkpoint performs on processor [p]. *)
Definition checkpoint_saves (p : ExcelProcessor) : list (string * Worksheet) :=
  match sheet p with
  | Some ws => [(temp_path (output_file p), ws)]
  | None => []
  end.

Definition counts (o : Outcome) (o' : Outcome) : nat :=
  match o, o' with
  | Success, Success | Error, Error | NoData, NoData => 1
  | _, _ => 0
  end.

(** Whether a row with outcome [o] increments [processed_rows]. *)
Definition processed (o : Outcome) : nat :=
  match o with NoData => 0 | _ => 1 end.

(** How many rows of a list of outcomes closed as [o]. *)
Fixpoint tally (o : Outcome) (l : list (nat * Outcome)) : nat :=
  match l with
  | [] => 0
  | x :: l' => counts o (snd x) + tally o l'
  end.

(** The save [finish] performs on processor [p]. *)
Definition final_saves (p : ExcelProcessor) : list (string * Worksheet) :=
  match sheet p with
  | Some ws => [(output_file p, ws)]
  | None => []
  end.


(** ** More readers of a trace *)

#[global] Instance Outcome_eq_dec : EqDecision Outcome.
Proof. solve_decision. Defined.

Definition sleep_of (ev : Event) : option QArith_base.Q :=
  match ev with
  | EvSleep seconds => Some seconds
  | _ => None
  end.

Definition log_of (ev : Event) : option (Level * Message) :=
  match ev with
  | EvLog lvl msg => Some (lvl, msg)
  | _ => None
  end.

Definition load_of (ev : Event) : option string :=
  match ev with
  | EvLoad path => Some path
  | _ => None
  end.

Definition sleeps (tr : list Event) : list QArith_base.Q := omap sleep_of tr.
Definition logs (tr : list Event) : list (Level * Message) := omap log_of tr.
Definition loads (tr : list Event) : list string := omap load_of tr.

(** The request a lookup sends: the URL and the parameters of
    [session.get]. *)
Definition request (q : Lookup) (arg : string) : string * list (string * string) :=
  (LAXIMO_BASE_URL, lookup_params q arg).

(** The identifiers the loop of step 2 queries: the truthy [detailid]s,
    in the order of [details]. *)
Definition detail_ids (details : list detail_info) : list string :=
  omap (fun detail =>
          match detailid detail with
          | Some detail_id => if PyStr.nonempty detail_id then Some detail_id else None
          | None => None
          end) details.

(** Every request of a trace comes directly after a [time.sleep]. *)
Fixpoint paced_from (slept : bool) (tr : list Event) : bool :=
  match tr with
  | [] => true
  | EvGet _ _ :: tr' => slept && paced_from false tr'
  | EvSleep _ :: tr' => paced_from true tr'
  | _ :: tr' => paced_from false tr'
  end.

Definition paced (tr : list Event) : bool := paced_from false tr.

(** The clauses [except requests.exceptions.RequestException] and
    [except ET.ParseError] of the client catch exactly these classes. *)
Definition absorbed (e : exn) : bool :=
  match e with
  | RequestException | ParseError => true
  | _ => false
  end.

(** The outcome of a row, from the way its [try] block ends. *)
Definition outcome_of (r : result flow) : Outcome :=
  match r with
  | Return FallThrough => Success
  | Return Continue => NoData
  | Raise _ => Error
  end.

Section ClientViews.
Context {E : Env}.

(** What a lookup does with the library results it gets in world [w]:
    the exception that escapes it, if any. *)
Definition escaping (q : Lookup) (w : World) (arg : string) : option exn :=
  match snd (session_get w LAXIMO_BASE_URL (lookup_params q arg)) with
  | Raise e => if absorbed e then None else Some e
  | Return response =>
      if ((400 <=? status_code response) && (status_code response <? 600))%Z
      then None
      else match ET_fromstring (text response) with
           | Raise e => if absorbed e then None else Some e
           | Return _ => None
           end
  end.

(** The exception a lookup catches, if any: one raised by
    [session.get], the [HTTPError] of [raise_for_status], or one raised
    by the parser. *)
Definition caught (q : Lookup) (w : World) (arg : string) : option exn :=
  match snd (session_get w LAXIMO_BASE_URL (lookup_params q arg)) with
  | Raise e => if absorbed e then Some e else None
  | Return response =>
      if ((400 <=? status_code response) && (status_code response <? 600))%Z
      then Some RequestException
      else match ET_fromstring (text response) with
           | Raise e => if absorbed e then Some e else None
           | Return _ => None
           end
  end.

(** The state a lookup starts from, and the result and state it ends
    with, for either lookup; the records are counted, their type differs. *)
Definition lookup_result (q : Lookup) (arg : string) (st : State)
  : result nat * State :=
  match q with
  | FindOEM =>
      match find_oem arg st with
      | (Return l, st') => (Return (length l), st')
      | (Raise e, st') => (Raise e, st')
      end
  | FindReplacements =>
      match find_replacements arg st with
      | (Return l, st') => (Return (length l), st')
      | (Raise e, st') => (Raise e, st')
      end
  end.

(** The error line a lookup logs for a caught exception. *)
Definition lookup_error_line (q : Lookup) (arg : string) (e : exn) : Level * Message :=
  (ERROR,
   match q, e with
   | FindOEM, ParseError => MsgFindOemParseError arg e
   | FindOEM, _ => MsgFindOemRequestError arg e
   | FindReplacements, ParseError => MsgFindReplacementsParseError arg e
   | FindReplacements, _ => MsgFindReplacementsRequestError arg e
   end).

End ClientViews.

(** ** mini_test_laximo.py *)

Definition TEST_ROWS : nat := 3.

(** One constructor per [logger] call of the test script, with the
    values its f-string interpolates. *)
Inductive TestMessage :=
| TMsgStart (test_rows : nat)
| TMsgEmptyArticle (row : nat)
| TMsgArticle (test_article : string)
| TMsgNoDetails (row : nat) (test_article : string)
| TMsgDetailsFound (n : nat)
| TMsgDetail (i : nat) (detail : detail_info)
| TMsgMoreDetails (n : nat)
| TMsgNoDetailId (row : nat)
| TMsgLookup (detail_id : string)
| TMsgNoReplacements (row : nat) (detail_id : string)
| TMsgReplacementsFound (n : nat)
| TMsgReplacement (i : nat) (formatted_oem manufacturer : option string)
| TMsgMoreReplacements (n : nat)
| TMsgSampleText (joined : string) (more : option nat)
| TMsgArticleDone (test_article : string)
| TMsgRule
| TMsgSummary (success_count test_rows : nat)
| TMsgError (e : exn).

(** How one pass through the body of the [for] loop ends: at its end or
    by [continue], or by [break]. *)
Inductive loop_flow := LoopNext | LoopBreak.

Section MiniTest.
Context {E : Env}.

(** The state of the test script: the state the lookups run in, and the
    lines written to the script's own logger. *)
Definition TestState : Type := State * list (Level * TestMessage).

Definition T (A : Type) : Type := TestState -> result A * TestState.

Definition tret {A} (a : A) : T A := fun ts => (Return a, ts).

Definition tbind {A B} (m : T A) (k : A -> T B) : T B :=
  fun ts =>
    match m ts with
    | (Return a, ts') => k a ts'
    | (Raise e, ts') => (Raise e, ts')
    end.

(** [try: m  except Exception as e: h e] *)
Definition ttry {A} (m : T A) (h : exn -> T A) : T A :=
  fun ts =>
    match m ts with
    | (Return a, ts') => (Return a, ts')
    | (Raise e, ts') => h e ts'
    end.

(** A computation of the main module, run from the test script. *)
Definition tlift {A} (m : M A) : T A :=
  fun ts =>
    let (r, st') := m (fst ts) in (r, (st', snd ts)).

Definition tlog (lvl : Level) (msg : TestMessage) : T unit :=
  fun ts => (Return tt, (fst ts, snd ts ++ [(lvl, msg)])).

(** [for i, x in enumerate(xs): logger.info(line(i + 1, x))] *)
Fixpoint tlog_each {A} (line : nat -> A -> TestMessage) (i : nat) (xs : list A)
  : T unit :=
  match xs with
  | [] => tret tt
  | x :: xs' =>
      tbind (tlog INFO (line (i + 1) x)) (fun _ => tlog_each line (i + 1) xs')
  end.

(** [[r.get("formattedoem") for r in replacements if r.get("formattedoem")]] *)
Definition sample_cross_numbers (replacements : list replacement_info) : list string :=
  omap (fun r => match formattedoem r with
                 | Some code => if PyStr.nonempty code then Some code else None
                 | None => None
                 end) replacements.

(** The body of the [for] loop of the test script (lines 57 to 114). *)
Definition test_row (sheet : Worksheet) (row : nat) (success_count : nat)
  : T (loop_flow * nat) :=
  if (max_row sheet <? row)%nat then tret (LoopBreak, success_count)
  else
    let test_article := cell_value sheet row 4 in
    if negb (truthy test_article) then
      tbind (tlog WARNING (TMsgEmptyArticle row)) (fun _ =>
      tret (LoopNext, success_count))
    else
      let article := py_str test_article in
      tbind (tlog INFO (TMsgArticle article)) (fun _ =>
      tbind (tlift (find_oem article)) (fun details =>
      match details with
      | [] =>
          tbind (tlog WARNING (TMsgNoDetails row article)) (fun _ =>
          tret (LoopNext, success_count))
      | first :: _ =>
          tbind (tlog INFO (TMsgDetailsFound (length details))) (fun _ =>
          tbind (tlog_each TMsgDetail 0 (take 2 details)) (fun _ =>
          tbind (if (2 <? length details)%nat
                 then tlog INFO (TMsgMoreDetails (length details - 2))
                 else tret tt) (fun _ =>
          match detailid first with
          | Some detail_id =>
              if PyStr.nonempty detail_id then
                tbind (tlog INFO (TMsgLookup detail_id)) (fun _ =>
                tbind (tlift (find_replacements detail_id)) (fun replacements =>
                match replacements with
                | [] =>
                    tbind (tlog WARNING (TMsgNoReplacements row detail_id)) (fun _ =>
                    tret (LoopNext, success_count))
                | _ :: _ =>
                    tbind (tlog INFO (TMsgReplacementsFound (length replacements)))
                      (fun _ =>
                    tbind (tlog_each
                             (fun i r => TMsgReplacement i (formattedoem r)
                                           (r_manufacturer r))
                             0 (take 3 replacements)) (fun _ =>
                    tbind (if (3 <? length replacements)%nat
                           then tlog INFO
                                  (TMsgMoreReplacements (length replacements - 3))
                           else tret tt) (fun _ =>
                    let cross_numbers := sample_cross_numbers replacements in
                    tbind (tlog INFO
                             (TMsgSampleText
                                (PyStr.join ", " (take 5 cross_numbers))
                                (if (5 <? length cross_numbers)%nat
                                 then Some (length cross_numbers - 5)
                                 else None))) (fun _ =>
                    tbind (tlog INFO (TMsgArticleDone article)) (fun _ =>
                    tbind (tlog INFO TMsgRule) (fun _ =>
                    tret (LoopNext, success_count + 1)))))))
                end))
              else
                tbind (tlog WARNING (TMsgNoDetailId row)) (fun _ =>
                tret (LoopNext, success_count))
          | None =>
              tbind (tlog WARNING (TMsgNoDetailId row)) (fun _ =>
              tret (LoopNext, success_count))
          end)))
      end)).

(** [for row in range(2, 2 + TEST_ROWS): ...], with its [break]. *)
Fixpoint test_loop (sheet : Worksheet) (rows : list nat) (success_count : nat)
  : T nat :=
  match rows with
  | [] => tret success_count
  | row :: rest =>
      tbind (test_row sheet row success_count) (fun '(flow, success_count) =>
      match flow with
      | LoopBreak => tret success_count
      | LoopNext => test_loop sheet rest success_count
      end)
  end.

(** [test_api_with_sample_articles()].  The module constant
    [EXCEL_FILE_PATH] is passed as an argument: its text has characters
    above code point 255. *)
Definition test_api_with_sample_articles (excel_file_path : string) : T bool :=
  ttry
    (tbind (tlift (call (EvLoad excel_file_path)
                        (fun w => openpyxl_load_workbook w excel_file_path)))
       (fun sheet =>
     tbind (tlog INFO (TMsgStart TEST_ROWS)) (fun _ =>
     tbind (test_loop sheet (seq 2 TEST_ROWS) 0) (fun success_count =>
     tbind (tlog INFO (TMsgSummary success_count TEST_ROWS)) (fun _ =>
     tret (0 <? success_count)%nat)))))
    (fun e =>
       tbind (tlog ERROR (TMsgError e)) (fun _ => tret false)).

End MiniTest.

(** Events of a read-only step: no save, no sleep, no load, no row
    closed, and at most [n] requests. *)
Definition quiet_calls (n : nat) (evs : list Event) : Prop :=
  saves evs = [] /\ sleeps evs = [] /\ loads evs = [] /\ row_outcomes evs = []
  /\ length (remote_calls evs) <= n.

(** A step of the test script that leaves the processor alone, only adds
    to the trace and to the script's log, and is read-only with at most
    [n] requests, whether it returns or raises. *)
Definition tsafe {E : Env} {A : Type} (n : nat) (m : T A) : Prop :=
  forall ts : TestState,
    self (fst (snd (m ts))) = self (fst ts)
    /\ exists (evs : list Event) (lines : list (Level * TestMessage)),
         trace (fst (snd (m ts))) = trace (fst ts) ++ evs
         /\ snd (snd (m ts)) = snd ts ++ lines
         /\ quiet_calls n evs.

(** ** The cadence of the saves *)




(** ** A small concrete world

    A remote service that knows a handful of part numbers, an XML parser
    for exactly the documents it sends, and a file system with two
    workbooks.  The world state counts the calls made. *)

Module Demo.

Definition doc_details : string :=
  "<r><detail detailid='d1'/><detail detailid='d2'/></r>".
Definition doc_d1 : string :=
  "<r><row formattedoem='X2'/><row formattedoem='X1'/></r>".
Definition doc_d2 : string :=
  "<r><row formattedoem='X1'/><row formattedoem='X3'/></r>".
Definition doc_nocode_details : string := "<r><detail detailid='d9'/></r>".
Definition doc_d9 : string := "<r><row oem='Q1'/><row formattedoem=''/></r>".
Definition doc_none : string := "<r/>".
Definition doc_garbled : string := "<r><detail".

Definition elem (t key value : string) : Element :=
  mkElement t {[ key := value ]} [].

Definition fromstring (text : string) : result Element :=
  if String.eqb text doc_details then
    Return (mkElement "r" ∅ [elem "detail" "detailid" "d1"; elem "detail" "detailid" "d2"])
  else if String.eqb text doc_d1 then
    Return (mkElement "r" ∅ [elem "row" "formattedoem" "X2"; elem "row" "formattedoem" "X1"])
  else if String.eqb text doc_d2 then
    Return (mkElement "r" ∅ [elem "row" "formattedoem" "X1"; elem "row" "formattedoem" "X3"])
  else if String.eqb text doc_nocode_details then
    Return (mkElement "r" ∅ [elem "detail" "detailid" "d9"])
  else if String.eqb text doc_d9 then
    Return (mkElement "r" ∅ [elem "row" "oem" "Q1"; elem "row" "formattedoem" ""])
  else if String.eqb text doc_none then
    Return (mkElement "r" ∅ [])
  else Raise ParseError.

Definition oem_query (oem : string) : string :=
  "Locale=ru_RU|OEM=" +:+ oem +:+ "|ReplacementTypes=|Options=".
Definition replacements_query (detail_id : string) : string :=
  "Locale=ru_RU|DetailId=" +:+ detail_id.

Definition respond (params : list (string * string)) : result Response :=
  match params with
  | [(op, q)] =>
      if String.eqb op "FindOEM" then
        if String.eqb q (oem_query "12345") then Return (mkResponse 200 doc_details)
        else if String.eqb q (oem_query "nocode") then Return (mkResponse 200 doc_nocode_details)
        else if String.eqb q (oem_query "boom") then Raise OtherException
        else if String.eqb q (oem_query "timeout") then Raise RequestException
        else if String.eqb q (oem_query "missing") then Return (mkResponse 404 doc_none)
        else if String.eqb q (oem_query "garbled") then Return (mkResponse 200 doc_garbled)
        else Return (mkResponse 200 doc_none)
      else if String.eqb op "FindReplacements" then
        if String.eqb q (replacements_query "d1") then Return (mkResponse 200 doc_d1)
        else if String.eqb q (replacements_query "d2") then Return (mkResponse 200 doc_d2)
        else if String.eqb q (replacements_query "d9") then Return (mkResponse 200 doc_d9)
        else if String.eqb q (replacements_query "timeout") then Raise RequestException
        else if String.eqb q (replacements_query "garbled") then Return (mkResponse 200 doc_garbled)
        else Return (mkResponse 200 doc_none)
      else Raise OtherException
  | _ => Raise OtherException
  end.

(** Eight rows: a header, then one row per path through the loop body. *)
Definition catalog : Worksheet :=
  {| cells := list_to_map
       [ ((1, 4), VStr "Article"); ((1, 6), VStr "Description");
         ((2, 4), VStr "boom");    ((2, 6), VStr "old");
         ((3, 4), VStr " 12345 ");
         ((4, 6), VStr "untouched");
         ((5, 4), VStr "   ");     ((5, 6), VStr "kept");
         ((6, 4), VStr "nocode");  ((6, 6), VStr "keep");
         ((7, 4), VObj true "12345"); ((7, 6), VStr "A ");
         ((8, 4), VStr "12345");   ((8, 6), VObj true "7") ];
     max_row := 8 |}.

(** A header and [n] rows that all resolve. *)
Definition long_catalog (n : nat) : Worksheet :=
  {| cells := list_to_map (map (fun r => ((r, 4), VStr "12345")) (seq 2 n));
     max_row := S n |}.

Definition load (path : string) : result Worksheet :=
  if String.eqb path "catalog.xlsx" then Return catalog
  else if String.eqb path "long.xlsx" then Return (long_catalog 250)
  else Raise OtherException.

Definition save (path : string) : result unit :=
  if String.eqb path "/readonly/out.xlsx" then Raise OtherException
  else Return tt.

#[export] Instance env : Env := {|
  World := nat;
  session_get := fun w _ params => (S w, respond params);
  ET_fromstring := fromstring;
  openpyxl_load_workbook := fun w path => (S w, load path);
  workbook_save := fun w path _ => (S w, save path)
|}.

(** The world before any call, and after one. *)
Definition world0 : World := 0.
Definition world1 : World := 1.

(** A processor on the small catalog, loaded, before the first row. *)
Definition start : State :=
  {| self := set_loaded (ExcelProcessor_init "catalog.xlsx" "out/result.xlsx") catalog;
     world := 0; trace := [] |}.


(** Row 6: one detail, whose replacement records carry no normalized
    code. *)
Definition nocode_details : list detail_info :=
  [mkDetail (Some "d9") None None None None].
Definition nocode_replacements : list replacement_info :=
  [mkReplacement None (Some "Q1") None None None;
   mkReplacement None None (Some "") None None].
Definition nocode_resolved : State :=
  snd (find_oem "nocode" (at_find_oem start 6 "nocode")).
Definition nocode_fetched : State := snd (fetched nocode_details nocode_resolved).

End Demo.


(** ** A second small world

    The service of [Demo], which also knows a part number whose records
    carry no usable [detailid], and a file system with three more
    workbooks: one that holds only the header row, one whose single data
    row has that part number, and one with a row without a code before a
    hundred rows that resolve. *)

Module Demo2.

Definition doc_noid : string := "<r><detail oem='N1'/><detail detailid=''/></r>".

Definition fromstring (text : string) : result Element :=
  if String.eqb text doc_noid then
    Return (mkElement "r" ∅ [Demo.elem "detail" "oem" "N1";
                             Demo.elem "detail" "detailid" ""])
  else Demo.fromstring text.

Definition respond (params : list (string * string)) : result Response :=
  match params with
  | [(op, q)] =>
      if String.eqb op "FindOEM" && String.eqb q (Demo.oem_query "noid")
      then Return (mkResponse 200 doc_noid)
      else Demo.respond params
  | _ => Demo.respond params
  end.

Definition header_only : Worksheet :=
  {| cells := list_to_map [ ((1, 4), VStr "Article"); ((1, 6), VStr "Description") ];
     max_row := 1 |}.

Definition noid_sheet : Worksheet :=
  {| cells := list_to_map
       [ ((1, 4), VStr "Article"); ((1, 6), VStr "Description");
         ((2, 4), VStr "noid");    ((2, 6), VStr "stay") ];
     max_row := 2 |}.

(** A header, one row without a code, then a hundred rows that all
    resolve. *)
Definition gap_catalog : Worksheet :=
  {| cells := list_to_map (map (fun r => ((r, 4), VStr "12345")) (seq 3 100));
     max_row := 102 |}.

Definition load (path : string) : result Worksheet :=
  if String.eqb path "header.xlsx" then Return header_only
  else if String.eqb path "noid.xlsx" then Return noid_sheet
  else if String.eqb path "gap.xlsx" then Return gap_catalog
  else Demo.load path.

#[export] Instance env : Env := {|
  World := nat;
  session_get := fun w _ params => (S w, respond params);
  ET_fromstring := fromstring;
  openpyxl_load_workbook := fun w path => (S w, load path);
  workbook_save := fun w path _ => (S w, Demo.save path)
|}.

Definition world0 : World := 0.
Definition world1 : World := 1.

(** A processor before [load_workbook], and one loaded with each
    workbook. *)
Definition fresh : State :=
  {| self := ExcelProcessor_init "catalog.xlsx" "out/result.xlsx";
     world := 0; trace := [] |}.

Definition start (ws : Worksheet) : State :=
  {| self := set_loaded (ExcelProcessor_init "in.xlsx" "out/result.xlsx") ws;
     world := 0; trace := [] |}.

(** The records FindOEM returns for the part number without identifiers,
    and the state it returns them in. *)
Definition noid_details : list detail_info :=
  [mkDetail None None (Some "N1") None None;
   mkDetail (Some "") None None None None].
Definition noid_resolved : State :=
  snd (find_oem "noid" (at_find_oem (start noid_sheet) 2 "noid")).

End Demo2.

(** * Properties *)

(** ** String primitives *)

Example strip_ex : PyStr.strip "  12345 " = "12345".
Proof. reflexivity. Qed.

Example rstrip_ex : PyStr.rstrip "A,  " = "A,".
Proof. reflexivity. Qed.

Example splitext_ex1 :
  PyStr.splitext "/home/out/book.xlsx" = ("/home/out/book", ".xlsx").
Proof. reflexivity. Qed.

Example splitext_ex2 :
  PyStr.splitext "/home/out.d/.hidden" = ("/home/out.d/.hidden", "").
Proof. reflexivity. Qed.

Example sorted_ex :
  PyStr.sorted ["X2"; "X1"; "X3"; "X10"] = ["X1"; "X10"; "X2"; "X3"].
Proof. vm_compute. reflexivity. Qed.

Lemma string_app_cons (c : ascii) (a b : string) :
  String c a +:+ b = String c (a +:+ b).
Proof. reflexivity. Qed.










(** ** Steps of the lookup client *)

Section ClientSteps.
Context {E : Env}.

Lemma row_outcomes_app (a b : list Event) :
  row_outcomes (a ++ b) = row_outcomes a ++ row_outcomes b.
Proof. apply omap_app. Qed.

Lemma saves_app (a b : list Event) : saves (a ++ b) = saves a ++ saves b.
Proof. apply omap_app. Qed.

Lemma remote_calls_app (a b : list Event) :
  remote_calls (a ++ b) = remote_calls a ++ remote_calls b.
Proof. apply omap_app. Qed.

Lemma silent_nil : silent [].
Proof. split; reflexivity. Qed.

Lemma silent_app (a b : list Event) : silent a -> silent b -> silent (a ++ b).
Proof.
  intros [Ha1 Ha2] [Hb1 Hb2]. split.
  - now rewrite row_outcomes_app, Ha1, Hb1.
  - now rewrite saves_app, Ha2, Hb2.
Qed.

Lemma api_step_refl (st : State) : api_step st st.
Proof.
  split; [reflexivity |]. exists []. split; [now rewrite app_nil_r | apply silent_nil].
Qed.

Lemma api_step_trans (st1 st2 st3 : State) :
  api_step st1 st2 -> api_step st2 st3 -> api_step st1 st3.
Proof.
  intros [Hs1 (e1 & Ht1 & Hq1)] [Hs2 (e2 & Ht2 & Hq2)]. split.
  - congruence.
  - exists (e1 ++ e2). split; [| now apply silent_app].
    now rewrite Ht2, Ht1, app_assoc.
Qed.

Lemma api_step_base (st : State) (w : World) :
  api_step st {| self := self st; world := w; trace := trace st |}.
Proof.
  split; [reflexivity |]. exists []. split; [now rewrite app_nil_r | apply silent_nil].
Qed.

Lemma api_step_snoc (st : State) (s : ExcelProcessor) (w : World)
    (tr : list Event) (ev : Event) :
  api_step st {| self := s; world := w; trace := tr |} ->
  row_outcome ev = None -> save_of ev = None ->
  api_step st {| self := s; world := w; trace := tr ++ [ev] |}.
Proof.
  intros [Hs (evs & Ht & Hq)] H1 H2. cbn in *. split; [exact Hs |].
  exists (evs ++ [ev]). split; [now rewrite Ht, app_assoc |].
  apply silent_app; [exact Hq |].
  split; unfold row_outcomes, saves; cbn; [now rewrite H1 | now rewrite H2].
Qed.

Ltac api_events :=
  repeat first
    [ apply api_step_refl
    | apply api_step_base
    | (eapply api_step_snoc; [| reflexivity | reflexivity]) ].

Lemma find_oem_api (oem : string) (st : State) :
  api_step st (snd (find_oem oem st)).
Proof.
  unfold find_oem, try_except, bind, get, call, raise_for_status, lift,
    logger, emit, raise, ret.
  destruct (session_get _ _ _) as [w [response | e]]; cbn.
  - destruct (_ && _); cbn.
    + api_events.
    + destruct (ET_fromstring _) as [root | e]; cbn; [api_events |].
      destruct e; cbn; api_events.
  - destruct e; cbn; api_events.
Qed.

Lemma find_replacements_api (detail_id : string) (st : State) :
  api_step st (snd (find_replacements detail_id st)).
Proof.
  unfold find_replacements, try_except, bind, get, call, raise_for_status, lift,
    logger, emit, raise, ret.
  destruct (session_get _ _ _) as [w [response | e]]; cbn.
  - destruct (_ && _); cbn.
    + api_events.
    + destruct (ET_fromstring _) as [root | e]; cbn; [api_events |].
      destruct e; cbn; api_events.
  - destruct e; cbn; api_events.
Qed.

(** [fan_out] is [fetched] followed by the additions to the set. *)
Lemma add_cross_numbers_app (acc : gset string) (rs1 rs2 : list replacement_info) :
  add_cross_numbers acc (rs1 ++ rs2)
  = add_cross_numbers (add_cross_numbers acc rs1) rs2.
Proof.
  revert acc. induction rs1 as [|r rs1 IH]; intros acc; cbn; [reflexivity |].
  destruct (formattedoem r) as [c|]; [destruct (PyStr.nonempty c) |]; apply IH.
Qed.

Lemma fan_out_fetched (details : list detail_info) (acc : gset string) (st : State) :
  fan_out details acc st
  = match fetched details st with
    | (Return rs, st') => (Return (add_cross_numbers acc rs), st')
    | (Raise e, st') => (Raise e, st')
    end.
Proof.
  revert acc st. induction details as [|d details IH]; intros acc st; cbn.
  - reflexivity.
  - destruct (detailid d) as [detail_id|]; [destruct (PyStr.nonempty detail_id) |];
      try apply IH.
    unfold bind at 1 3. destruct (sleep REQUEST_DELAY st) as [[[]|e] st1]; [| reflexivity].
    unfold bind at 1 2.
    destruct (find_replacements detail_id st1) as [[rs|e] st2]; [| reflexivity].
    rewrite IH. unfold bind, ret.
    destruct (fetched details st2) as [[more|e] st3]; [| reflexivity].
    now rewrite add_cross_numbers_app.
Qed.

Lemma fetched_api (details : list detail_info) (st : State) :
  api_step st (snd (fetched details st)).
Proof.
  revert st. induction details as [|d details IH]; intros st; cbn.
  - apply api_step_refl.
  - destruct (detailid d) as [detail_id|]; [destruct (PyStr.nonempty detail_id) |];
      try apply IH.
    unfold bind, sleep, emit, ret. cbn.
    set (st1 := {| self := self st; world := world st;
                   trace := trace st ++ [EvSleep REQUEST_DELAY] |}).
    assert (api_step st st1) as H1 by (unfold st1; api_events).
    pose proof (find_replacements_api detail_id st1) as H2.
    destruct (find_replacements detail_id st1) as [[rs|e] st2]; cbn in *.
    + pose proof (IH st2) as H3.
      destruct (fetched details st2) as [[more|e] st3]; cbn in *;
        eauto using api_step_trans.
    + eauto using api_step_trans.
Qed.

Lemma fan_out_api (details : list detail_info) (acc : gset string) (st : State) :
  api_step st (snd (fan_out details acc st)).
Proof.
  rewrite fan_out_fetched. pose proof (fetched_api details st) as H.
  destruct (fetched details st) as [[rs|e] st']; exact H.
Qed.

End ClientSteps.

(** ** One row *)

Section OneRow.
Context {E : Env}.

(** The body of the [try] block, path by path. *)
Lemma row_body_unfold (row_idx : nat) (st : State) :
  row_body row_idx st =
  match sheet (self st) with
  | None => (Raise AttributeError, st)
  | Some ws =>
      let cell := cell_value ws row_idx 4 in
      if truthy cell then
        let article := PyStr.strip (py_str cell) in
        match find_oem article (at_find_oem st row_idx article) with
        | (Raise e, st1) => (Raise e, st1)
        | (Return [], st1) =>
            (Return Continue,
             close_row st1 NoData (EvLog WARNING (MsgNoDetails row_idx article)))
        | (Return (d :: ds), st1) =>
            match fetched (d :: ds) st1 with
            | (Raise e, st2) => (Raise e, st2)
            | (Return rs, st2) =>
                let s := add_cross_numbers ∅ rs in
                if decide (s = ∅) then
                  (Return Continue,
                   close_row st2 NoData
                     (EvLog WARNING (MsgNoCrossNumbers row_idx article)))
                else
                  match merge_description
                          (py_or (cell_value ws row_idx 6) (VStr ""))
                          (cross_numbers_text s) with
                  | Raise e => (Raise e, st2)
                  | Return new =>
                      match check_string new with
                      | Raise e => (Raise e, st2)
                      | Return kept =>
                          (Return FallThrough,
                           {| self := incr_success_count
                                        (set_sheet (self st)
                                           (set_cell_value ws row_idx 6 (VStr kept)));
                              world := world st2;
                              trace := trace st2
                                       ++ [EvLog INFO
                                             (MsgSuccess row_idx (cross_numbers_text s))] |})
                      end
                  end
            end
        end
      else
        (Return Continue,
         close_row st NoData (EvLog WARNING (MsgEmptyArticle row_idx)))
  end.
Proof.
  unfold row_body, read_cell. unfold bind at 1 2. unfold get_self at 1.
  destruct (sheet (self st)) as [ws|] eqn:Hws; [| reflexivity].
  cbn [ret]. destruct (truthy (cell_value ws row_idx 4)) eqn:Hart; cbn [negb].
  2: { unfold bind, logger, emit, modify_self, get_self, set_self, bind, ret, close_row.
       reflexivity. }
  unfold bind at 1 2. unfold get_self at 1. unfold bind at 1 2.
  unfold logger at 1, emit at 1. unfold bind at 1 2. unfold get_self at 1.
  cbn [self]. rewrite Hws. unfold ret at 1. unfold bind at 1 2.
  unfold at_find_oem, logger, emit. cbn [snd].
  set (article := PyStr.strip (py_str (cell_value ws row_idx 4))).
  set (st0 := {| self := self st; world := world st;
                 trace := trace st ++ [EvLog INFO (MsgProcessing row_idx (total_rows (self st)) article)] |}).
  pose proof (find_oem_api article st0) as [Hs1 _].
  destruct (find_oem article st0) as [[[|d ds]|e] st1]; cbn [snd] in Hs1;
    [| | reflexivity].
  { unfold bind, modify_self, get_self, set_self, ret, close_row. reflexivity. }
  unfold bind at 1 2. rewrite fan_out_fetched.
  pose proof (fetched_api (d :: ds) st1) as [Hs2 _].
  destruct (fetched (d :: ds) st1) as [[rs|e] st2]; cbn [snd] in Hs2;
    [| reflexivity].
  cbv zeta. destruct (decide (add_cross_numbers ∅ rs = ∅)) as [Hempty|Hne].
  { unfold bind, modify_self, get_self, set_self, ret, close_row. reflexivity. }
  unfold bind at 1 2. unfold lift.
  destruct (merge_description _ _) as [new|e]; [| reflexivity].
  unfold bind, write_cell, get_self, set_self, modify_self, bind, lift, bind_value, ret.
  cbn [self world trace].
  rewrite Hs2, Hs1. subst st0. cbn [self]. rewrite Hws.
  destruct (check_string new) as [kept|e]; reflexivity.
Qed.

End OneRow.

(** ** One iteration of the loop *)

Section OneIteration.
Context {E : Env}.

Lemma save_workbook_unfold (is_final : bool) (st : State) :
  save_workbook is_final st =
  match sheet (self st) with
  | None =>
      (Return false,
       {| self := self st; world := world st;
          trace := trace st ++ [EvLog ERROR (MsgSaveError AttributeError)] |})
  | Some ws =>
      let path := save_path (self st) is_final in
      match workbook_save (world st) path ws with
      | (w, Return _) =>
          (Return true,
           {| self := self st; world := w;
              trace := trace st ++ [EvSave path ws; EvLog INFO (MsgSaved path)] |})
      | (w, Raise e) =>
          (Return false,
           {| self := self st; world := w;
              trace := trace st ++ [EvSave path ws; EvLog ERROR (MsgSaveError e)] |})
      end
  end.
Proof.
  unfold save_workbook, try_except, bind, get_self, call, raise, logger, emit, ret,
    save_path.
  destruct (sheet (self st)) as [ws|]; [| reflexivity].
  cbv zeta. destruct (workbook_save _ _ _) as [w [[]|e]]; cbn;
    now rewrite <- app_assoc.
Qed.

(** A failing row leaves [self] alone and is silent up to the handler. *)
Lemma row_body_frame (row_idx : nat) (st : State) :
  match row_body row_idx st with
  | (Return Continue, st') =>
      self st' = incr_no_data_count (self st)
      /\ exists evs, trace st' = trace st ++ evs
                     /\ row_outcomes evs = [(row_idx, NoData)] /\ saves evs = []
  | (Return FallThrough, st') =>
      (exists ws new, sheet (self st) = Some ws
         /\ self st' = incr_success_count
                         (set_sheet (self st) (set_cell_value ws row_idx 6 (VStr new))))
      /\ exists evs, trace st' = trace st ++ evs
                     /\ row_outcomes evs = [(row_idx, Success)] /\ saves evs = []
  | (Raise e, st') => api_step st st'
  end.
Proof.
  rewrite row_body_unfold.
  destruct (sheet (self st)) as [ws|] eqn:Hws; [| apply api_step_refl].
  cbv zeta. destruct (truthy _); cycle 1.
  { split; [reflexivity |]. eexists. split; [reflexivity |]. split; reflexivity. }
  set (article := PyStr.strip _).
  assert (api_step st (at_find_oem st row_idx article)) as H0.
  { unfold at_find_oem, logger, emit. cbn [snd].
    eapply api_step_snoc; [apply api_step_base | reflexivity | reflexivity]. }
  pose proof (find_oem_api article (at_find_oem st row_idx article)) as H1.
  destruct (find_oem _ _) as [[[|d ds]|e] st1]; cbn [snd] in H1.
  - pose proof (api_step_trans _ _ _ H0 H1) as [Hs (evs & Ht & Hr & Hv)].
    unfold close_row. cbn [self trace count_outcome]. split; [now rewrite Hs |].
    exists (evs ++ [EvLog WARNING (MsgNoDetails row_idx article)]).
    rewrite Ht, app_assoc, row_outcomes_app, saves_app, Hr, Hv. auto.
  - pose proof (fetched_api (d :: ds) st1) as H2.
    destruct (fetched _ _) as [[rs|e] st2]; cbn [snd] in H2.
    2: { eauto using api_step_trans. }
    pose proof (api_step_trans _ _ _ H0 (api_step_trans _ _ _ H1 H2))
      as [Hs (evs & Ht & Hr & Hv)].
    destruct (decide _).
    + unfold close_row. cbn [self trace count_outcome]. split; [now rewrite Hs |].
      exists (evs ++ [EvLog WARNING (MsgNoCrossNumbers row_idx article)]).
      rewrite Ht, app_assoc, row_outcomes_app, saves_app, Hr, Hv. auto.
    + destruct (merge_description _ _) as [new|e];
        [destruct (check_string new) as [kept|e] |].
      * cbn [self trace]. split; [eauto |].
        eexists (evs ++ [_]).
        rewrite Ht, app_assoc, row_outcomes_app, saves_app, Hr, Hv. auto.
      * split; [exact Hs | exists evs; repeat split; assumption].
      * split; [exact Hs | exists evs; repeat split; assumption].
  - eauto using api_step_trans.
Qed.

Lemma after_try_spec (st : State) :
  exists (st' : State) (evs : list Event),
    after_try st = (Return tt, st')
    /\ self st' = incr_processed_rows (self st)
    /\ trace st' = trace st ++ evs
    /\ row_outcomes evs = []
    /\ saves evs =
         (if (processed_rows (self st') mod SAVE_INTERVAL =? 0)%nat
          then checkpoint_saves (self st') else []).
Proof.
  unfold after_try, modify_self. unfold bind, get_self, set_self, ret, logger, emit.
  cbn [self world trace].
  match goal with |- context [Nat.eqb ?a 0] => destruct (Nat.eqb a 0) eqn:Hdue end.
  - rewrite save_workbook_unfold. cbn [self world trace].
    unfold checkpoint_saves, save_path. cbn [negb].
    destruct (sheet (incr_processed_rows (self st))) as [ws|] eqn:Hws.
    + cbv zeta. destruct (workbook_save _ _ _) as [w [[]|e]];
        (eexists; eexists [_; _; _; _]; split; [reflexivity |];
         cbn [self world trace]; rewrite Hdue, Hws, <- !app_assoc;
         repeat split; reflexivity).
    + eexists; eexists [_; _; _]; split; [reflexivity |].
      cbn [self world trace]. rewrite Hdue, Hws, <- !app_assoc.
      repeat split; reflexivity.
  - eexists; exists []; split; [reflexivity |].
    cbn [self world trace]. rewrite Hdue, app_nil_r. repeat split; reflexivity.
Qed.

(** What one iteration does, whatever happens inside the [try] block:
    it never raises, closes its row with exactly one outcome, counts
    it, and saves to the checkpoint path exactly when [processed_rows]
    reaches a multiple of [SAVE_INTERVAL]. *)
Lemma iteration_spec (row_idx : nat) (st : State) :
  exists (o : Outcome) (st' : State) (evs : list Event),
    iteration row_idx st = (Return tt, st')
    /\ trace st' = trace st ++ evs
    /\ row_outcomes evs = [(row_idx, o)]
    /\ success_count (self st') = success_count (self st) + counts Success o
    /\ error_count (self st') = error_count (self st) + counts Error o
    /\ no_data_count (self st') = no_data_count (self st) + counts NoData o
    /\ processed_rows (self st') = processed_rows (self st) + processed o
    /\ total_rows (self st') = total_rows (self st)
    /\ output_file (self st') = output_file (self st)
    /\ match o with
       | Success => exists ws new, sheet (self st) = Some ws
                      /\ sheet (self st') = Some (set_cell_value ws row_idx 6 (VStr new))
       | _ => sheet (self st') = sheet (self st)
       end
    /\ saves evs =
         (if ((processed o =? 1) && (processed_rows (self st') mod SAVE_INTERVAL =? 0))%nat
          then checkpoint_saves (self st') else [])
    /\ (o = Error <-> exists e, fst (row_body row_idx st) = Raise e).
Proof.
  unfold iteration, try_except. unfold bind at 1.
  pose proof (row_body_frame row_idx st) as H.
  destruct (row_body row_idx st) as [[[|]|e] st1].
  - (* the row was written *)
    destruct H as [(ws & new & Hws & Hs) (evs & Ht & Hr & Hv)].
    destruct (after_try_spec st1) as (st' & evs' & Hrun & Hs' & Ht' & Hr' & Hv').
    exists Success, st', (evs ++ evs'). split; [exact Hrun |].
    rewrite Ht', Ht, <- app_assoc, row_outcomes_app, saves_app, Hr, Hr', Hv, Hv'.
    rewrite Hs', Hs. cbn.
    repeat split; try reflexivity; try lia; eauto;
      [intros [=] | intros [e' [=]]].
  - (* [continue] *)
    destruct H as [Hs (evs & Ht & Hr & Hv)].
    exists NoData, st1, evs. rewrite Hs. cbn.
    repeat split; try reflexivity; try lia; auto;
      [intros [=] | intros [e' [=]]].
  - (* an exception: the handler *)
    destruct H as [Hs (evs & Ht & Hr & Hv)].
    unfold modify_self. unfold bind at 1 2 3, logger, emit, get_self, set_self, ret.
    cbn [self world trace].
    match goal with |- context [after_try ?s] =>
      destruct (after_try_spec s) as (st' & evs' & Hrun & Hs' & Ht' & Hr' & Hv')
    end.
    cbn [self world trace] in *.
    exists Error, st', (evs ++ [EvLog ERROR (MsgRowError row_idx e)] ++ evs').
    split; [exact Hrun |].
    rewrite Ht', Ht, <- !app_assoc, !row_outcomes_app, !saves_app, Hr, Hr', Hv, Hv'.
    rewrite Hs', Hs. cbn.
    repeat split; try reflexivity; try lia; eauto.
Qed.

End OneIteration.

(** ** The loop and the whole run *)

Section WholeRun.
Context {E : Env}.

Lemma tally_app (o : Outcome) (a b : list (nat * Outcome)) :
  tally o (a ++ b) = tally o a + tally o b.
Proof. induction a as [|x a IH]; cbn; [reflexivity | rewrite IH; lia]. Qed.

Lemma tally_total (l : list (nat * Outcome)) :
  tally Success l + tally Error l + tally NoData l = length l.
Proof.
  induction l as [|[r o] l IH]; cbn; [reflexivity |].
  destruct o; cbn; lia.
Qed.

Lemma for_each_app {A} (l1 l2 : list A) (body : A -> M unit) (st : State) :
  for_each (l1 ++ l2) body st =
  match for_each l1 body st with
  | (Return _, st1) => for_each l2 body st1
  | (Raise e, st1) => (Raise e, st1)
  end.
Proof.
  revert st. induction l1 as [|x l1 IH]; intros st; cbn; [reflexivity |].
  unfold bind. destruct (body x st) as [[[]|e] st1]; [apply IH | reflexivity].
Qed.

Lemma checkpoint_step (n : nat) :
  ((n + 1) / SAVE_INTERVAL
   = n / SAVE_INTERVAL + (if (n + 1) mod SAVE_INTERVAL =? 0 then 1 else 0))%nat.
Proof.
  unfold SAVE_INTERVAL.
  pose proof (Nat.div_mod_eq n 100) as H1.
  pose proof (Nat.div_mod_eq (n + 1) 100) as H2.
  pose proof (Nat.mod_upper_bound n 100 ltac:(lia)) as H3.
  pose proof (Nat.mod_upper_bound (n + 1) 100 ltac:(lia)) as H4.
  destruct (Nat.eqb_spec ((n + 1) mod 100) 0); lia.
Qed.

(** The loop over any list of rows: every row is attempted, in order,
    and closed with one outcome; the counters add up the outcomes; the
    only saves are checkpoints. *)
Lemma rows_spec (rows : list nat) (st : State) :
  exists (st' : State) (evs : list Event),
    for_each rows iteration st = (Return tt, st')
    /\ trace st' = trace st ++ evs
    /\ map fst (row_outcomes evs) = rows
    /\ success_count (self st') = success_count (self st) + tally Success (row_outcomes evs)
    /\ error_count (self st') = error_count (self st) + tally Error (row_outcomes evs)
    /\ no_data_count (self st') = no_data_count (self st) + tally NoData (row_outcomes evs)
    /\ processed_rows (self st')
       = processed_rows (self st) + tally Success (row_outcomes evs)
         + tally Error (row_outcomes evs)
    /\ total_rows (self st') = total_rows (self st)
    /\ output_file (self st') = output_file (self st)
    /\ (is_Some (sheet (self st)) -> is_Some (sheet (self st')))
    /\ Forall (fun s => fst s = temp_path (output_file (self st))) (saves evs)
    /\ (is_Some (sheet (self st)) ->
        length (saves evs)
        = processed_rows (self st') / SAVE_INTERVAL
          - processed_rows (self st) / SAVE_INTERVAL).
Proof.
  revert st. induction rows as [|r rows IH]; intros st.
  - exists st, []. cbn. rewrite app_nil_r, !Nat.add_0_r, Nat.sub_diag.
    repeat split; auto.
  - cbn [for_each]. unfold bind.
    destruct (iteration_spec r st)
      as (o & st1 & evs1 & Hrun & Ht & Hr & Hsu & Her & Hnd & Hpr & Htot & Hout
          & Hsh & Hsv & _).
    rewrite Hrun.
    destruct (IH st1)
      as (st' & evs & Hrun' & Ht' & Hr' & Hsu' & Her' & Hnd' & Hpr' & Htot' & Hout'
          & Hsh' & Hsv' & Hlen').
    exists st', (evs1 ++ evs). split; [exact Hrun' |].
    rewrite Ht', Ht, <- app_assoc, row_outcomes_app, saves_app, Hr, tally_app.
    assert (is_Some (sheet (self st)) -> is_Some (sheet (self st1))) as Hsome.
    { intros Hs. destruct o; [| now rewrite Hsh ..].
      destruct Hsh as (ws & new & _ & ->). eauto. }
    repeat split.
    + cbn. now rewrite Hr'.
    + rewrite Hsu', Hsu. destruct o; cbn; lia.
    + rewrite Her', Her. destruct o; cbn; lia.
    + rewrite Hnd', Hnd. destruct o; cbn; lia.
    + rewrite Hpr', Hpr. destruct o; cbn; lia.
    + congruence.
    + congruence.
    + auto.
    + apply Forall_app. split; [| now rewrite <- Hout].
      rewrite Hsv. destruct (_ && _); [| constructor].
      unfold checkpoint_saves. destruct (sheet (self st1)); repeat constructor.
      cbn. now rewrite Hout.
    + intros Hs. rewrite length_app, (Hlen' (Hsome Hs)), Hsv.
      assert (processed_rows (self st) <= processed_rows (self st1)) as Hle1 by lia.
      assert (processed_rows (self st1) <= processed_rows (self st')) as Hle2 by lia.
      pose proof (Nat.Div0.div_le_mono _ _ SAVE_INTERVAL Hle1).
      pose proof (Nat.Div0.div_le_mono _ _ SAVE_INTERVAL Hle2).
      destruct (Hsome Hs) as [ws1 Hws1].
      destruct o; cbn [processed Nat.eqb andb] in *.
      * rewrite Hpr. pose proof (checkpoint_step (processed_rows (self st))) as Hc.
        rewrite Hpr in *.
        destruct (_ =? 0)%nat; unfold checkpoint_saves; rewrite ?Hws1; cbn [length]; lia.
      * rewrite Hpr. pose proof (checkpoint_step (processed_rows (self st))) as Hc.
        rewrite Hpr in *.
        destruct (_ =? 0)%nat; unfold checkpoint_saves; rewrite ?Hws1; cbn [length]; lia.
      * cbn [length]. rewrite Hpr, Nat.add_0_r in *. lia.
Qed.

End WholeRun.

Section LoadAndFinish.
Context {E : Env}.

Lemma load_workbook_unfold (st : State) :
  load_workbook st =
  let path := input_file (self st) in
  match openpyxl_load_workbook (world st) path with
  | (w, Return ws) =>
      (Return true,
       {| self := set_loaded (self st) ws; world := w;
          trace := trace st ++ [EvLog INFO (MsgLoading path); EvLoad path;
                                EvLog INFO (MsgLoaded (max_row ws))] |})
  | (w, Raise e) =>
      (Return false,
       {| self := self st; world := w;
          trace := trace st ++ [EvLog INFO (MsgLoading path); EvLoad path;
                                EvLog ERROR (MsgLoadError e)] |})
  end.
Proof.
  unfold load_workbook, try_except, bind, get_self, set_self, call, logger, emit, ret.
  cbn [self world trace].
  destruct (openpyxl_load_workbook _ _) as [w [ws|e]]; cbn;
    now rewrite <- !app_assoc.
Qed.

(** The final save is attempted once, on the canonical path, then only
    log lines follow. *)
Lemma finish_spec (st : State) :
  exists (b : bool) (st' : State) (post : list Event),
    finish st = (Return b, st')
    /\ self st' = self st
    /\ trace st'
       = trace st
         ++ match sheet (self st) with
            | Some ws => [EvSave (output_file (self st)) ws]
            | None => []
            end
         ++ post
    /\ row_outcomes post = []
    /\ saves post = []
    /\ remote_calls post = [].
Proof.
  unfold finish. unfold bind at 1. rewrite save_workbook_unfold.
  unfold save_path. cbn [negb].
  destruct (sheet (self st)) as [ws|].
  - cbv zeta. destruct (workbook_save _ _ _) as [w [[]|e]];
      unfold bind, logger, emit, get_self, ret; cbn [self world trace];
      (eexists; eexists; eexists (_ :: _); split; [reflexivity |];
       cbn [self world trace]; rewrite <- !app_assoc;
       repeat split; reflexivity).
  - unfold bind, logger, emit, get_self, ret; cbn [self world trace].
    eexists; eexists; eexists (_ :: _); split; [reflexivity |].
    cbn [self world trace]. rewrite <- !app_assoc. repeat split; reflexivity.
Qed.

Lemma process_file_unfold (st : State) :
  process_file st =
  match load_workbook st with
  | (Return true, st0) =>
      match for_each (data_rows (self st0)) iteration st0 with
      | (Return _, st1) => finish st1
      | (Raise e, st1) => (Raise e, st1)
      end
  | (Return false, st0) => (Return false, st0)
  | (Raise e, st0) => (Raise e, st0)
  end.
Proof.
  unfold process_file. unfold bind at 1.
  destruct (load_workbook st) as [[[|]|e] st0]; reflexivity.
Qed.

(** The state when the loop starts, for a workbook that loads. *)
Lemma loaded_ok (input output : string) (w w0 : World) (ws : Worksheet) :
  openpyxl_load_workbook w input = (w0, Return ws) ->
  load_workbook {| self := ExcelProcessor_init input output; world := w; trace := [] |}
  = (Return true, loaded input output w)
  /\ self (loaded input output w) = set_loaded (ExcelProcessor_init input output) ws
  /\ row_outcomes (trace (loaded input output w)) = []
  /\ saves (trace (loaded input output w)) = []
  /\ remote_calls (trace (loaded input output w)) = [].
Proof.
  intros H. unfold loaded. rewrite load_workbook_unfold. cbn [self world trace input_file ExcelProcessor_init].
  cbv zeta. rewrite H. cbn. repeat split; reflexivity.
Qed.

(** A run on a workbook that loads is the loop from [loaded], then
    [finish]. *)
Lemma run_unfold (input output : string) (w w0 : World) (ws : Worksheet) :
  openpyxl_load_workbook w input = (w0, Return ws) ->
  run input output w
  = finish (snd (for_each (seq 2 (max_row ws + 1 - 2)) iteration
                          (loaded input output w))).
Proof.
  intros H. unfold run. rewrite process_file_unfold.
  destruct (loaded_ok input output w w0 ws H) as (-> & Hs & _).
  unfold data_rows. rewrite Hs. cbn [total_rows set_loaded].
  destruct (rows_spec (seq 2 (max_row ws + 1 - 2)) (loaded input output w))
    as (st1 & evs & -> & _).
  reflexivity.
Qed.

(** A run on a workbook that loads: it returns, every data row was
    attempted in order and counted, the checkpoints went to the
    checkpoint path, and the one save to the canonical path comes after
    the last row. *)
Lemma run_spec (input output : string) (w w0 : World) (ws : Worksheet) :
  openpyxl_load_workbook w input = (w0, Return ws) ->
  exists (b : bool) (st' : State) (pre post : list Event) (ws' : Worksheet),
    run input output w = (Return b, st')
    /\ trace st' = pre ++ EvSave output ws' :: post
    /\ sheet (self st') = Some ws'
    /\ map fst (row_outcomes pre) = seq 2 (max_row ws + 1 - 2)
    /\ row_outcomes post = [] /\ saves post = [] /\ remote_calls post = []
    /\ Forall (fun s => fst s = temp_path output) (saves pre)
    /\ length (saves pre) = processed_rows (self st') / SAVE_INTERVAL
    /\ success_count (self st') = tally Success (row_outcomes pre)
    /\ error_count (self st') = tally Error (row_outcomes pre)
    /\ no_data_count (self st') = tally NoData (row_outcomes pre)
    /\ processed_rows (self st') = success_count (self st') + error_count (self st')
    /\ total_rows (self st') = max_row ws.
Proof.
  intros H. rewrite (run_unfold input output w w0 ws H).
  destruct (loaded_ok input output w w0 ws H) as (_ & Hs & Hr0 & Hv0 & _).
  destruct (rows_spec (seq 2 (max_row ws + 1 - 2)) (loaded input output w))
    as (st1 & evs & Hrun & Ht & Hr & Hsu & Her & Hnd & Hpr & Htot & Hout
        & Hsh & Hsv & Hlen).
  rewrite Hrun. cbn [snd].
  rewrite Hs in *. cbn [success_count error_count no_data_count processed_rows
    total_rows output_file sheet set_loaded ExcelProcessor_init] in *.
  destruct (Hsh ltac:(eauto)) as [ws' Hws'].
  destruct (finish_spec st1) as (b & st' & post & Hfin & Hs' & Ht' & Hr' & Hv' & Hc').
  rewrite Hws', Hout in Ht'.
  exists b, st', (trace (loaded input output w) ++ evs), post, ws'.
  rewrite Hs', row_outcomes_app, saves_app, Hr0, Hv0. cbn [app].
  rewrite Nat.Div0.div_0_l in Hlen.
  repeat split; auto; try lia.
  - rewrite Ht', Ht. cbn [app]. reflexivity.
  - rewrite (Hlen ltac:(eauto)). lia.
Qed.

Lemma run_not_loaded (input output : string) (w w0 : World) (e : exn) :
  openpyxl_load_workbook w input = (w0, Raise e) ->
  exists st', run input output w = (Return false, st')
              /\ row_outcomes (trace st') = []
              /\ saves (trace st') = []
              /\ remote_calls (trace st') = [].
Proof.
  intros H. unfold run. rewrite process_file_unfold, load_workbook_unfold.
  cbn [self world trace input_file ExcelProcessor_init]. cbv zeta. rewrite H.
  eexists. split; [reflexivity |]. cbn. repeat split; reflexivity.
Qed.

End LoadAndFinish.

(** ** The cadence of the checkpoints *)

Section Cadence.
Context {E : Env}.











End Cadence.

(** ** The cross-reference set and its rendering *)

Section CrossNumbers.

Lemma nonempty_true (s : string) : PyStr.nonempty s = true <-> s <> "".
Proof. destruct s; cbn; split; intros H; congruence. Qed.

Lemma truthy_opt_false (x : option string) :
  truthy_opt x = false <-> x = None \/ x = Some "".
Proof.
  destruct x as [[|c s]|]; cbn; split; intros H; auto; try discriminate;
    destruct H; discriminate.
Qed.

(** Only records with a present, non-empty [formattedoem] add to the
    set. *)
Lemma elem_of_add_cross_numbers (acc : gset string)
    (rs : list replacement_info) (c : string) :
  c ∈ add_cross_numbers acc rs <-> c ∈ acc \/ exists r, r ∈ rs /\ has_code c r.
Proof.
  revert acc. induction rs as [|r rs IH]; intros acc; cbn.
  - split; [auto |]. intros [H | (r & Hr & _)]; [exact H | inversion Hr].
  - destruct (formattedoem r) as [code|] eqn:Hc.
    + destruct (PyStr.nonempty code) eqn:Hn.
      * rewrite IH, elem_of_union, elem_of_singleton. split.
        -- intros [[-> | H] | (r' & Hr' & Hh)]; auto.
           ++ right. exists r. split; [left |]. split; [exact Hc |].
              now apply nonempty_true.
           ++ right. exists r'. split; [now right | exact Hh].
        -- intros [H | (r' & Hr' & Hh)]; auto.
           apply elem_of_cons in Hr' as [-> | Hr'].
           ++ destruct Hh as [Hh _]. left. left. congruence.
           ++ right. eauto.
      * rewrite IH. split.
        -- intros [H | (r' & Hr' & Hh)]; auto.
           right. exists r'. split; [now right | exact Hh].
        -- intros [H | (r' & Hr' & Hh)]; auto.
           apply elem_of_cons in Hr' as [-> | Hr']; [| right; eauto].
           destruct Hh as [Hh Hne]. rewrite Hc in Hh. injection Hh as ->.
           apply nonempty_true in Hne. congruence.
    + rewrite IH. split.
      * intros [H | (r' & Hr' & Hh)]; auto.
        right. exists r'. split; [now right | exact Hh].
      * intros [H | (r' & Hr' & Hh)]; auto.
        apply elem_of_cons in Hr' as [-> | Hr']; [| right; eauto].
        destruct Hh as [Hh _]. congruence.
Qed.

Lemma add_cross_numbers_lacking (acc : gset string) (rs : list replacement_info) :
  Forall lacks_code rs -> add_cross_numbers acc rs = acc.
Proof.
  induction 1 as [|r rs Hr _ IH]; cbn; [reflexivity |].
  unfold lacks_code, truthy_opt in Hr.
  destruct (formattedoem r) as [code|]; [rewrite Hr |]; exact IH.
Qed.



Lemma cell_value_set (ws : Worksheet) (r c : nat) (v : CellValue) :
  cell_value (set_cell_value ws r c v) r c = v.
Proof. unfold cell_value, set_cell_value. cbn. now rewrite lookup_insert_eq. Qed.

Lemma cell_value_set_other (ws : Worksheet) (r c r' c' : nat) (v : CellValue) :
  (r, c) <> (r', c') ->
  cell_value (set_cell_value ws r c v) r' c' = cell_value ws r' c'.
Proof.
  intros H. unfold cell_value, set_cell_value. cbn. now rewrite lookup_insert_ne.
Qed.

(** ** The cell setter *)


Lemma substring_fits (n : nat) (s : string) :
  String.length s <= n -> String.substring 0 n s = s.
Proof.
  revert s. induction n as [|n IH]; intros [|c s] H; cbn in *; try reflexivity; try lia.
  f_equal. apply IH. lia.
Qed.


(** Text within the limit and free of illegal characters is stored as
    it is. *)
Lemma check_string_fits (s : string) :
  (Z.of_nat (String.length s) <= 32767)%Z ->
  existsb illegal_character (list_ascii_of_string s) = false ->
  check_string s = Return s.
Proof.
  intros Hlen Hill. unfold check_string, PyStr.take. cbv zeta.
  rewrite substring_fits by (unfold MAX_CELL_TEXT; lia).
  now rewrite Hill.
Qed.

Lemma check_string_raises (s : string) (e : exn) :
  check_string s = Raise e ->
  e = OtherException
  /\ existsb illegal_character
       (list_ascii_of_string (String.substring 0 MAX_CELL_TEXT s)) = true.
Proof.
  unfold check_string, PyStr.take. cbv zeta.
  destruct (existsb _ _); [intros [= <-]; auto | discriminate].
Qed.


(** After [rstrip] nothing ends in a space: the second alternative of
    the [endswith] test on line 252 never holds. *)
Lemma rstrip_not_space (s : string) : PyStr.endswith (PyStr.rstrip s) " " = false.
Proof.
  induction s as [|c s IH]; [reflexivity |].
  cbn [PyStr.rstrip]. destruct (PyStr.rstrip s) as [|d r] eqn:Hr.
  - destruct (PyStr.isspace c) eqn:Hc; [reflexivity |].
    cbn. destruct (Ascii.eqb_spec c " "); [| reflexivity].
    subst c. discriminate.
  - cbn [PyStr.endswith].
    replace (String c (String d r) =? " ")%string with false; [exact IH |].
    cbn. now destruct (Ascii.eqb c " ").
Qed.

(** The separator rule the code implements. *)
Lemma merge_description_rule (s text : string) :
  s <> "" ->
  merge_description (VStr s) text
  = Return (if PyStr.endswith (PyStr.rstrip s) ","
            then s +:+ text else (s +:+ ", ") +:+ text).
Proof.
  intros Hs. unfold merge_description. cbn [truthy].
  apply nonempty_true in Hs. rewrite Hs.
  unfold PyStr.endswith_any. cbn [existsb].
  rewrite rstrip_not_space, !orb_false_r.
  now destruct (PyStr.endswith _ ",").
Qed.


End CrossNumbers.

(** * The pipeline, property by property *)

Section LookupAndSkip.
Context {E : Env}.


(** C5, as amended.  A row whose source cell is absent or empty (a
    falsy value: [None], the empty string, a zero) makes no remote call
    and no other library call, leaves the sheet as it is, and is counted
    under [no_data] only: [no_data_count] grows by one, the counters of
    successes, errors and processed rows stay as they were, and so does
    every other attribute.  A cell holding only white space is not
    covered: it is truthy, and the row goes on to [find_oem]. *)
Theorem empty_code_skipped (row_idx : nat) (st : State) (ws : Worksheet) :
  sheet (self st) = Some ws ->
  truthy (cell_value ws row_idx 4) = false ->
  exists st' : State,
    iteration row_idx st = (Return tt, st')
    /\ trace st' = trace st ++ [EvLog WARNING (MsgEmptyArticle row_idx)]
    /\ remote_calls (trace st') = remote_calls (trace st)
    /\ world st' = world st
    /\ sheet (self st') = Some ws
    /\ self st' = incr_no_data_count (self st)
    /\ no_data_count (self st') = no_data_count (self st) + 1
    /\ success_count (self st') = success_count (self st)
    /\ error_count (self st') = error_count (self st)
    /\ processed_rows (self st') = processed_rows (self st)
    /\ total_rows (self st') = total_rows (self st)
    /\ input_file (self st') = input_file (self st)
    /\ output_file (self st') = output_file (self st)
    /\ row_outcomes (trace st') = row_outcomes (trace st) ++ [(row_idx, NoData)].
Proof.
  intros Hws Hart. unfold iteration, try_except. unfold bind at 1.
  rewrite row_body_unfold, Hws. cbv zeta. rewrite Hart.
  eexists. split; [reflexivity |]. unfold close_row. cbn [self world trace count_outcome].
  rewrite remote_calls_app, row_outcomes_app. cbn. rewrite app_nil_r.
  repeat split; auto.
Qed.

End LookupAndSkip.

(** C3.  The code at the input where it departs from the rule its own
    comment states ("if the description does not end in a space or a
    comma, add the separator"): the description ["A "] ends in a space,
    and the separator is added all the same. *)
Theorem merge_after_trailing_space :
  merge_description (VStr "A ") (cross_numbers_text {["C"]}) = Return "A , C".
Proof. vm_compute. reflexivity. Qed.

(** The three instances the specification lists do hold. *)
Example merge_examples :
  merge_description (VStr "A, B") (cross_numbers_text {["C"; "D"]}) = Return "A, B, C, D"
  /\ merge_description (VStr "A,") (cross_numbers_text {["C"]}) = Return "A,C"
  /\ merge_description (VStr "") (cross_numbers_text {["C"; "D"]}) = Return "C, D".
Proof. repeat split; vm_compute; reflexivity. Qed.


(** A row whose code is white space only: [find_oem] is called, with the
    empty string. *)
Lemma blank_code_counterexample :
  sheet (self Demo.start) = Some Demo.catalog
  /\ cell_value Demo.catalog 5 4 = VStr "   "
  /\ absent_or_blank (cell_value Demo.catalog 5 4)
  /\ remote_calls (trace (snd (iteration 5 Demo.start)))
     = [(LAXIMO_BASE_URL, [("FindOEM", "Locale=ru_RU|OEM=|ReplacementTypes=|Options=")])]
  /\ remote_calls (trace (snd (iteration 5 Demo.start)))
     <> remote_calls (trace Demo.start).
Proof.
  split; [reflexivity |]. split; [vm_compute; reflexivity |].
  split; [vm_compute; reflexivity |].
  split; [vm_compute; reflexivity | vm_compute; discriminate].
Qed.

Lemma empty_code_skipped_witness :
  sheet (self Demo.start) = Some Demo.catalog
  /\ truthy (cell_value Demo.catalog 4 4) = false
  /\ exists st' : State,
      iteration 4 Demo.start = (Return tt, st')
      /\ trace st' = trace Demo.start ++ [EvLog WARNING (MsgEmptyArticle 4)]
      /\ remote_calls (trace st') = remote_calls (trace Demo.start)
      /\ world st' = world Demo.start
      /\ sheet (self st') = Some Demo.catalog
      /\ no_data_count (self st') = no_data_count (self Demo.start) + 1
      /\ success_count (self st') = success_count (self Demo.start)
      /\ error_count (self st') = error_count (self Demo.start)
      /\ processed_rows (self st') = processed_rows (self Demo.start).
Proof.
  split; [reflexivity |]. split; [reflexivity |].
  destruct (empty_code_skipped 4 Demo.start Demo.catalog eq_refl eq_refl)
    as (st' & Hrun & Ht & Hc & Hw & Hsh & _ & Hnd & Hsu & Her & Hpr & _).
  exists st'. repeat split; assumption.
Defined.

Section RowProperties.
Context {E : Env}.

Lemma iteration_written (row_idx : nat) (st st1 : State) :
  row_body row_idx st = (Return FallThrough, st1) ->
  iteration row_idx st = after_try st1.
Proof. intros H. unfold iteration, try_except. unfold bind at 1. now rewrite H. Qed.

Lemma iteration_continue (row_idx : nat) (st st1 : State) :
  row_body row_idx st = (Return Continue, st1) ->
  iteration row_idx st = (Return tt, st1).
Proof. intros H. unfold iteration, try_except. unfold bind at 1. now rewrite H. Qed.


(** C2. The end-to-end scenario: the code ["12345"] resolves to records
    with identifiers [d1] and [d2], the replacements of [d1] carry the
    normalized codes [X2], [X1] and those of [d2] carry [X1], [X3], and
    the existing description is empty.  The iteration writes
    ["X1, X2, X3"] to the description cell and counts the row as a
    success. *)
Theorem end_to_end_scenario (row_idx : nat) (st : State) (ws : Worksheet) :
  sheet (self st) = Some ws ->
  truthy (cell_value ws row_idx 4) = true ->
  PyStr.strip (py_str (cell_value ws row_idx 4)) = "12345" ->
  truthy (cell_value ws row_idx 6) = false ->
  (forall s, exists details,
      fst (find_oem "12345" s) = Return details
      /\ map detailid details = [Some "d1"; Some "d2"]) ->
  (forall s, exists rs,
      fst (find_replacements "d1" s) = Return rs
      /\ map formattedoem rs = [Some "X2"; Some "X1"]) ->
  (forall s, exists rs,
      fst (find_replacements "d2" s) = Return rs
      /\ map formattedoem rs = [Some "X1"; Some "X3"]) ->
  exists (st' : State) (evs : list Event) (ws' : Worksheet),
    iteration row_idx st = (Return tt, st')
    /\ sheet (self st') = Some ws'
    /\ cell_value ws' row_idx 6 = VStr "X1, X2, X3"
    /\ trace st' = trace st ++ evs
    /\ row_outcomes evs = [(row_idx, Success)]
    /\ success_count (self st') = success_count (self st) + 1
    /\ error_count (self st') = error_count (self st)
    /\ no_data_count (self st') = no_data_count (self st).
Proof.
  intros Hws Hart Hcode Hdesc Hoem Hd1 Hd2.
  assert (exists st1, row_body row_idx st = (Return FallThrough, st1)
            /\ self st1 = incr_success_count
                 (set_sheet (self st) (set_cell_value ws row_idx 6 (VStr "X1, X2, X3"))))
    as (st1 & Hbody & Hself).
  { rewrite row_body_unfold, Hws. cbv zeta. rewrite Hart, Hcode.
    destruct (Hoem (at_find_oem st row_idx "12345")) as (details & Hr & Hids).
    destruct (find_oem "12345" _) as [r s1]. cbn [fst] in Hr. subst r.
    destruct details as [|da [|db [|? ?]]]; try discriminate.
    injection Hids as Hda Hdb.
    cbn [fetched]. rewrite Hda, Hdb. cbn [PyStr.nonempty].
    unfold bind at 1. unfold sleep at 1, emit at 1. unfold bind at 1.
    match goal with |- context [find_replacements "d1" ?s] =>
      destruct (Hd1 s) as (rs1 & Hr1 & Hc1);
      destruct (find_replacements "d1" s) as [r s2]; cbn [fst] in Hr1; subst r
    end.
    unfold bind at 1. unfold bind at 1. unfold sleep at 1, emit at 1. unfold bind at 1.
    match goal with |- context [find_replacements "d2" ?s] =>
      destruct (Hd2 s) as (rs2 & Hr2 & Hc2);
      destruct (find_replacements "d2" s) as [r s3]; cbn [fst] in Hr2; subst r
    end.
    unfold bind, ret. cbn [app].
    destruct rs1 as [|r1 [|r2 [|? ?]]]; try discriminate.
    destruct rs2 as [|r3 [|r4 [|? ?]]]; try discriminate.
    injection Hc1 as H1 H2. injection Hc2 as H3 H4.
    rewrite app_nil_r. cbn [app add_cross_numbers]. rewrite H1, H2, H3, H4.
    cbn [PyStr.nonempty].
    destruct (decide _) as [Hempty | _].
    { exfalso. assert ("X3" ∈ (∅ : gset string)) as Hx; [| set_solver].
      rewrite <- Hempty. set_solver. }
    unfold py_or. rewrite Hdesc. cbn [merge_description truthy PyStr.nonempty].
    replace (add_cross_numbers _ []) with ({["X3"; "X1"; "X2"]} : gset string)
      by (cbn; set_solver).
    let text := eval vm_compute in (cross_numbers_text {["X3"; "X1"; "X2"]}) in
    change (cross_numbers_text {["X3"; "X1"; "X2"]}) with text.
    match goal with |- context [check_string ?t] =>
      assert (check_string t = Return "X1, X2, X3") as -> by (vm_compute; reflexivity)
    end.
    eexists. split; reflexivity. }
  rewrite (iteration_written _ _ _ Hbody).
  pose proof (row_body_frame row_idx st) as Hf. rewrite Hbody in Hf.
  destruct Hf as [_ (evs & Ht & Hr & Hv)].
  destruct (after_try_spec st1) as (st' & evs' & Hrun & Hs' & Ht' & Hr' & Hv').
  exists st', (evs ++ evs'), (set_cell_value ws row_idx 6 (VStr "X1, X2, X3")).
  rewrite Hrun, Hs', Hself, Ht', Ht, <- app_assoc, row_outcomes_app, Hr, Hr'.
  cbn. rewrite cell_value_set. repeat split; auto.
Qed.

(** C10. Replacement records without a normalized code are left out.
    For a row that reaches the fan-out, a code is in the set built from
    the received records exactly when some record carries it as a present,
    non-empty [formattedoem]; and when every received record lacks one
    (or none was received), the iteration closes the row as [no_data]:
    [no_data_count] grows by one, the counters of successes, errors and
    processed rows stay as they were, nothing is saved, and the sheet is
    unchanged. *)
Theorem codeless_replacements_excluded (row_idx : nat) (st st1 st2 : State)
    (ws : Worksheet) (details : list detail_info) (rs : list replacement_info) :
  sheet (self st) = Some ws ->
  truthy (cell_value ws row_idx 4) = true ->
  find_oem (PyStr.strip (py_str (cell_value ws row_idx 4)))
    (at_find_oem st row_idx (PyStr.strip (py_str (cell_value ws row_idx 4))))
  = (Return details, st1) ->
  fetched details st1 = (Return rs, st2) ->
  fan_out details ∅ st1 = (Return (add_cross_numbers ∅ rs), st2)
  /\ (forall c, c ∈ add_cross_numbers ∅ rs
                <-> exists r, r ∈ rs /\ formattedoem r = Some c /\ c <> "")
  /\ (Forall lacks_code rs ->
      exists (st' : State) (evs : list Event),
        iteration row_idx st = (Return tt, st')
        /\ trace st' = trace st ++ evs
        /\ row_outcomes evs = [(row_idx, NoData)]
        /\ saves evs = []
        /\ self st' = incr_no_data_count (self st)
        /\ sheet (self st') = Some ws
        /\ no_data_count (self st') = no_data_count (self st) + 1
        /\ success_count (self st') = success_count (self st)
        /\ error_count (self st') = error_count (self st)
        /\ processed_rows (self st') = processed_rows (self st)
        /\ total_rows (self st') = total_rows (self st)).
Proof.
  intros Hws Hart Hfo Hfe. split; [| split].
  - rewrite fan_out_fetched, Hfe. reflexivity.
  - intros c. rewrite elem_of_add_cross_numbers. unfold has_code.
    split; [intros [Hc | Hc]; [now apply not_elem_of_empty in Hc | exact Hc] | auto].
  - intros Hlack.
    assert (exists st', row_body row_idx st = (Return Continue, st')) as [st' Hbody].
    { rewrite row_body_unfold, Hws. cbv zeta. rewrite Hart, Hfo.
      destruct details as [|d ds]; [eauto |].
      rewrite Hfe, (add_cross_numbers_lacking ∅ rs Hlack).
      destruct (decide _) as [_ | Hne]; [eauto | congruence]. }
    pose proof (row_body_frame row_idx st) as Hf. rewrite Hbody in Hf.
    destruct Hf as [Hs (evs & Ht & Hr & Hv)].
    exists st', evs. rewrite (iteration_continue _ _ _ Hbody), Hs.
    repeat split; auto.
Qed.

End RowProperties.

Section RunProperties.
Context {E : Env}.


Lemma saves_cons_save (path : string) (ws : Worksheet) (tr : list Event) :
  saves (EvSave path ws :: tr) = (path, ws) :: saves tr.
Proof. reflexivity. Qed.



Lemma row_body_continue_paths (row_idx : nat) (st st1 : State) :
  row_body row_idx st = (Return Continue, st1) ->
  exists (evs : list Event) (msg : Message),
    trace st1 = trace st ++ evs ++ [EvLog WARNING msg]
    /\ (msg = MsgEmptyArticle row_idx
        \/ (exists article, msg = MsgNoDetails row_idx article)
        \/ (exists article, msg = MsgNoCrossNumbers row_idx article)).
Proof.
  intros H. rewrite row_body_unfold in H.
  destruct (sheet (self st)) as [ws|]; [| discriminate]. cbv zeta in H.
  destruct (truthy _).
  - set (article := PyStr.strip _) in *.
    assert (api_step st (at_find_oem st row_idx article)) as H0.
    { unfold at_find_oem, logger, emit. cbn [snd].
      eapply api_step_snoc; [apply api_step_base | reflexivity | reflexivity]. }
    pose proof (find_oem_api article (at_find_oem st row_idx article)) as H1.
    destruct (find_oem _ _) as [[[|d ds]|e] s1]; cbn [snd] in H1; [| | discriminate].
    + injection H as <-.
      destruct (api_step_trans _ _ _ H0 H1) as [_ (evs & Ht & _)].
      exists evs, (MsgNoDetails row_idx article). cbn [close_row trace].
      rewrite Ht, <- app_assoc. eauto.
    + pose proof (fetched_api (d :: ds) s1) as H2.
      destruct (fetched _ _) as [[rs|e] s2]; cbn [snd] in H2; [| discriminate].
      destruct (decide _).
      * injection H as <-.
        destruct (api_step_trans _ _ _ H0 (api_step_trans _ _ _ H1 H2))
          as [_ (evs & Ht & _)].
        exists evs, (MsgNoCrossNumbers row_idx article). cbn [close_row trace].
        rewrite Ht, <- app_assoc. eauto.
      * destruct (merge_description _ _) as [new|e];
          [destruct (check_string new) |]; discriminate.
  - injection H as <-. exists [], (MsgEmptyArticle row_idx). cbn. auto.
Qed.

(** C8. The processed-rows counter leaves out the rows without data.  A
    row that leaves the [try] block by [continue] (on one of the three
    warnings: empty code, no details, no cross-numbers) ends its
    iteration there: [processed_rows] is not incremented and nothing is
    saved.  A checkpoint save happens exactly when an iteration has
    incremented [processed_rows] to a multiple of [SAVE_INTERVAL],
    whatever the number of rows visited.  At the end of every run
    [processed_rows = success_count + error_count]. *)
Theorem processed_rows_excludes_no_data :
  (forall (row_idx : nat) (st st1 : State),
      row_body row_idx st = (Return Continue, st1) ->
      iteration row_idx st = (Return tt, st1)
      /\ processed_rows (self st1) = processed_rows (self st)
      /\ no_data_count (self st1) = no_data_count (self st) + 1
      /\ exists (evs : list Event) (msg : Message),
           trace st1 = trace st ++ evs ++ [EvLog WARNING msg]
           /\ (msg = MsgEmptyArticle row_idx
               \/ (exists article, msg = MsgNoDetails row_idx article)
               \/ (exists article, msg = MsgNoCrossNumbers row_idx article))
           /\ saves (evs ++ [EvLog WARNING msg]) = [])
  /\ (forall (row_idx : nat) (st : State),
        exists (o : Outcome) (st' : State) (evs : list Event),
          iteration row_idx st = (Return tt, st')
          /\ trace st' = trace st ++ evs
          /\ row_outcomes evs = [(row_idx, o)]
          /\ processed_rows (self st') = processed_rows (self st) + processed o
          /\ (o = NoData -> saves evs = [])
          /\ (saves evs <> [] ->
              processed_rows (self st') = processed_rows (self st) + 1
              /\ processed_rows (self st') mod SAVE_INTERVAL = 0)
          /\ (is_Some (sheet (self st)) ->
              processed_rows (self st') = processed_rows (self st) + 1 ->
              processed_rows (self st') mod SAVE_INTERVAL = 0 ->
              saves evs <> []))
  /\ (forall (input output : string) (w : World),
        exists (b : bool) (st' : State),
          run input output w = (Return b, st')
          /\ processed_rows (self st')
             = success_count (self st') + error_count (self st')).
Proof.
  split; [| split].
  - intros row_idx st st1 H.
    pose proof (row_body_frame row_idx st) as Hf. rewrite H in Hf.
    destruct Hf as [Hs (evs & Ht & Hr & Hv)].
    destruct (row_body_continue_paths _ _ _ H) as (evs' & msg & Ht' & Hmsg).
    split; [now apply iteration_continue |].
    rewrite Hs. cbn. repeat split; try lia.
    exists evs', msg. repeat split; auto.
    rewrite Ht in Ht'. apply app_inv_head in Ht'. now rewrite <- Ht'.
  - intros row_idx st.
    destruct (iteration_spec row_idx st)
      as (o & st' & evs & Hrun & Ht & Hr & Hsu & Her & Hnd & Hpr & Htot & Hout
          & Hsh & Hsv & _).
    exists o, st', evs. repeat split; auto.
    + intros ->. now rewrite Hsv.
    + rewrite Hsv in H. destruct o; cbn in *; try lia. congruence.
    + rewrite Hsv in H. destruct (_ && _) eqn:Hc; [| congruence].
      apply andb_true_iff in Hc as [_ Hc]. now apply Nat.eqb_eq in Hc.
    + intros Hsome Hp Hm. rewrite Hsv.
      assert (processed o = 1) as -> by lia. cbn [Nat.eqb andb].
      apply Nat.eqb_eq in Hm. rewrite Hm. unfold checkpoint_saves.
      assert (is_Some (sheet (self st'))) as [ws1 ->]; [| discriminate].
      destruct o; [| now rewrite Hsh ..].
      destruct Hsh as (? & ? & _ & ->). eauto.
  - intros input output w.
    destruct (openpyxl_load_workbook w input) as [w0 [ws|e]] eqn:Hload.
    + destruct (run_spec input output w w0 ws Hload)
        as (b & st' & pre & post & ws' & Hrun & _ & _ & _ & _ & _ & _ & _ & _
            & _ & _ & _ & Hp & _).
      eauto.
    + destruct (run_not_loaded input output w w0 e Hload) as (st' & Hrun & _).
      exists false, st'. split; [exact Hrun |].
      unfold run in Hrun. rewrite process_file_unfold, load_workbook_unfold in Hrun.
      cbn [self world trace input_file ExcelProcessor_init] in Hrun.
      cbv zeta in Hrun. rewrite Hload in Hrun. injection Hrun as <-. reflexivity.
Qed.

End RunProperties.

Section Isolation.
Context {E : Env}.

Lemma row_outcomes_cons_save (path : string) (ws : Worksheet) (tr : list Event) :
  row_outcomes (EvSave path ws :: tr) = row_outcomes tr.
Proof. reflexivity. Qed.

Lemma run_returns (input output : string) (w : World) :
  exists (b : bool) (st' : State),
    run input output w = (Return b, st')
    /\ map fst (row_outcomes (trace st')) = data_rows (self st')
    /\ success_count (self st') = tally Success (row_outcomes (trace st'))
    /\ error_count (self st') = tally Error (row_outcomes (trace st'))
    /\ no_data_count (self st') = tally NoData (row_outcomes (trace st')).
Proof.
  destruct (openpyxl_load_workbook w input) as [w0 [ws|e]] eqn:Hload.
  - destruct (run_spec input output w w0 ws Hload)
      as (b & st' & pre & post & ws' & Hrun & Ht & _ & Hrows & Hr & _ & _ & _ & _
          & Hsu & Her & Hnd & _ & Htot).
    exists b, st'. split; [exact Hrun |].
    assert (row_outcomes (trace st') = row_outcomes pre) as ->.
    { rewrite Ht, row_outcomes_app, (row_outcomes_cons_save output ws' post), Hr.
      apply app_nil_r. }
    unfold data_rows. rewrite Htot. auto.
  - exists false. eexists. unfold run.
    rewrite process_file_unfold, load_workbook_unfold.
    cbn [self world trace input_file ExcelProcessor_init]. cbv zeta. rewrite Hload.
    split; [reflexivity |]. cbn. auto.
Qed.

(** C9. The outcome partition.  Every iteration closes its row with
    exactly one outcome and adds one to exactly the counter of that
    outcome, the other two staying as they were; over any stretch of the
    loop no counter decreases and the three together grow by the number
    of rows visited; at the end of every run the rows visited are the
    data rows [2 .. total_rows], and the three counters sum to their
    number. *)
Theorem outcome_partition :
  (forall (row_idx : nat) (st : State),
      exists (o : Outcome) (st' : State) (evs : list Event),
        iteration row_idx st = (Return tt, st')
        /\ trace st' = trace st ++ evs
        /\ row_outcomes evs = [(row_idx, o)]
        /\ success_count (self st') = success_count (self st) + counts Success o
        /\ error_count (self st') = error_count (self st) + counts Error o
        /\ no_data_count (self st') = no_data_count (self st) + counts NoData o
        /\ counts Success o + counts Error o + counts NoData o = 1)
  /\ (forall (rows : list nat) (st : State),
        exists (st' : State) (evs : list Event),
          for_each rows iteration st = (Return tt, st')
          /\ trace st' = trace st ++ evs
          /\ map fst (row_outcomes evs) = rows
          /\ success_count (self st) <= success_count (self st')
          /\ error_count (self st) <= error_count (self st')
          /\ no_data_count (self st) <= no_data_count (self st')
          /\ success_count (self st') + error_count (self st') + no_data_count (self st')
             = success_count (self st) + error_count (self st) + no_data_count (self st)
               + length rows)
  /\ (forall (input output : string) (w : World),
        exists (b : bool) (st' : State),
          run input output w = (Return b, st')
          /\ data_rows (self st') = seq 2 (total_rows (self st') - 1)
          /\ map fst (row_outcomes (trace st')) = data_rows (self st')
          /\ success_count (self st') + error_count (self st') + no_data_count (self st')
             = length (data_rows (self st'))).
Proof.
  split; [| split].
  - intros row_idx st.
    destruct (iteration_spec row_idx st)
      as (o & st' & evs & Hrun & Ht & Hr & Hsu & Her & Hnd & _).
    exists o, st', evs. repeat split; auto. now destruct o.
  - intros rows st.
    destruct (rows_spec rows st)
      as (st' & evs & Hrun & Ht & Hr & Hsu & Her & Hnd & _).
    exists st', evs. repeat split; auto; try lia.
    pose proof (tally_total (row_outcomes evs)) as Htot.
    rewrite <- Hr, length_map. lia.
  - intros input output w.
    destruct (run_returns input output w) as (b & st' & Hrun & Hrows & Hsu & Her & Hnd).
    exists b, st'. repeat split; auto.
    + unfold data_rows. f_equal. lia.
    + pose proof (tally_total (row_outcomes (trace st'))) as Htot.
      rewrite <- Hrows, length_map. lia.
Qed.

(** C1. Failure isolation.  Take a run whose workbook loads, and a data
    row [k] whose [try] block raises [e] in the state the run reaches it
    in.  The iteration of [k] returns normally with the row counted as an
    error and nothing else counted or written; the run goes on with the
    rows after [k], attempts each of them, returns, counts every data
    row, and performs the save to the canonical path after the last
    row. *)
Theorem failure_isolation (input output : string) (w w0 : World) (ws : Worksheet)
    (before after : list nat) (k : nat) (e : exn) :
  openpyxl_load_workbook w input = (w0, Return ws) ->
  seq 2 (max_row ws + 1 - 2) = before ++ k :: after ->
  fst (row_body k (snd (for_each before iteration (loaded input output w)))) = Raise e ->
  exists (st_k' : State) (b : bool) (st' : State) (pre post : list Event)
         (ws' : Worksheet) (ob oa : list (nat * Outcome)),
    iteration k (snd (for_each before iteration (loaded input output w)))
    = (Return tt, st_k')
    /\ error_count (self st_k')
       = error_count (self (snd (for_each before iteration (loaded input output w)))) + 1
    /\ success_count (self st_k')
       = success_count (self (snd (for_each before iteration (loaded input output w))))
    /\ no_data_count (self st_k')
       = no_data_count (self (snd (for_each before iteration (loaded input output w))))
    /\ sheet (self st_k')
       = sheet (self (snd (for_each before iteration (loaded input output w))))
    /\ run input output w = finish (snd (for_each after iteration st_k'))
    /\ run input output w = (Return b, st')
    /\ trace st' = pre ++ EvSave output ws' :: post
    /\ row_outcomes pre = ob ++ (k, Error) :: oa
    /\ map fst ob = before
    /\ map fst oa = after
    /\ row_outcomes post = []
    /\ saves post = []
    /\ 1 <= error_count (self st')
    /\ success_count (self st') + error_count (self st') + no_data_count (self st')
       = length (before ++ k :: after).
Proof.
  intros Hload Hseq Hraise.
  destruct (loaded_ok input output w w0 ws Hload) as (_ & Hs0 & Hr0 & _).
  set (st0 := loaded input output w) in *.
  destruct (rows_spec before st0)
    as (st_k & evs_b & Hrun_b & Ht_b & Hr_b & Hsu_b & Her_b & Hnd_b & _ & _ & Hout_b
        & Hsh_b & _).
  rewrite Hrun_b in *. cbn [snd] in *.
  destruct (iteration_spec k st_k)
    as (o & st_k' & evs_k & Hrun_k & Ht_k & Hr_k & Hsu_k & Her_k & Hnd_k & _ & _
        & Hout_k & Hsh_k & _ & Herr).
  assert (o = Error) as -> by (apply Herr; eauto).
  cbn [counts] in *.
  destruct (rows_spec after st_k')
    as (st_e & evs_a & Hrun_a & Ht_a & Hr_a & Hsu_a & Her_a & Hnd_a & _ & _ & Hout_a
        & Hsh_a & _).
  destruct (finish_spec st_e) as (b & st' & post & Hfin & Hs' & Ht' & Hr' & Hv' & _).
  assert (is_Some (sheet (self st_e))) as [ws' Hws'].
  { apply Hsh_a. rewrite Hsh_k. apply Hsh_b. rewrite Hs0. cbn. eauto. }
  assert (run input output w = finish (snd (for_each after iteration st_k'))) as Hrun.
  { rewrite (run_unfold input output w w0 ws Hload), Hseq, for_each_app.
    fold st0. rewrite Hrun_b. cbn [for_each]. unfold bind at 1. rewrite Hrun_k.
    reflexivity. }
  exists st_k', b, st', (trace st0 ++ evs_b ++ evs_k ++ evs_a), post, ws',
    (row_outcomes evs_b), (row_outcomes evs_a).
  rewrite Hrun, Hrun_a. cbn [snd].
  rewrite Hws' in Ht'.
  assert (output_file (self st_e) = output) as Hout.
  { rewrite Hout_a, Hout_k, Hout_b, Hs0. reflexivity. }
  rewrite Hout in Ht'.
  pose proof (tally_total (row_outcomes evs_b)) as Htb.
  pose proof (tally_total (row_outcomes evs_a)) as Hta.
  rewrite Hs0 in Hsu_b, Her_b, Hnd_b.
  cbn [success_count error_count no_data_count set_loaded ExcelProcessor_init]
    in Hsu_b, Her_b, Hnd_b.
  repeat split; auto; try lia.
  - rewrite Ht', Ht_a, Ht_k, Ht_b, <- !app_assoc. reflexivity.
  - rewrite !row_outcomes_app, Hr0, Hr_k. reflexivity.
  - rewrite Hs'. lia.
  - rewrite Hs', length_app. cbn [length].
    rewrite <- Hr_b, <- Hr_a, !length_map. lia.
Qed.

End Isolation.

(** * The theorems at work on the small world *)

Lemma pair_eta {A B : Type} (p : A * B) (a : A) : fst p = a -> p = (a, snd p).
Proof. intros <-. now destruct p. Qed.

Lemma failure_isolation_witness :
  openpyxl_load_workbook Demo.world0 "catalog.xlsx" = (Demo.world1, Return Demo.catalog)
  /\ seq 2 (max_row Demo.catalog + 1 - 2) = [] ++ 2 :: [3; 4; 5; 6; 7; 8]
  /\ fst (row_body 2 (snd (for_each [] iteration
                             (loaded "catalog.xlsx" "out/result.xlsx" Demo.world0))))
     = Raise OtherException
  /\ exists (b : bool) (st' : State) (ob oa : list (nat * Outcome)),
       run "catalog.xlsx" "out/result.xlsx" Demo.world0 = (Return b, st')
       /\ map fst ob = []
       /\ map fst oa = [3; 4; 5; 6; 7; 8]
       /\ 1 <= error_count (self st')
       /\ success_count (self st') + error_count (self st') + no_data_count (self st')
          = 7.
Proof.
  assert (openpyxl_load_workbook Demo.world0 "catalog.xlsx" = (Demo.world1, Return Demo.catalog)) as H1
    by reflexivity.
  assert (seq 2 (max_row Demo.catalog + 1 - 2) = [] ++ 2 :: [3; 4; 5; 6; 7; 8]) as H2
    by reflexivity.
  assert (fst (row_body 2 (snd (for_each [] iteration
                                  (loaded "catalog.xlsx" "out/result.xlsx" Demo.world0))))
          = Raise OtherException) as H3 by (vm_compute; reflexivity).
  split; [exact H1 |]. split; [exact H2 |]. split; [exact H3 |].
  destruct (failure_isolation "catalog.xlsx" "out/result.xlsx" Demo.world0 Demo.world1 Demo.catalog
              [] [3; 4; 5; 6; 7; 8] 2 OtherException H1 H2 H3)
    as (st_k' & b & st' & pre & post & ws' & ob & oa & _ & _ & _ & _ & _ & _ & Hrun
        & _ & _ & Hob & Hoa & _ & _ & Herr & Hsum).
  exists b, st', ob, oa. auto.
Defined.

Lemma end_to_end_scenario_witness :
  sheet (self Demo.start) = Some Demo.catalog
  /\ truthy (cell_value Demo.catalog 3 4) = true
  /\ PyStr.strip (py_str (cell_value Demo.catalog 3 4)) = "12345"
  /\ truthy (cell_value Demo.catalog 3 6) = false
  /\ exists (st' : State) (evs : list Event) (ws' : Worksheet),
       iteration 3 Demo.start = (Return tt, st')
       /\ sheet (self st') = Some ws'
       /\ cell_value ws' 3 6 = VStr "X1, X2, X3"
       /\ trace st' = trace Demo.start ++ evs
       /\ row_outcomes evs = [(3, Success)]
       /\ success_count (self st') = success_count (self Demo.start) + 1
       /\ error_count (self st') = error_count (self Demo.start)
       /\ no_data_count (self st') = no_data_count (self Demo.start).
Proof.
  split; [reflexivity |]. split; [reflexivity |]. split; [reflexivity |].
  split; [reflexivity |].
  apply (end_to_end_scenario 3 Demo.start Demo.catalog); try reflexivity;
    intros s; eexists; (split; [vm_compute; reflexivity | reflexivity]).
Defined.


Lemma codeless_replacements_excluded_witness :
  sheet (self Demo.start) = Some Demo.catalog
  /\ truthy (cell_value Demo.catalog 6 4) = true
  /\ find_oem (PyStr.strip (py_str (cell_value Demo.catalog 6 4)))
       (at_find_oem Demo.start 6 (PyStr.strip (py_str (cell_value Demo.catalog 6 4))))
     = (Return Demo.nocode_details, Demo.nocode_resolved)
  /\ fetched Demo.nocode_details Demo.nocode_resolved
     = (Return Demo.nocode_replacements, Demo.nocode_fetched)
  /\ Forall lacks_code Demo.nocode_replacements
  /\ exists (st' : State) (evs : list Event),
       iteration 6 Demo.start = (Return tt, st')
       /\ trace st' = trace Demo.start ++ evs
       /\ row_outcomes evs = [(6, NoData)]
       /\ saves evs = []
       /\ sheet (self st') = Some Demo.catalog
       /\ no_data_count (self st') = no_data_count (self Demo.start) + 1
       /\ success_count (self st') = success_count (self Demo.start)
       /\ error_count (self st') = error_count (self Demo.start)
       /\ processed_rows (self st') = processed_rows (self Demo.start).
Proof.
  assert (Forall lacks_code Demo.nocode_replacements) as Hl
    by (repeat constructor).
  assert (sheet (self Demo.start) = Some Demo.catalog) as H1 by reflexivity.
  assert (truthy (cell_value Demo.catalog 6 4) = true) as H2
    by (vm_compute; reflexivity).
  assert (find_oem (PyStr.strip (py_str (cell_value Demo.catalog 6 4)))
            (at_find_oem Demo.start 6
               (PyStr.strip (py_str (cell_value Demo.catalog 6 4))))
          = (Return Demo.nocode_details, Demo.nocode_resolved)) as H3.
  { replace (PyStr.strip (py_str (cell_value Demo.catalog 6 4))) with "nocode"
      by (vm_compute; reflexivity).
    apply pair_eta. vm_compute. reflexivity. }
  assert (fetched Demo.nocode_details Demo.nocode_resolved
          = (Return Demo.nocode_replacements, Demo.nocode_fetched)) as H4
    by (apply pair_eta; vm_compute; reflexivity).
  split; [exact H1 |]. split; [exact H2 |]. split; [exact H3 |].
  split; [exact H4 |]. split; [exact Hl |].
  destruct (codeless_replacements_excluded 6 Demo.start Demo.nocode_resolved
              Demo.nocode_fetched Demo.catalog Demo.nocode_details
              Demo.nocode_replacements H1 H2 H3 H4) as (_ & _ & Hrow).
  destruct (Hrow Hl)
    as (st' & evs & Hrun & Ht & Hr & Hv & _ & Hsh & Hnd & Hsu & Her & Hpr & _).
  exists st', evs. repeat split; assumption.
Defined.



Lemma processed_rows_excludes_no_data_witness :
  row_body 4 Demo.start = (Return Continue, snd (row_body 4 Demo.start))
  /\ processed_rows (self (snd (row_body 4 Demo.start)))
     = processed_rows (self Demo.start)
  /\ no_data_count (self (snd (row_body 4 Demo.start)))
     = no_data_count (self Demo.start) + 1.
Proof.
  assert (row_body 4 Demo.start = (Return Continue, snd (row_body 4 Demo.start)))
    as H by (apply pair_eta; vm_compute; reflexivity).
  split; [exact H |].
  destruct (@processed_rows_excludes_no_data Demo.env) as [Hskip _].
  destruct (Hskip 4 Demo.start _ H) as (_ & Hp & Hn & _).
  auto.
Defined.

(** The small catalog, run from start to end: two rows written, two rows
    in error, three without data, four rows processed. *)
Example demo_run :
  fst (run "catalog.xlsx" "out/result.xlsx" Demo.world0) = Return true
  /\ row_outcomes (trace (snd (run "catalog.xlsx" "out/result.xlsx" Demo.world0)))
     = [(2, Error); (3, Success); (4, NoData); (5, NoData); (6, NoData);
        (7, Success); (8, Error)]
  /\ map fst (saves (trace (snd (run "catalog.xlsx" "out/result.xlsx" Demo.world0))))
     = ["out/result.xlsx"]
  /\ processed_rows (self (snd (run "catalog.xlsx" "out/result.xlsx" Demo.world0))) = 4.
Proof. repeat split; vm_compute; reflexivity. Qed.

(** Two hundred and fifty rows that all resolve: checkpoints after the
    hundredth and the two hundredth, then the final save. *)
Example demo_long_run :
  map fst (saves (trace (snd (run "long.xlsx" "out/result.xlsx" Demo.world0))))
  = ["out/result_temp.xlsx"; "out/result_temp.xlsx"; "out/result.xlsx"].
Proof. vm_compute. reflexivity. Qed.

(** * Further properties *)

(** ** The lookup client *)

Section ClientExtras.
Context {E : Env}.

Lemma sleeps_app (a b : list Event) : sleeps (a ++ b) = sleeps a ++ sleeps b.
Proof. apply omap_app. Qed.

Lemma logs_app (a b : list Event) : logs (a ++ b) = logs a ++ logs b.
Proof. apply omap_app. Qed.

Lemma loads_app (a b : list Event) : loads (a ++ b) = loads a ++ loads b.
Proof. apply omap_app. Qed.

Ltac client_cases q :=
  destruct q; cbn [lookup_params lookup_tag lookup_error_line];
  unfold find_oem, find_replacements, try_except, bind, get, call,
    raise_for_status, lift, logger, emit, raise, ret;
  cbn [lookup_params];
  destruct (session_get _ _ _) as [w [response | e]]; cbn [snd fst];
  [ destruct ((400 <=? status_code response) && (status_code response <? 600))%Z;
    [ | destruct (ET_fromstring _) as [root | e]; [ | destruct e ] ]
  | destruct e
  | destruct ((400 <=? status_code response) && (status_code response <? 600))%Z;
    [ | destruct (ET_fromstring _) as [root | e]; [ | destruct e ] ]
  | destruct e ].

(** Whatever the libraries answer, a lookup sends exactly one request,
    the one of its operation, never sleeps, loads or saves, leaves the
    processor alone, and logs one ERROR line exactly when it catches an
    exception: a lookup that finds no match returns silently. *)
Theorem lookup_trace (q : Lookup) (arg : string) (st : State) :
  self (snd (lookup_result q arg st)) = self st
  /\ exists evs : list Event,
       trace (snd (lookup_result q arg st)) = trace st ++ evs
       /\ remote_calls evs = [request q arg]
       /\ sleeps evs = []
       /\ saves evs = []
       /\ loads evs = []
       /\ logs evs = match caught q (world st) arg with
                     | Some e => [lookup_error_line q arg e]
                     | None => []
                     end.
Proof.
  unfold lookup_result, caught, request.
  client_cases q; cbn [snd fst absorbed self trace];
    (split; [reflexivity |]);
    eexists; (split; [rewrite <- ?app_assoc; reflexivity |]);
    repeat split.
Qed.

Lemma escaping_spec (q : Lookup) (w : World) (arg : string) (err : exn) :
  escaping q w arg = Some err
  <-> err <> RequestException /\ err <> ParseError
      /\ (snd (session_get w LAXIMO_BASE_URL (lookup_params q arg)) = Raise err
          \/ exists response,
               snd (session_get w LAXIMO_BASE_URL (lookup_params q arg))
               = Return response
               /\ ((400 <=? status_code response) && (status_code response <? 600))%Z
                  = false
               /\ ET_fromstring (text response) = Raise err).
Proof.
  unfold escaping.
  destruct (session_get _ _ _) as [w' [response | e]]; cbn [snd].
  - destruct (_ && _) eqn:Hstatus.
    + split; [discriminate |].
      intros (_ & _ & [H | (r & [= <-] & Hr & _)]); [discriminate | congruence].
    + destruct (ET_fromstring _) as [root | e] eqn:Hparse.
      * split; [discriminate |].
        intros (_ & _ & [H | (r & [= <-] & _ & Hr)]); [discriminate | congruence].
      * destruct e; cbn [absorbed]; split;
          try discriminate;
          try (intros [= <-]; split; [discriminate |]; split; [discriminate |];
               right; eauto);
          intros (H1 & H2 & [H | (r & [= <-] & _ & Hr)]);
          first [discriminate | congruence].
  - destruct e; cbn [absorbed]; split;
      try discriminate;
      try (intros [= <-]; split; [discriminate |]; split; [discriminate |];
           left; reflexivity);
      intros (H1 & H2 & [H | (r & Hr & _)]);
      first [discriminate | congruence].
Qed.

Lemma lookup_raises_escaping (q : Lookup) (arg : string) (st : State) (err : exn) :
  fst (lookup_result q arg st) = Raise err <-> escaping q (world st) arg = Some err.
Proof.
  unfold lookup_result, escaping.
  client_cases q; cbn [snd fst absorbed];
    split; intros H; first [discriminate H | congruence].
Qed.

Lemma lookup_raises_trace (q : Lookup) (arg : string) (st : State) (err : exn) :
  fst (lookup_result q arg st) = Raise err ->
  snd (lookup_result q arg st)
  = {| self := self st;
       world := fst (session_get (world st) LAXIMO_BASE_URL (lookup_params q arg));
       trace := trace st ++ [EvGet LAXIMO_BASE_URL (lookup_params q arg)] |}
  /\ caught q (world st) arg = None.
Proof.
  unfold lookup_result, caught.
  client_cases q; cbn [snd fst absorbed];
    intros H; first [discriminate H | split; reflexivity].
Qed.

(** A lookup raises exactly the exceptions of [session.get] and of the
    parser that are neither a [RequestException] nor a [ParseError].
    When it raises, the client has logged nothing: the request is the
    only event it added to the trace, and the processor is as before. *)
Theorem lookup_raises (q : Lookup) (arg : string) (st : State) (err : exn) :
  (fst (lookup_result q arg st) = Raise err
   <-> err <> RequestException /\ err <> ParseError
       /\ (snd (session_get (world st) LAXIMO_BASE_URL (lookup_params q arg)) = Raise err
           \/ exists response,
                snd (session_get (world st) LAXIMO_BASE_URL (lookup_params q arg))
                = Return response
                /\ ((400 <=? status_code response) && (status_code response <? 600))%Z
                   = false
                /\ ET_fromstring (text response) = Raise err))
  /\ (fst (lookup_result q arg st) = Raise err <-> escaping q (world st) arg = Some err)
  /\ (fst (lookup_result q arg st) = Raise err ->
      trace (snd (lookup_result q arg st))
      = trace st ++ [EvGet LAXIMO_BASE_URL (lookup_params q arg)]
      /\ logs (trace (snd (lookup_result q arg st))) = logs (trace st)
      /\ self (snd (lookup_result q arg st)) = self st
      /\ caught q (world st) arg = None).
Proof.
  split; [| split].
  - rewrite lookup_raises_escaping. apply escaping_spec.
  - apply lookup_raises_escaping.
  - intros H. destruct (lookup_raises_trace q arg st err H) as [-> Hc].
    cbn [trace self]. rewrite logs_app. cbn. rewrite app_nil_r. auto.
Qed.

End ClientExtras.

(** ** Loading, saving and the result of a run *)

Section LoadSaveExtras.
Context {E : Env}.


(** [save_workbook] never raises and never changes the processor.  With
    a workbook loaded it calls [workbook.save] once, on the output path
    when [is_final] and on the checkpoint path otherwise, passing the
    sheet as it is, and returns whether that call returned; with no
    workbook loaded it saves nothing and returns [False]. *)
Theorem save_workbook_total (is_final : bool) (st : State) :
  exists (b : bool) (st' : State) (evs : list Event),
    save_workbook is_final st = (Return b, st')
    /\ self st' = self st
    /\ trace st' = trace st ++ evs
    /\ remote_calls evs = [] /\ row_outcomes evs = [] /\ loads evs = []
    /\ match sheet (self st) with
       | Some ws =>
           saves evs
           = [(if is_final then output_file (self st)
               else temp_path (output_file (self st)), ws)]
           /\ (b = true
               <-> exists w, workbook_save (world st)
                               (if is_final then output_file (self st)
                                else temp_path (output_file (self st))) ws
                             = (w, Return tt))
       | None => saves evs = [] /\ b = false /\ world st' = world st
       end.
Proof.
  rewrite save_workbook_unfold. unfold save_path.
  destruct (sheet (self st)) as [ws|].
  - cbv zeta. destruct is_final; cbn [negb];
      destruct (workbook_save _ _ _) as [w [[]|e]];
      (eexists; eexists; eexists; split; [reflexivity |]);
      cbn [self trace]; repeat split; eauto;
      try discriminate; intros [w' H]; discriminate H.
  - eexists; eexists; eexists; split; [reflexivity |].
    cbn [self trace world]. repeat split.
Qed.

(** When the library fails to load the workbook, the run ends before
    the first row: [process_file] returns [False], no row is attempted,
    nothing is requested from the service, nothing is saved, the four
    counters and [total_rows] are zero and the paths are those given to
    [__init__]; the log holds the loading line and the ERROR line. *)
Theorem load_failure_aborts (input output : string) (w w0 : World) (e : exn) :
  openpyxl_load_workbook w input = (w0, Raise e) ->
  exists st' : State,
    run input output w = (Return false, st')
    /\ trace st' = [EvLog INFO (MsgLoading input); EvLoad input;
                    EvLog ERROR (MsgLoadError e)]
    /\ world st' = w0
    /\ input_file (self st') = input
    /\ output_file (self st') = output
    /\ total_rows (self st') = 0
    /\ processed_rows (self st') = 0
    /\ success_count (self st') = 0
    /\ error_count (self st') = 0
    /\ no_data_count (self st') = 0
    /\ row_outcomes (trace st') = []
    /\ remote_calls (trace st') = []
    /\ sleeps (trace st') = []
    /\ saves (trace st') = []
    /\ logs (trace st') = [(INFO, MsgLoading input); (ERROR, MsgLoadError e)].
Proof.
  intros H. unfold run. rewrite process_file_unfold, load_workbook_unfold.
  cbn [self world trace input_file ExcelProcessor_init]. cbv zeta. rewrite H.
  eexists. split; [reflexivity |]. cbn. repeat split.
Qed.

(** The value [process_file] returns for a workbook that loads is the
    outcome of the final save alone: [True] exactly when [workbook.save]
    on the output path returns, in the world the loop ended in and on the
    sheet the loop left, whatever the rows' outcomes were. *)
Theorem run_result_is_final_save (input output : string) (w w0 : World)
    (ws : Worksheet) :
  openpyxl_load_workbook w input = (w0, Return ws) ->
  exists (b : bool) (st' : State) (ws' : Worksheet),
    run input output w = (Return b, st')
    /\ sheet (self (snd (for_each (seq 2 (max_row ws + 1 - 2)) iteration
                                  (loaded input output w)))) = Some ws'
    /\ sheet (self st') = Some ws'
    /\ (b = true
        <-> exists w',
              workbook_save
                (world (snd (for_each (seq 2 (max_row ws + 1 - 2)) iteration
                                      (loaded input output w))))
                output ws'
              = (w', Return tt)).
Proof.
  intros H. rewrite (run_unfold input output w w0 ws H).
  destruct (loaded_ok input output w w0 ws H) as (_ & Hs & _).
  destruct (rows_spec (seq 2 (max_row ws + 1 - 2)) (loaded input output w))
    as (st1 & evs & Hrun & _ & _ & _ & _ & _ & _ & _ & Hout & Hsh & _).
  rewrite Hrun. cbn [snd].
  destruct (Hsh ltac:(rewrite Hs; cbn; eauto)) as [ws' Hws'].
  assert (output_file (self st1) = output) as Hout' by (now rewrite Hout, Hs).
  unfold finish. unfold bind at 1. rewrite save_workbook_unfold, Hws'.
  unfold save_path. cbn [negb]. cbv zeta. rewrite Hout'.
  destruct (workbook_save _ _ _) as [w' [[]|e']] eqn:Hsave;
    unfold bind, logger, emit, get_self, ret; cbn [self world trace];
    (eexists; eexists; exists ws'; split; [reflexivity |]);
    cbn [self]; repeat split; eauto; try discriminate;
    intros [w'' Hc]; rewrite Hsave in Hc; discriminate Hc.
Qed.

(** A sheet with no data row (only the header, or nothing at all): the
    loop body never runs, nothing is requested, the counters stay at
    zero, and the unchanged workbook is saved once, to the output path. *)
Theorem header_only_sheet (input output : string) (w w0 : World) (ws : Worksheet) :
  openpyxl_load_workbook w input = (w0, Return ws) ->
  max_row ws <= 1 ->
  exists (b : bool) (st' : State),
    run input output w = (Return b, st')
    /\ row_outcomes (trace st') = []
    /\ remote_calls (trace st') = []
    /\ sleeps (trace st') = []
    /\ saves (trace st') = [(output, ws)]
    /\ sheet (self st') = Some ws
    /\ processed_rows (self st') = 0
    /\ success_count (self st') = 0
    /\ error_count (self st') = 0
    /\ no_data_count (self st') = 0.
Proof.
  intros H Hmax. rewrite (run_unfold input output w w0 ws H).
  replace (max_row ws + 1 - 2) with 0 by lia. cbn [seq for_each ret snd].
  unfold loaded. rewrite load_workbook_unfold.
  cbn [self world trace input_file ExcelProcessor_init]. cbv zeta. rewrite H.
  cbn [snd]. unfold finish. unfold bind at 1. rewrite save_workbook_unfold.
  cbn [self world trace sheet set_loaded]. unfold save_path.
  cbn [negb output_file set_loaded ExcelProcessor_init]. cbv zeta.
  destruct (workbook_save _ _ _) as [w' [[]|e']];
    unfold bind, logger, emit, get_self, ret; cbn [self world trace];
    (eexists; eexists; split; [reflexivity |]);
    cbn; repeat split.
Qed.

End LoadSaveExtras.

(** ** What a run leaves alone *)

Section FrameExtras.
Context {E : Env}.

Lemma max_row_set (ws : Worksheet) (r c : nat) (v : CellValue) :
  r <= max_row ws -> max_row (set_cell_value ws r c v) = max_row ws.
Proof. intros H. cbn. lia. Qed.

Lemma iteration_sheet (row_idx : nat) (st : State) (ws : Worksheet) :
  sheet (self st) = Some ws ->
  exists (o : Outcome) (st' : State) (evs : list Event) (ws' : Worksheet),
    iteration row_idx st = (Return tt, st')
    /\ trace st' = trace st ++ evs
    /\ row_outcomes evs = [(row_idx, o)]
    /\ sheet (self st') = Some ws'
    /\ (o <> Success -> ws' = ws)
    /\ (o = Success -> exists new, ws' = set_cell_value ws row_idx 6 (VStr new)).
Proof.
  intros Hws.
  destruct (iteration_spec row_idx st)
    as (o & st' & evs & Hrun & Ht & Hr & _ & _ & _ & _ & _ & _ & Hsh & _).
  destruct o.
  - destruct Hsh as (ws0 & new & Hws0 & Hws').
    rewrite Hws in Hws0. injection Hws0 as <-.
    exists Success, st', evs, (set_cell_value ws row_idx 6 (VStr new)).
    repeat split; auto; [congruence | eauto].
  - exists Error, st', evs, ws. rewrite Hsh. repeat split; auto. discriminate.
  - exists NoData, st', evs, ws. rewrite Hsh. repeat split; auto. discriminate.
Qed.

Lemma sheet_frame (o : Outcome) (ws ws' : Worksheet) (row_idx : nat) :
  (o <> Success -> ws' = ws) ->
  (o = Success -> exists new, ws' = set_cell_value ws row_idx 6 (VStr new)) ->
  forall r c, (r, c) <> (row_idx, 6) -> cell_value ws' r c = cell_value ws r c.
Proof.
  intros Hsame Hnew r c Hne.
  destruct (decide (o = Success)) as [Ho | Ho].
  - destruct (Hnew Ho) as [new ->]. apply cell_value_set_other. congruence.
  - now rewrite (Hsame Ho).
Qed.

(** One iteration writes at most the description cell of its own row:
    every other cell keeps its value, and the sheet is untouched unless
    the row closes as a success, in which case the cell holds text. *)
Theorem iteration_writes_one_cell (row_idx : nat) (st : State) (ws : Worksheet) :
  sheet (self st) = Some ws ->
  exists (o : Outcome) (st' : State) (evs : list Event) (ws' : Worksheet),
    iteration row_idx st = (Return tt, st')
    /\ trace st' = trace st ++ evs
    /\ row_outcomes evs = [(row_idx, o)]
    /\ sheet (self st') = Some ws'
    /\ (forall r c, (r, c) <> (row_idx, 6) -> cell_value ws' r c = cell_value ws r c)
    /\ (o <> Success -> ws' = ws)
    /\ (o = Success -> exists new, ws' = set_cell_value ws row_idx 6 (VStr new)).
Proof.
  intros Hws.
  destruct (iteration_sheet row_idx st ws Hws)
    as (o & st' & evs & ws' & Hrun & Ht & Hr & Hws' & Hsame & Hnew).
  exists o, st', evs, ws'.
  pose proof (sheet_frame o ws ws' row_idx Hsame Hnew) as Hframe.
  repeat split; auto.
Qed.

Lemma rows_frame (rows : list nat) (st : State) (ws : Worksheet) :
  sheet (self st) = Some ws ->
  exists (st' : State) (evs : list Event) (ws' : Worksheet),
    for_each rows iteration st = (Return tt, st')
    /\ trace st' = trace st ++ evs
    /\ map fst (row_outcomes evs) = rows
    /\ sheet (self st') = Some ws'
    /\ (forall r c, c <> 6 \/ (r, Success) ∉ row_outcomes evs ->
                    cell_value ws' r c = cell_value ws r c)
    /\ (forall r, (r, Success) ∈ row_outcomes evs ->
                  exists new, cell_value ws' r 6 = VStr new)
    /\ ((forall r, r ∈ rows -> r <= max_row ws) -> max_row ws' = max_row ws).
Proof.
  revert st ws. induction rows as [|k rows IH]; intros st ws Hws.
  - exists st, [], ws. cbn. rewrite app_nil_r. repeat split; auto.
    intros r Hr. inversion Hr.
  - cbn [for_each]. unfold bind.
    destruct (iteration_sheet k st ws Hws)
      as (o & st1 & evs1 & ws1 & Hrun & Ht & Hr & Hws1 & Hsame & Hnew).
    pose proof (sheet_frame o ws ws1 k Hsame Hnew) as Hframe.
    rewrite Hrun.
    destruct (IH st1 ws1 Hws1)
      as (st' & evs & ws' & Hrun' & Ht' & Hr' & Hws' & Hframe' & Hnew' & Hmax').
    exists st', (evs1 ++ evs), ws'. split; [exact Hrun' |].
    rewrite Ht', Ht, <- app_assoc, row_outcomes_app, Hr. cbn [app map fst].
    repeat split; auto.
    + now rewrite Hr'.
    + intros r c Hc. rewrite Hframe'.
      * destruct (decide ((r, c) = (k, 6))) as [Heq | Hne]; [| now apply Hframe].
        injection Heq as -> ->. destruct Hc as [Hc | Hc]; [congruence |].
        rewrite Hsame; [reflexivity |]. intros ->. apply Hc. left.
      * destruct Hc as [Hc | Hc]; [now left | right].
        intros Hin. apply Hc. now right.
    + intros r Hin. apply elem_of_cons in Hin as [Heq | Hin].
      * injection Heq as -> <-. destruct (Hnew eq_refl) as [new ->].
        destruct (decide ((k, Success) ∈ row_outcomes evs)) as [Hin | Hnin].
        -- now apply Hnew'.
        -- rewrite Hframe' by now right. rewrite cell_value_set. eauto.
      * now apply Hnew'.
    + intros Hle.
      assert (max_row ws1 = max_row ws) as Hm1.
      { destruct o; [| now rewrite Hsame ..].
        destruct (Hnew eq_refl) as [new ->]. apply max_row_set, Hle. left. }
      rewrite Hmax', Hm1; [reflexivity |].
      intros r Hr0. rewrite Hm1. apply Hle. now right.
Qed.

(** Over a whole run on a workbook that loads, the saved sheet differs
    from the loaded one only in the description cells (column 6) of the
    rows closed as a success, which hold text: the header row, the source
    column and every other cell keep their values, the rows closed as
    error or without data keep their description, and [max_row] is the
    same. *)
Theorem run_changes_only_written_descriptions (input output : string)
    (w w0 : World) (ws : Worksheet) :
  openpyxl_load_workbook w input = (w0, Return ws) ->
  exists (b : bool) (st' : State) (ws' : Worksheet),
    run input output w = (Return b, st')
    /\ sheet (self st') = Some ws'
    /\ (output, ws') ∈ saves (trace st')
    /\ (forall r c, c <> 6 \/ r < 2 \/ max_row ws < r
                    \/ (r, Success) ∉ row_outcomes (trace st') ->
                    cell_value ws' r c = cell_value ws r c)
    /\ (forall r, (r, Success) ∈ row_outcomes (trace st') ->
                  2 <= r <= max_row ws /\ exists new, cell_value ws' r 6 = VStr new)
    /\ max_row ws' = max_row ws.
Proof.
  intros H. rewrite (run_unfold input output w w0 ws H).
  destruct (loaded_ok input output w w0 ws H) as (_ & Hs & Hr0 & _).
  assert (sheet (self (loaded input output w)) = Some ws) as Hws
    by (rewrite Hs; reflexivity).
  destruct (rows_frame (seq 2 (max_row ws + 1 - 2)) (loaded input output w) ws Hws)
    as (st1 & evs & ws' & Hrun & Ht & Hr & Hws' & Hframe & Hnew & Hmax).
  rewrite Hrun. cbn [snd].
  destruct (finish_spec st1) as (b & st' & post & Hfin & Hs' & Ht' & Hr' & Hv' & _).
  rewrite Hws' in Ht'.
  assert (row_outcomes (trace st') = row_outcomes evs) as Hout.
  { rewrite Ht', Ht, !row_outcomes_app, Hr0, Hr'. cbn. apply app_nil_r. }
  assert (forall r, (r, Success) ∈ row_outcomes evs -> 2 <= r <= max_row ws) as Hrange.
  { intros r Hin. assert (r ∈ seq 2 (max_row ws + 1 - 2)) as Hin'.
    { rewrite <- Hr. apply (list_elem_of_fmap_2 fst) in Hin. exact Hin. }
    apply elem_of_seq in Hin'. lia. }
  exists b, st', ws'. rewrite Hfin, Hs', Hout. repeat split; auto.
  - rewrite Ht', !saves_app. cbn. apply elem_of_app. right.
    assert (output_file (self st1) = output) as ->.
    { destruct (rows_spec (seq 2 (max_row ws + 1 - 2)) (loaded input output w))
        as (st1' & evs' & Hrun1 & _ & _ & _ & _ & _ & _ & _ & Ho & _).
      rewrite Hrun in Hrun1. injection Hrun1 as <-. now rewrite Ho, Hs. }
    left.
  - intros r c [Hc | [Hc | [Hc | Hc]]]; apply Hframe; auto;
      right; intros Hin; apply Hrange in Hin; lia.
  - apply Hrange; assumption.
  - apply Hrange; assumption.
  - apply Hmax. intros r Hin. apply elem_of_seq in Hin. lia.
Qed.

End FrameExtras.

(** ** Merging into the description *)

Section MergeExtras.

Lemma string_app_assoc (a b c : string) : (a +:+ b) +:+ c = a +:+ (b +:+ c).
Proof.
  induction a as [|x a IH]; [reflexivity |].
  rewrite !string_app_cons. now f_equal.
Qed.

(** The merge keeps the existing text: the new description is the old
    one, then the separator, then the rendered cross-numbers.  The
    separator is empty exactly when the old text, its trailing white
    space set aside, ends in a comma, and [", "] in every other case,
    trailing white space included. *)
Theorem merge_keeps_existing_text (s text : string) :
  s <> "" ->
  merge_description (VStr s) text
  = Return (s +:+ (if PyStr.endswith (PyStr.rstrip s) "," then "" else ", ") +:+ text).
Proof.
  intros Hs. rewrite (merge_description_rule s text Hs).
  destruct (PyStr.endswith _ ","); [reflexivity |].
  now rewrite string_app_assoc.
Qed.

(** The merge fails exactly on a description that is truthy and not
    text (a number, a date): the [rstrip] lookup raises [AttributeError].
    A falsy description of any type ([None], [""], [0]) is replaced by the
    rendered text alone. *)
Theorem merge_fails_on_non_text (v : CellValue) (text : string) :
  (forall e, merge_description (py_or v (VStr "")) text = Raise e
             <-> e = AttributeError /\ exists r, v = VObj true r)
  /\ (truthy v = false -> merge_description (py_or v (VStr "")) text = Return text).
Proof.
  unfold py_or, merge_description. split.
  - intros e. destruct v as [|s|[|] r]; cbn [truthy].
    + cbn. split; [discriminate | intros [_ [r Hr]]; discriminate Hr].
    + destruct (PyStr.nonempty s) eqn:Hs; cbn [truthy]; rewrite ?Hs; cbn;
        (split; [discriminate | intros [_ [r Hr]]; discriminate Hr]).
    + cbn. split; [intros [= <-]; eauto | intros [-> _]; reflexivity].
    + cbn. split; [discriminate | intros [_ [r' Hr]]; discriminate Hr].
  - intros Hv. rewrite Hv. reflexivity.
Qed.

End MergeExtras.

(** ** The requests of a row *)

Section RequestExtras.
Context {E : Env}.

Lemma paced_quiet (b : bool) (tail rest : list Event) :
  remote_calls tail = [] -> sleeps tail = [] ->
  paced_from false (tail ++ rest) = paced_from false rest
  /\ paced_from b tail = true.
Proof.
  revert b. induction tail as [|ev tail IH]; intros b Hc Hs; [auto |].
  destruct ev; cbn in Hc, Hs; try discriminate; cbn [app paced_from];
    apply (IH false); assumption.
Qed.

(** The events of [find_replacements]: the request first, then at most
    log lines. *)
Lemma find_replacements_events (detail_id : string) (st : State) :
  exists tail : list Event,
    trace (snd (find_replacements detail_id st))
    = trace st ++ EvGet LAXIMO_BASE_URL (lookup_params FindReplacements detail_id) :: tail
    /\ remote_calls tail = [] /\ sleeps tail = [] /\ saves tail = []
    /\ row_outcomes tail = [].
Proof.
  unfold find_replacements, try_except, bind, get, call, raise_for_status, lift,
    logger, emit, raise, ret. cbn [lookup_params].
  destruct (session_get _ _ _) as [w [response | e]]; cbn [snd fst].
  - destruct (_ && _); cbn [snd trace].
    + eexists [_]. rewrite <- app_assoc. repeat split.
    + destruct (ET_fromstring _) as [root | e]; [| destruct e]; cbn [snd trace];
        first [ solve [exists []; repeat split]
              | solve [eexists [_]; rewrite <- app_assoc; repeat split] ].
  - destruct e; cbn [snd trace];
      first [ solve [exists []; repeat split]
            | solve [eexists [_]; rewrite <- app_assoc; repeat split] ].
Qed.

Lemma detail_ids_cons (d : detail_info) (details : list detail_info) :
  detail_ids (d :: details)
  = match detailid d with
    | Some detail_id =>
        if PyStr.nonempty detail_id then detail_id :: detail_ids details
        else detail_ids details
    | None => detail_ids details
    end.
Proof.
  unfold detail_ids. cbn. destruct (detailid d) as [i|]; [| reflexivity].
  now destruct (PyStr.nonempty i).
Qed.

Lemma readers_sleep_get (seconds : QArith_base.Q) (url : string)
    (params : list (string * string)) (l : list Event) :
  remote_calls (EvSleep seconds :: EvGet url params :: l) = (url, params) :: remote_calls l
  /\ sleeps (EvSleep seconds :: EvGet url params :: l) = seconds :: sleeps l
  /\ saves (EvSleep seconds :: EvGet url params :: l) = saves l
  /\ row_outcomes (EvSleep seconds :: EvGet url params :: l) = row_outcomes l.
Proof. repeat split. Qed.

Lemma fetched_cons (d : detail_info) (details : list detail_info) (st : State) :
  fetched (d :: details) st =
  match detailid d with
  | Some detail_id =>
      if PyStr.nonempty detail_id then
        match find_replacements detail_id
                {| self := self st; world := world st;
                   trace := trace st ++ [EvSleep REQUEST_DELAY] |} with
        | (Return rs, st2) =>
            match fetched details st2 with
            | (Return more, st3) => (Return (rs ++ more), st3)
            | (Raise e, st3) => (Raise e, st3)
            end
        | (Raise e, st2) => (Raise e, st2)
        end
      else fetched details st
  | None => fetched details st
  end.
Proof.
  cbn [fetched]. destruct (detailid d) as [detail_id|]; [| reflexivity].
  destruct (PyStr.nonempty detail_id); [| reflexivity].
  unfold bind, sleep, emit, ret.
  destruct (find_replacements _ _) as [[rs|e] st2]; [| reflexivity].
  destruct (fetched details st2) as [[more|e] st3]; reflexivity.
Qed.

Lemma fetched_requests (details : list detail_info) (st : State) :
  exists (evs : list Event) (ids : list string),
    trace (snd (fetched details st)) = trace st ++ evs
    /\ remote_calls evs = map (request FindReplacements) ids
    /\ sleeps evs = repeat REQUEST_DELAY (length ids)
    /\ paced evs = true
    /\ saves evs = []
    /\ row_outcomes evs = []
    /\ ids `prefix_of` detail_ids details
    /\ (forall rs, fst (fetched details st) = Return rs -> ids = detail_ids details).
Proof.
  revert st. induction details as [|d details IH]; intros st.
  - exists [], []. cbn. rewrite app_nil_r. repeat split; auto.
  - rewrite detail_ids_cons, fetched_cons.
    destruct (detailid d) as [detail_id|]; [destruct (PyStr.nonempty detail_id) |];
      try apply IH.
    set (st1 := {| self := self st; world := world st;
                   trace := trace st ++ [EvSleep REQUEST_DELAY] |}).
    destruct (find_replacements_events detail_id st1)
      as (tail & Ht & Hc & Hs & Hv & Hr).
    assert (paced_from true
              (EvGet LAXIMO_BASE_URL (lookup_params FindReplacements detail_id) :: tail)
            = true) as Hp1.
    { cbn [paced_from andb]. now destruct (paced_quiet false tail [] Hc Hs) as [_ ->]. }
    destruct (find_replacements detail_id st1) as [[rs|e] st2]; cbn [snd] in Ht.
    + destruct (IH st2) as (evs & ids & Ht' & Hc' & Hs' & Hp' & Hv' & Hr' & Hpre & Hall).
      exists (EvSleep REQUEST_DELAY
                :: EvGet LAXIMO_BASE_URL (lookup_params FindReplacements detail_id)
                :: tail ++ evs), (detail_id :: ids).
      assert (trace (snd (fetched details st2))
              = trace st
                ++ EvSleep REQUEST_DELAY
                   :: EvGet LAXIMO_BASE_URL (lookup_params FindReplacements detail_id)
                   :: tail ++ evs) as Htr.
      { rewrite Ht', Ht. subst st1. cbn [trace]. rewrite <- !app_assoc. reflexivity. }
      assert (paced (EvSleep REQUEST_DELAY
                       :: EvGet LAXIMO_BASE_URL (lookup_params FindReplacements detail_id)
                       :: tail ++ evs) = true) as Hpaced.
      { unfold paced. cbn [paced_from andb].
        destruct (paced_quiet false tail evs Hc Hs) as [-> _]. exact Hp'. }
      pose proof (readers_sleep_get REQUEST_DELAY LAXIMO_BASE_URL
                    (lookup_params FindReplacements detail_id) (tail ++ evs))
        as (Hq1 & Hq2 & Hq3 & Hq4).
      destruct (fetched details st2) as [[more|e] st3]; cbn [snd fst] in *;
        (split; [exact Htr |]);
        (split; [now rewrite Hq1, remote_calls_app, Hc, Hc' |]);
        (split; [rewrite Hq2, sleeps_app, Hs, Hs'; reflexivity |]);
        (split; [exact Hpaced |]);
        (split; [now rewrite Hq3, saves_app, Hv, Hv' |]);
        (split; [now rewrite Hq4, row_outcomes_app, Hr, Hr' |]);
        (split; [now apply prefix_cons |]).
      * intros rs' _. f_equal. eapply Hall. reflexivity.
      * intros rs' Hrs. discriminate Hrs.
    + cbn [snd fst].
      exists (EvSleep REQUEST_DELAY
                :: EvGet LAXIMO_BASE_URL (lookup_params FindReplacements detail_id)
                :: tail), [detail_id].
      pose proof (readers_sleep_get REQUEST_DELAY LAXIMO_BASE_URL
                    (lookup_params FindReplacements detail_id) tail)
        as (Hq1 & Hq2 & Hq3 & Hq4).
      split; [rewrite Ht; subst st1; cbn [trace]; now rewrite <- !app_assoc |].
      split; [now rewrite Hq1, Hc |]. split; [rewrite Hq2, Hs; reflexivity |].
      split; [exact Hp1 |]. split; [now rewrite Hq3, Hv |].
      split; [now rewrite Hq4, Hr |]. split; [apply prefix_cons, prefix_nil |].
      intros rs' Hrs. discriminate Hrs.
Qed.

(** Step 2 throttles itself.  Whatever the service answers, the loop
    over the details requests the replacements of the truthy
    [detailid]s, in order and one request each, stopping early only if a
    lookup raises; details without an identifier are passed over without
    a call; and every request comes directly after a
    [time.sleep(REQUEST_DELAY)], one sleep per request. *)
Theorem fan_out_paced (details : list detail_info) (acc : gset string) (st : State) :
  exists (evs : list Event) (ids : list string),
    trace (snd (fan_out details acc st)) = trace st ++ evs
    /\ remote_calls evs = map (request FindReplacements) ids
    /\ sleeps evs = repeat REQUEST_DELAY (length ids)
    /\ paced evs = true
    /\ saves evs = []
    /\ ids `prefix_of` detail_ids details
    /\ (forall s, fst (fan_out details acc st) = Return s -> ids = detail_ids details).
Proof.
  destruct (fetched_requests details st)
    as (evs & ids & Ht & Hc & Hs & Hp & Hv & _ & Hpre & Hall).
  exists evs, ids. rewrite fan_out_fetched.
  destruct (fetched details st) as [[rs|e] st']; cbn [snd fst] in *;
    repeat split; auto.
  - intros s _. eapply Hall. reflexivity.
  - intros s Hs'. discriminate Hs'.
Qed.

End RequestExtras.

Section RowRequestExtras.
Context {E : Env}.

Lemma find_oem_events (oem : string) (st : State) :
  exists tail : list Event,
    trace (snd (find_oem oem st))
    = trace st ++ EvGet LAXIMO_BASE_URL (lookup_params FindOEM oem) :: tail
    /\ remote_calls tail = [] /\ sleeps tail = [].
Proof.
  unfold find_oem, try_except, bind, get, call, raise_for_status, lift,
    logger, emit, raise, ret. cbn [lookup_params].
  destruct (session_get _ _ _) as [w [response | e]]; cbn [snd fst].
  - destruct (_ && _); cbn [snd trace].
    + eexists [_]. rewrite <- app_assoc. repeat split.
    + destruct (ET_fromstring _) as [root | e]; [| destruct e]; cbn [snd trace];
        first [ solve [exists []; repeat split]
              | solve [eexists [_]; rewrite <- app_assoc; repeat split] ].
  - destruct e; cbn [snd trace];
      first [ solve [exists []; repeat split]
            | solve [eexists [_]; rewrite <- app_assoc; repeat split] ].
Qed.

Lemma after_try_quiet (st : State) :
  exists (st' : State) (evs : list Event),
    after_try st = (Return tt, st')
    /\ trace st' = trace st ++ evs
    /\ remote_calls evs = [] /\ sleeps evs = [].
Proof.
  unfold after_try, modify_self. unfold bind, get_self, set_self, ret, logger, emit.
  cbn [self world trace].
  match goal with |- context [Nat.eqb ?a 0] => destruct (Nat.eqb a 0) end.
  - rewrite save_workbook_unfold. cbn [self world trace].
    destruct (sheet (incr_processed_rows (self st))) as [ws|].
    + cbv zeta. destruct (workbook_save _ _ _) as [w [[]|e]];
        (eexists; eexists [_; _; _; _]; split; [reflexivity |];
         cbn [trace]; rewrite <- !app_assoc; repeat split).
    + eexists; eexists [_; _; _]; split; [reflexivity |].
      cbn [trace]. rewrite <- !app_assoc. repeat split.
  - eexists; exists []; split; [reflexivity |].
    cbn [trace]. rewrite app_nil_r. repeat split.
Qed.

(** An iteration is its [try] block, then events that are neither
    requests nor sleeps; its outcome is read off the way the block
    ended. *)
Lemma iteration_after_body (row_idx : nat) (st : State) :
  exists (st' : State) (extra : list Event),
    iteration row_idx st = (Return tt, st')
    /\ trace st' = trace (snd (row_body row_idx st)) ++ extra
    /\ remote_calls extra = [] /\ sleeps extra = []
    /\ row_outcomes (skipn (length (trace st)) (trace st'))
       = [(row_idx, outcome_of (fst (row_body row_idx st)))]
    /\ (outcome_of (fst (row_body row_idx st)) <> Success ->
        sheet (self st') = sheet (self st)).
Proof.
  unfold iteration, try_except. unfold bind at 1.
  pose proof (row_body_frame row_idx st) as H.
  destruct (row_body row_idx st) as [[[|]|e] st1]; cbn [snd fst outcome_of].
  - destruct H as [_ (evs & Ht & Hr & _)].
    destruct (after_try_quiet st1) as (st' & extra & Hrun & Ht' & Hc & Hs).
    destruct (after_try_spec st1) as (st'' & extra' & Hrun' & _ & Ht'' & Hr' & _).
    rewrite Hrun in Hrun'. injection Hrun' as <-.
    rewrite Ht' in Ht''. apply app_inv_head in Ht''. subst extra'.
    exists st', extra. repeat split; auto.
    + rewrite Ht', Ht, <- app_assoc, drop_app_length, row_outcomes_app, Hr, Hr'.
      reflexivity.
    + intros Hne. congruence.
  - destruct H as [Hself (evs & Ht & Hr & _)].
    exists st1, []. rewrite app_nil_r. repeat split; auto.
    + now rewrite Ht, drop_app_length.
    + intros _. now rewrite Hself.
  - destruct H as [Hself (evs & Ht & Hr & _)].
    unfold modify_self. unfold bind at 1 2 3, logger, emit, get_self, set_self, ret.
    cbn [self world trace].
    match goal with |- context [after_try ?s] =>
      destruct (after_try_quiet s) as (st' & extra & Hrun & Ht' & Hc & Hs);
      destruct (after_try_spec s) as (st'' & extra' & Hrun' & Hs'' & Ht'' & Hr' & _)
    end.
    rewrite Hrun in Hrun'. injection Hrun' as <-.
    rewrite Ht' in Ht''. apply app_inv_head in Ht''. subst extra'.
    cbn [self world trace] in *.
    exists st', (EvLog ERROR (MsgRowError row_idx e) :: extra).
    split; [exact Hrun |]. repeat split.
    + rewrite Ht', <- app_assoc. reflexivity.
    + cbn. exact Hc.
    + cbn. exact Hs.
    + rewrite Ht', Ht, <- !app_assoc, drop_app_length, !row_outcomes_app, Hr, Hr'.
      reflexivity.
    + intros _. rewrite Hs''. cbn. now rewrite Hself.
Qed.

Ltac trace_eq :=
  repeat first [rewrite <- app_assoc | progress cbn [app]]; reflexivity.

Lemma readers_processing_get (lvl : Level) (msg : Message) (url : string)
    (params : list (string * string)) (l : list Event) :
  remote_calls (EvLog lvl msg :: EvGet url params :: l) = (url, params) :: remote_calls l
  /\ sleeps (EvLog lvl msg :: EvGet url params :: l) = sleeps l.
Proof. repeat split. Qed.

Lemma paced_app_quiet (b : bool) (evs extra : list Event) :
  paced_from b evs = true ->
  remote_calls extra = [] -> sleeps extra = [] ->
  paced_from b (evs ++ extra) = true.
Proof.
  revert b. induction evs as [|ev evs IH]; intros b H Hc Hs; cbn [app].
  - now destruct (paced_quiet b extra [] Hc Hs) as [_ ->].
  - destruct ev; cbn [paced_from] in *; try (apply IH; assumption).
    apply andb_true_iff in H as [-> H]. cbn [andb]. apply IH; assumption.
Qed.

(** The events after the FindOEM request of a row: quiet events, the
    events of the fan-out, quiet events. *)
Lemma row_rest_paced (tail evs closing : list Event) (ids : list string) :
  remote_calls tail = [] -> sleeps tail = [] ->
  remote_calls evs = map (request FindReplacements) ids ->
  sleeps evs = repeat REQUEST_DELAY (length ids) ->
  paced evs = true ->
  remote_calls closing = [] -> sleeps closing = [] ->
  remote_calls (tail ++ evs ++ closing) = map (request FindReplacements) ids
  /\ sleeps (tail ++ evs ++ closing) = repeat REQUEST_DELAY (length ids)
  /\ paced (tail ++ evs ++ closing) = true.
Proof.
  intros Hc1 Hs1 Hc2 Hs2 Hp Hc3 Hs3.
  rewrite !remote_calls_app, !sleeps_app, Hc1, Hs1, Hc2, Hs2, Hc3, Hs3, !app_nil_r.
  repeat split. unfold paced.
  destruct (paced_quiet false tail (evs ++ closing) Hc1 Hs1) as [-> _].
  now apply paced_app_quiet.
Qed.

Lemma row_body_requests (row_idx : nat) (st : State) (ws : Worksheet) :
  sheet (self st) = Some ws ->
  truthy (cell_value ws row_idx 4) = true ->
  exists (rest : list Event) (ids : list string),
    trace (snd (row_body row_idx st))
    = trace st
      ++ EvLog INFO (MsgProcessing row_idx (total_rows (self st))
                       (PyStr.strip (py_str (cell_value ws row_idx 4))))
         :: EvGet LAXIMO_BASE_URL
              (lookup_params FindOEM (PyStr.strip (py_str (cell_value ws row_idx 4))))
         :: rest
    /\ remote_calls rest = map (request FindReplacements) ids
    /\ sleeps rest = repeat REQUEST_DELAY (length ids)
    /\ paced rest = true
    /\ match fst (find_oem (PyStr.strip (py_str (cell_value ws row_idx 4)))
                    (at_find_oem st row_idx
                       (PyStr.strip (py_str (cell_value ws row_idx 4))))) with
       | Return details =>
           ids `prefix_of` detail_ids details
           /\ (forall f, fst (row_body row_idx st) = Return f ->
                         ids = detail_ids details)
       | Raise _ => ids = []
       end.
Proof.
  intros Hws Hart.
  rewrite row_body_unfold, Hws. cbv zeta. rewrite Hart.
  set (article := PyStr.strip _).
  destruct (find_oem_events article (at_find_oem st row_idx article))
    as (tail & Ht1 & Hc1 & Hs1).
  unfold at_find_oem at 2 in Ht1. unfold logger, emit in Ht1. cbn [snd trace] in Ht1.
  rewrite <- app_assoc in Ht1. cbn [app] in Ht1.
  set (lg := EvLog INFO (MsgProcessing row_idx (total_rows (self st)) article)) in *.
  set (rq := EvGet LAXIMO_BASE_URL (lookup_params FindOEM article)) in *.
  assert (Hquiet : forall lvl msg,
             remote_calls [EvLog lvl msg] = [] /\ sleeps [EvLog lvl msg] = [])
    by (intros; split; reflexivity).
  assert (Hnone : remote_calls [] = [] /\ sleeps [] = []) by (split; reflexivity).
  assert (Hno : remote_calls [] = map (request FindReplacements) []
                /\ sleeps [] = repeat REQUEST_DELAY (length (@nil string))
                /\ paced [] = true) by (repeat split).
  destruct Hno as (Hn1 & Hn2 & Hn3). destruct Hnone as [Hn4 Hn5].
  destruct (find_oem article _) as [[[|d ds]|e] st1]; cbn [snd fst] in *.
  - destruct (Hquiet WARNING (MsgNoDetails row_idx article)) as [Hq1 Hq2].
    destruct (row_rest_paced tail [] [EvLog WARNING (MsgNoDetails row_idx article)] []
                Hc1 Hs1 Hn1 Hn2 Hn3 Hq1 Hq2) as (Hc & Hs & Hp).
    eexists _, []. cbn [close_row trace].
    split; [rewrite Ht1; trace_eq |].
    split; [exact Hc |]. split; [exact Hs |]. split; [exact Hp |].
    split; [apply prefix_nil | auto].
  - destruct (fetched_requests (d :: ds) st1)
      as (evs & ids & Ht2 & Hc2 & Hs2 & Hp2 & _ & _ & Hpre & Hall).
    destruct (fetched (d :: ds) st1) as [[rs|e] st2]; cbn [snd fst] in *.
    + specialize (Hall rs eq_refl).
      destruct (decide _).
      * destruct (Hquiet WARNING (MsgNoCrossNumbers row_idx article)) as [Hq1 Hq2].
        destruct (row_rest_paced tail evs
                    [EvLog WARNING (MsgNoCrossNumbers row_idx article)] ids
                    Hc1 Hs1 Hc2 Hs2 Hp2 Hq1 Hq2) as (Hc & Hs & Hp).
        eexists _, ids. cbn [close_row trace snd fst].
        split; [rewrite Ht2, Ht1; trace_eq |].
        split; [exact Hc |]. split; [exact Hs |]. split; [exact Hp |]. auto.
      * destruct (merge_description _ _) as [new|e];
          [destruct (check_string new) as [kept|e] |]; cbn [snd fst trace].
        -- destruct (Hquiet INFO (MsgSuccess row_idx
                        (cross_numbers_text (add_cross_numbers ∅ rs)))) as [Hq1 Hq2].
           destruct (row_rest_paced tail evs
                       [EvLog INFO (MsgSuccess row_idx
                          (cross_numbers_text (add_cross_numbers ∅ rs)))] ids
                       Hc1 Hs1 Hc2 Hs2 Hp2 Hq1 Hq2) as (Hc & Hs & Hp).
           eexists _, ids.
           split; [rewrite Ht2, Ht1; trace_eq |].
           split; [exact Hc |]. split; [exact Hs |]. split; [exact Hp |]. auto.
        -- destruct (row_rest_paced tail evs [] ids Hc1 Hs1 Hc2 Hs2 Hp2 Hn4 Hn5)
             as (Hc & Hs & Hp).
           rewrite app_nil_r in Hc, Hs, Hp.
           eexists _, ids.
           split; [rewrite Ht2, Ht1; trace_eq |].
           split; [exact Hc |]. split; [exact Hs |]. split; [exact Hp |].
           split; [exact Hpre |]. intros f Hf. discriminate Hf.
        -- destruct (row_rest_paced tail evs [] ids Hc1 Hs1 Hc2 Hs2 Hp2 Hn4 Hn5)
             as (Hc & Hs & Hp).
           rewrite app_nil_r in Hc, Hs, Hp.
           eexists _, ids.
           split; [rewrite Ht2, Ht1; trace_eq |].
           split; [exact Hc |]. split; [exact Hs |]. split; [exact Hp |].
           split; [exact Hpre |]. intros f Hf. discriminate Hf.
    + destruct (row_rest_paced tail evs [] ids Hc1 Hs1 Hc2 Hs2 Hp2 Hn4 Hn5)
        as (Hc & Hs & Hp).
      rewrite app_nil_r in Hc, Hs, Hp.
      eexists _, ids.
      split; [rewrite Ht2, Ht1; trace_eq |].
      split; [exact Hc |]. split; [exact Hs |]. split; [exact Hp |].
      split; [exact Hpre |]. intros f Hf. discriminate Hf.
  - destruct (row_rest_paced tail [] [] [] Hc1 Hs1 Hn1 Hn2 Hn3 Hn4 Hn5)
      as (Hc & Hs & Hp).
    cbn [app] in Hc, Hs, Hp. rewrite app_nil_r in Hc, Hs, Hp.
    eexists _, [].
    split; [rewrite Ht1; reflexivity |].
    split; [exact Hc |]. split; [exact Hs |]. split; [exact Hp |]. reflexivity.
Qed.

(** The requests of one row.  A row with a truthy code logs its
    "processing" line and then asks FindOEM once, for
    [str(cell).strip()]; every request after that is a FindReplacements
    for a truthy [detailid] of the records FindOEM returned, in their
    order, and comes directly after a [time.sleep(REQUEST_DELAY)], one
    sleep per request: for all of the identifiers when the [try] block
    ends normally, for the first ones when a lookup raises, for none
    when FindOEM itself raises.  Nothing else is requested. *)
Theorem row_requests (row_idx : nat) (st : State) (ws : Worksheet) :
  sheet (self st) = Some ws ->
  truthy (cell_value ws row_idx 4) = true ->
  exists (st' : State) (evs rest : list Event) (ids : list string),
    iteration row_idx st = (Return tt, st')
    /\ trace st' = trace st ++ evs
    /\ remote_calls evs
       = request FindOEM (PyStr.strip (py_str (cell_value ws row_idx 4)))
         :: map (request FindReplacements) ids
    /\ sleeps evs = repeat REQUEST_DELAY (length ids)
    /\ evs
       = EvLog INFO (MsgProcessing row_idx (total_rows (self st))
                       (PyStr.strip (py_str (cell_value ws row_idx 4))))
         :: EvGet LAXIMO_BASE_URL
              (lookup_params FindOEM (PyStr.strip (py_str (cell_value ws row_idx 4))))
         :: rest
    /\ remote_calls rest = map (request FindReplacements) ids
    /\ sleeps rest = repeat REQUEST_DELAY (length ids)
    /\ paced rest = true
    /\ match fst (find_oem (PyStr.strip (py_str (cell_value ws row_idx 4)))
                    (at_find_oem st row_idx
                       (PyStr.strip (py_str (cell_value ws row_idx 4))))) with
       | Return details =>
           ids `prefix_of` detail_ids details
           /\ (forall f, fst (row_body row_idx st) = Return f ->
                         ids = detail_ids details)
       | Raise _ => ids = []
       end.
Proof.
  intros Hws Hart.
  destruct (iteration_after_body row_idx st)
    as (st' & extra & Hrun & Ht & Hc & Hs & _).
  destruct (row_body_requests row_idx st ws Hws Hart)
    as (rest & ids & Hb & Hbc & Hbs & Hbp & Hids).
  eexists st', _, (rest ++ extra), ids.
  split; [exact Hrun |].
  split; [rewrite Ht, Hb, <- app_assoc; cbn [app]; reflexivity |].
  pose proof (readers_processing_get INFO
                (MsgProcessing row_idx (total_rows (self st))
                   (PyStr.strip (py_str (cell_value ws row_idx 4))))
                LAXIMO_BASE_URL
                (lookup_params FindOEM (PyStr.strip (py_str (cell_value ws row_idx 4))))
                (rest ++ extra)) as [Hq1 Hq2].
  rewrite Hq1, Hq2, remote_calls_app, sleeps_app, Hbc, Hbs, Hc, Hs, !app_nil_r.
  split; [reflexivity |]. split; [reflexivity |]. split; [reflexivity |].
  split; [reflexivity |]. split; [reflexivity |].
  split; [now apply paced_app_quiet | exact Hids].
Qed.

End RowRequestExtras.

Section RowOutcomeExtras.
Context {E : Env}.

Lemma iteration_outcome (row_idx : nat) (st : State) :
  exists (st' : State) (evs : list Event),
    iteration row_idx st = (Return tt, st')
    /\ trace st' = trace st ++ evs
    /\ row_outcomes evs = [(row_idx, outcome_of (fst (row_body row_idx st)))]
    /\ (outcome_of (fst (row_body row_idx st)) <> Success ->
        sheet (self st') = sheet (self st)).
Proof.
  destruct (iteration_after_body row_idx st)
    as (st' & extra & Hrun & Ht & Hc & Hs & Hr & Hsh).
  destruct (iteration_spec row_idx st) as (o & st'' & evs & Hrun' & Ht' & _).
  rewrite Hrun in Hrun'. injection Hrun' as <-.
  exists st', evs. rewrite Ht' in Hr. rewrite drop_app_length in Hr. auto.
Qed.

Lemma fetched_no_ids (details : list detail_info) (st : State) :
  detail_ids details = [] -> fetched details st = (Return [], st).
Proof.
  induction details as [|d details IH]; intros H; [reflexivity |].
  rewrite detail_ids_cons in H. rewrite fetched_cons.
  destruct (detailid d) as [i|]; [destruct (PyStr.nonempty i) |]; auto.
  discriminate H.
Qed.

(** Records without a usable identifier.  When none of the records
    FindOEM returned has a truthy [detailid] (the attribute is missing or
    empty), the row asks for no replacements and does not sleep: its one
    request is FindOEM, it closes without data, and the sheet is as
    before. *)
Theorem details_without_id_skipped (row_idx : nat) (st st1 : State) (ws : Worksheet)
    (details : list detail_info) :
  sheet (self st) = Some ws ->
  truthy (cell_value ws row_idx 4) = true ->
  find_oem (PyStr.strip (py_str (cell_value ws row_idx 4)))
    (at_find_oem st row_idx (PyStr.strip (py_str (cell_value ws row_idx 4))))
  = (Return details, st1) ->
  detail_ids details = [] ->
  exists (st' : State) (evs : list Event),
    iteration row_idx st = (Return tt, st')
    /\ trace st' = trace st ++ evs
    /\ remote_calls evs
       = [request FindOEM (PyStr.strip (py_str (cell_value ws row_idx 4)))]
    /\ sleeps evs = []
    /\ row_outcomes evs = [(row_idx, NoData)]
    /\ sheet (self st') = Some ws
    /\ no_data_count (self st') = no_data_count (self st) + 1.
Proof.
  intros Hws Hart Hfo Hids.
  assert (exists s, row_body row_idx st = (Return Continue, s)) as [s Hbody].
  { rewrite row_body_unfold, Hws. cbv zeta. rewrite Hart, Hfo.
    destruct details as [|d ds]; [eauto |].
    rewrite (fetched_no_ids (d :: ds) st1 Hids). cbn [add_cross_numbers].
    destruct (decide _) as [_ | Hne]; [eauto | congruence]. }
  destruct (row_body_requests row_idx st ws Hws Hart)
    as (rest & ids & Hb & Hbc & Hbs & _ & Hpre).
  rewrite Hfo in Hpre. cbn [fst] in Hpre. destruct Hpre as [Hpre _].
  rewrite Hids in Hpre. apply prefix_nil_inv in Hpre. subst ids.
  rewrite Hbody in Hb. cbn [snd] in Hb.
  pose proof (row_body_frame row_idx st) as Hf. rewrite Hbody in Hf.
  destruct Hf as [Hs (evs & Ht & Hr & _)].
  exists s, evs. rewrite (iteration_continue _ _ _ Hbody).
  rewrite Hb in Ht. apply app_inv_head in Ht. subst evs.
  match goal with |- context [remote_calls (EvLog ?lvl ?msg :: EvGet ?url ?params :: rest)] =>
    destruct (readers_processing_get lvl msg url params rest) as [Hq1 Hq2]
  end.
  rewrite Hq1, Hq2, Hbc, Hbs, Hs. cbn. repeat split; auto.
Qed.

(** A description that is not text.  When the description cell holds a
    truthy value that is not a [str] (a number, a date), the row is never
    written: it closes as an error or without data, exactly one of
    [error_count] and [no_data_count] grows by one accordingly,
    [success_count] stays, and the sheet is as before.  When the lookups
    of the row yield a cross-number, the merge raises [AttributeError]:
    the row closes as an error, [error_count] and [processed_rows] grow
    by one and [no_data_count] stays. *)
Theorem non_text_description_never_written (row_idx : nat) (st : State)
    (ws : Worksheet) (r : string) :
  sheet (self st) = Some ws ->
  cell_value ws row_idx 6 = VObj true r ->
  exists (st' : State) (evs : list Event) (o : Outcome),
    iteration row_idx st = (Return tt, st')
    /\ trace st' = trace st ++ evs
    /\ row_outcomes evs = [(row_idx, o)]
    /\ o <> Success
    /\ sheet (self st') = Some ws
    /\ success_count (self st') = success_count (self st)
    /\ (o = Error ->
        error_count (self st') = error_count (self st) + 1
        /\ no_data_count (self st') = no_data_count (self st)
        /\ processed_rows (self st') = processed_rows (self st) + 1)
    /\ (o = NoData ->
        no_data_count (self st') = no_data_count (self st) + 1
        /\ error_count (self st') = error_count (self st)
        /\ processed_rows (self st') = processed_rows (self st))
    /\ (forall details st1 rs st2,
          truthy (cell_value ws row_idx 4) = true ->
          find_oem (PyStr.strip (py_str (cell_value ws row_idx 4)))
            (at_find_oem st row_idx (PyStr.strip (py_str (cell_value ws row_idx 4))))
          = (Return details, st1) ->
          fetched details st1 = (Return rs, st2) ->
          add_cross_numbers ∅ rs <> ∅ ->
          fst (row_body row_idx st) = Raise AttributeError
          /\ o = Error
          /\ error_count (self st') = error_count (self st) + 1
          /\ no_data_count (self st') = no_data_count (self st)
          /\ processed_rows (self st') = processed_rows (self st) + 1
          /\ exists body tail,
               evs = body ++ EvLog ERROR (MsgRowError row_idx AttributeError) :: tail
               /\ row_outcomes body = [] /\ row_outcomes tail = []).
Proof.
  intros Hws Hdesc.
  destruct (iteration_outcome row_idx st)
    as (st' & evs & Hrun & Ht & Hr & Hsh).
  assert (Hmerge : forall text,
             merge_description (py_or (cell_value ws row_idx 6) (VStr "")) text
             = Raise AttributeError) by (intros text; rewrite Hdesc; reflexivity).
  assert (outcome_of (fst (row_body row_idx st)) <> Success) as Hne.
  { rewrite row_body_unfold, Hws. cbv zeta.
    destruct (truthy _); [| cbn; discriminate].
    destruct (find_oem _ _) as [[[|d ds]|e] s1]; try (cbn; discriminate).
    destruct (fetched _ _) as [[rs|e] s2]; try (cbn; discriminate).
    destruct (decide _); [cbn; discriminate |].
    rewrite Hmerge. cbn. discriminate. }
  destruct (iteration_spec row_idx st)
    as (o & st'' & evs' & Hrun' & Ht' & Hr' & Hsu & Her & Hnd & Hpr & _).
  rewrite Hrun in Hrun'. injection Hrun' as <-.
  rewrite Ht in Ht'. apply app_inv_head in Ht'. subst evs'.
  rewrite Hr in Hr'. injection Hr' as <-.
  assert (Hreach : forall details st1 rs st2,
             truthy (cell_value ws row_idx 4) = true ->
             find_oem (PyStr.strip (py_str (cell_value ws row_idx 4)))
               (at_find_oem st row_idx (PyStr.strip (py_str (cell_value ws row_idx 4))))
             = (Return details, st1) ->
             fetched details st1 = (Return rs, st2) ->
             add_cross_numbers ∅ rs <> ∅ ->
             row_body row_idx st = (Raise AttributeError, st2)).
  { intros details st1 rs st2 H H0 H1 H2.
    rewrite row_body_unfold, Hws. cbv zeta. rewrite H, H0.
    destruct details as [|d ds].
    { cbn in H1. injection H1 as <- <-. cbn in H2. congruence. }
    rewrite H1. destruct (decide _); [congruence |]. now rewrite Hmerge. }
  exists st', evs, (outcome_of (fst (row_body row_idx st))).
  split; [exact Hrun |]. split; [exact Ht |]. split; [exact Hr |].
  split; [exact Hne |]. split; [rewrite (Hsh Hne); exact Hws |].
  split; [rewrite Hsu; destruct (outcome_of _); cbn; try lia; congruence |].
  split; [intros Ho; rewrite Ho in *; cbn in *; lia |].
  split; [intros Ho; rewrite Ho in *; cbn in *; lia |].
  intros details st1 rs st2 H H0 H1 H2.
  pose proof (Hreach details st1 rs st2 H H0 H1 H2) as Hbody.
  rewrite Hbody in *. cbn [fst outcome_of] in *. cbn in Her, Hnd, Hpr.
  split; [reflexivity |]. split; [reflexivity |].
  split; [lia |]. split; [lia |]. split; [lia |].
  pose proof (row_body_frame row_idx st) as Hf. rewrite Hbody in Hf.
  destruct Hf as [_ (body & Hb & Hrb & _)].
  unfold iteration, try_except in Hrun. unfold bind at 1 in Hrun.
  rewrite Hbody in Hrun.
  unfold modify_self in Hrun.
  unfold bind at 1 2 3, logger, emit, get_self, set_self, ret in Hrun.
  cbn [self world trace] in Hrun.
  match type of Hrun with context [after_try ?s] =>
    destruct (after_try_spec s) as (st3 & tail & Hrun3 & _ & Ht3 & Hr3 & _)
  end.
  rewrite Hrun3 in Hrun. injection Hrun as <-.
  exists body, tail. cbn [trace] in Ht3.
  rewrite Ht3, Hb, <- !app_assoc in Ht. apply app_inv_head in Ht.
  cbn [app] in Ht. auto.
Qed.

End RowOutcomeExtras.

(** ** The test script *)

Section MiniTestExtras.
Context {E : Env}.

Lemma readers_load (path : string) (l : list Event) :
  loads (EvLoad path :: l) = path :: loads l
  /\ saves (EvLoad path :: l) = saves l
  /\ sleeps (EvLoad path :: l) = sleeps l
  /\ remote_calls (EvLoad path :: l) = remote_calls l.
Proof. repeat split. Qed.

Lemma quiet_calls_nil (n : nat) : quiet_calls n [].
Proof. repeat split. cbn. lia. Qed.

Lemma quiet_calls_app (n k : nat) (a b : list Event) :
  quiet_calls n a -> quiet_calls k b -> quiet_calls (n + k) (a ++ b).
Proof.
  intros (Ha1 & Ha2 & Ha3 & Ha4 & Ha5) (Hb1 & Hb2 & Hb3 & Hb4 & Hb5).
  unfold quiet_calls.
  rewrite saves_app, sleeps_app, loads_app, row_outcomes_app, remote_calls_app,
    length_app, Ha1, Ha2, Ha3, Ha4, Hb1, Hb2, Hb3, Hb4.
  repeat split. lia.
Qed.

Lemma quiet_calls_mono (n k : nat) (evs : list Event) :
  n <= k -> quiet_calls n evs -> quiet_calls k evs.
Proof. intros Hle (H1 & H2 & H3 & H4 & H5). repeat split; auto. lia. Qed.

Lemma tsafe_ret {A} (a : A) : tsafe 0 (tret a).
Proof.
  intros ts. cbn. split; [reflexivity |]. exists [], [].
  rewrite !app_nil_r. repeat split. cbn. lia.
Qed.

Lemma tsafe_log (lvl : Level) (msg : TestMessage) : tsafe 0 (tlog lvl msg).
Proof.
  intros ts. cbn. split; [reflexivity |]. exists [], [(lvl, msg)].
  rewrite app_nil_r. repeat split. cbn. lia.
Qed.

Lemma tsafe_mono {A} (n k : nat) (m : T A) : n <= k -> tsafe n m -> tsafe k m.
Proof.
  intros Hle H ts. destruct (H ts) as [Hs (evs & lines & Ht & Hl & Hq)].
  split; [exact Hs |]. exists evs, lines. eauto using quiet_calls_mono.
Qed.

Lemma tsafe_bind {A B} (n k : nat) (m : T A) (f : A -> T B) :
  tsafe n m -> (forall a, tsafe k (f a)) -> tsafe (n + k) (tbind m f).
Proof.
  intros Hm Hf ts. unfold tbind.
  destruct (Hm ts) as [Hs (evs & lines & Ht & Hl & Hq)].
  destruct (m ts) as [[a|e] ts1]; cbn [snd fst] in *.
  - destruct (Hf a ts1) as [Hs' (evs' & lines' & Ht' & Hl' & Hq')].
    split; [congruence |]. exists (evs ++ evs'), (lines ++ lines').
    rewrite Ht', Ht, Hl', Hl, <- !app_assoc. repeat split.
    all: try apply (quiet_calls_app n k evs evs' Hq Hq').
  - split; [exact Hs |]. exists evs, lines. repeat split; auto.
    all: try apply (quiet_calls_mono n (n + k) evs ltac:(lia) Hq).
Qed.

Lemma tsafe_try {A} (n k : nat) (m : T A) (h : exn -> T A) :
  tsafe n m -> (forall e, tsafe k (h e)) -> tsafe (n + k) (ttry m h).
Proof.
  intros Hm Hh ts. unfold ttry.
  destruct (Hm ts) as [Hs (evs & lines & Ht & Hl & Hq)].
  destruct (m ts) as [[a|e] ts1]; cbn [snd fst] in *.
  - split; [exact Hs |]. exists evs, lines. repeat split; auto.
    all: try apply (quiet_calls_mono n (n + k) evs ltac:(lia) Hq).
  - destruct (Hh e ts1) as [Hs' (evs' & lines' & Ht' & Hl' & Hq')].
    split; [congruence |]. exists (evs ++ evs'), (lines ++ lines').
    rewrite Ht', Ht, Hl', Hl, <- !app_assoc. repeat split.
    all: try apply (quiet_calls_app n k evs evs' Hq Hq').
Qed.

Lemma tsafe_log_each {A} (line : nat -> A -> TestMessage) (i : nat) (xs : list A) :
  tsafe 0 (tlog_each line i xs).
Proof.
  revert i. induction xs as [|x xs IH]; intros i; cbn [tlog_each].
  - apply tsafe_ret.
  - apply (tsafe_bind 0 0); [apply tsafe_log | intros _; apply IH].
Qed.

Lemma lookup_quiet (q : Lookup) (arg : string) (st : State) :
  let st' := match q with
             | FindOEM => snd (find_oem arg st)
             | FindReplacements => snd (find_replacements arg st)
             end in
  self st' = self st
  /\ exists evs, trace st' = trace st ++ evs
                 /\ remote_calls evs = [request q arg] /\ quiet_calls 1 evs.
Proof.
  unfold request, quiet_calls.
  destruct q; cbn [lookup_params];
    unfold find_oem, find_replacements, try_except, bind, get, call,
      raise_for_status, lift, logger, emit, raise, ret;
    (destruct (session_get _ _ _) as [w [response | e]]; cbn [snd fst];
     [ destruct ((400 <=? status_code response) && (status_code response <? 600))%Z;
       [ | destruct (ET_fromstring _) as [root | e]; [ | destruct e ] ]
     | destruct e ]);
    cbn [snd fst self trace];
    (split; [reflexivity |]);
    eexists; (split; [rewrite <- ?app_assoc; reflexivity |]);
    repeat split; cbn; lia.
Qed.

Lemma tsafe_find_oem (oem : string) : tsafe 1 (tlift (find_oem oem)).
Proof.
  intros [st lg]. unfold tlift. cbn [fst snd].
  destruct (lookup_quiet FindOEM oem st) as [Hs (evs & Ht & _ & Hq)].
  destruct (find_oem oem st) as [r st']; cbn [fst snd] in *.
  split; [exact Hs |]. exists evs, []. rewrite app_nil_r. auto.
Qed.

Lemma tsafe_find_replacements (detail_id : string) :
  tsafe 1 (tlift (find_replacements detail_id)).
Proof.
  intros [st lg]. unfold tlift. cbn [fst snd].
  destruct (lookup_quiet FindReplacements detail_id st) as [Hs (evs & Ht & _ & Hq)].
  destruct (find_replacements detail_id st) as [r st']; cbn [fst snd] in *.
  split; [exact Hs |]. exists evs, []. rewrite app_nil_r. auto.
Qed.

Ltac tsafe_step :=
  first
    [ apply tsafe_ret
    | apply tsafe_log
    | apply tsafe_log_each
    | (apply (tsafe_bind 0 0); [| intros ?])
    | (apply (tsafe_mono 0 1); [lia |]) ].

Lemma tsafe_test_row (sheet : Worksheet) (row success_count : nat) :
  tsafe 2 (test_row sheet row success_count).
Proof.
  unfold test_row.
  destruct (max_row sheet <? row)%nat; [apply (tsafe_mono 0); [lia | apply tsafe_ret] |].
  destruct (negb _).
  { apply (tsafe_mono 0); [lia |]. repeat tsafe_step. }
  apply (tsafe_bind 0 2); [apply tsafe_log | intros _].
  apply (tsafe_bind 1 1); [apply tsafe_find_oem | intros details].
  destruct details as [|first rest]; [repeat tsafe_step |].
  apply (tsafe_bind 0 1); [apply tsafe_log | intros _].
  apply (tsafe_bind 0 1); [apply tsafe_log_each | intros _].
  apply (tsafe_bind 0 1); [destruct (_ <? _)%nat; repeat tsafe_step | intros _].
  destruct (detailid first) as [detail_id|]; [| repeat tsafe_step].
  destruct (PyStr.nonempty detail_id); [| repeat tsafe_step].
  apply (tsafe_bind 0 1); [apply tsafe_log | intros _].
  apply (tsafe_bind 1 0); [apply tsafe_find_replacements | intros replacements].
  destruct replacements as [|r rs]; [repeat tsafe_step |].
  apply (tsafe_bind 0 0); [apply tsafe_log | intros _].
  apply (tsafe_bind 0 0); [apply tsafe_log_each | intros _].
  apply (tsafe_bind 0 0); [destruct (_ <? _)%nat; repeat tsafe_step | intros _].
  repeat tsafe_step.
Qed.

Lemma tsafe_test_loop (sheet : Worksheet) (rows : list nat) (success_count : nat) :
  tsafe (2 * length rows) (test_loop sheet rows success_count).
Proof.
  revert success_count. induction rows as [|row rows IH]; intros success_count.
  - apply tsafe_ret.
  - cbn [test_loop length].
    replace (2 * S (length rows)) with (2 + 2 * length rows) by lia.
    apply tsafe_bind; [apply tsafe_test_row |].
    intros [[|] sc]; [apply IH |].
    apply (tsafe_mono 0); [lia | apply tsafe_ret].
Qed.

(** The test script is read-only and bounded.  From any state and for
    any answers of the libraries, [test_api_with_sample_articles] returns
    a boolean and raises nothing; it loads the workbook once, saves
    nothing, never sleeps, leaves the processor of the main module
    alone, and sends at most two requests for each of the [TEST_ROWS]
    rows it looks at. *)
Theorem test_script_read_only (excel_file_path : string) (ts : TestState) :
  exists (b : bool) (ts' : TestState) (evs : list Event),
    test_api_with_sample_articles excel_file_path ts = (Return b, ts')
    /\ self (fst ts') = self (fst ts)
    /\ trace (fst ts') = trace (fst ts) ++ evs
    /\ loads evs = [excel_file_path]
    /\ saves evs = []
    /\ sleeps evs = []
    /\ length (remote_calls evs) <= 2 * TEST_ROWS.
Proof.
  unfold test_api_with_sample_articles, ttry. unfold tbind at 1.
  unfold tlift at 1, call. destruct ts as [st lg]. cbn [fst snd].
  destruct (openpyxl_load_workbook _ _) as [w [sheet|e]].
  - unfold tbind at 1. unfold tlog at 1. cbn [fst snd]. unfold tbind at 1.
    match goal with |- context [test_loop sheet ?rows 0 ?s] =>
      destruct (tsafe_test_loop sheet rows 0 s) as [Hs (evs & lines & Ht & _ & Hq)];
      destruct (test_loop sheet rows 0 s) as [[sc|e] [st' lg']]
    end; cbn [fst snd self trace] in *.
    + unfold tbind, tlog, tret. cbn [fst snd].
      destruct Hq as (H1 & H2 & H3 & _ & H5).
      eexists; eexists; exists (EvLoad excel_file_path :: evs).
      split; [reflexivity |]. cbn [fst snd].
      split; [exact Hs |]. split; [rewrite Ht, <- app_assoc; reflexivity |].
      destruct (readers_load excel_file_path evs) as (-> & -> & -> & ->).
      rewrite H1, H2, H3. repeat split. exact H5.
    + unfold tbind, tlog, tret. cbn [fst snd].
      destruct Hq as (H1 & H2 & H3 & _ & H5).
      eexists; eexists; exists (EvLoad excel_file_path :: evs).
      split; [reflexivity |]. cbn [fst snd].
      split; [exact Hs |]. split; [rewrite Ht, <- app_assoc; reflexivity |].
      destruct (readers_load excel_file_path evs) as (-> & -> & -> & ->).
      rewrite H1, H2, H3. repeat split. exact H5.
  - unfold tbind, tlog, tret. cbn [fst snd].
    eexists; eexists; exists [EvLoad excel_file_path].
    split; [reflexivity |]. cbn. repeat split. lia.
Qed.

End MiniTestExtras.

Section MiniTestEdges.
Context {E : Env}.

(** A workbook that does not load fails the test at once: the script
    returns [False], sends no request, and its log gains one ERROR line
    with the exception. *)
Theorem test_script_load_failure (excel_file_path : string) (st : State)
    (lg : list (Level * TestMessage)) (w : World) (e : exn) :
  openpyxl_load_workbook (world st) excel_file_path = (w, Raise e) ->
  test_api_with_sample_articles excel_file_path (st, lg)
  = (Return false,
     ({| self := self st; world := w;
         trace := trace st ++ [EvLoad excel_file_path] |},
      lg ++ [(ERROR, TMsgError e)])).
Proof.
  intros H. unfold test_api_with_sample_articles, ttry, tbind, tlift, call.
  cbn [fst snd]. rewrite H. reflexivity.
Qed.

(** A sheet without data rows: the loop breaks before its first pass,
    no request is sent, and the script returns [False], its log holding
    the opening line and a summary of zero successes. *)
Theorem test_script_no_data_rows (excel_file_path : string) (st : State)
    (lg : list (Level * TestMessage)) (w : World) (sheet : Worksheet) :
  openpyxl_load_workbook (world st) excel_file_path = (w, Return sheet) ->
  max_row sheet <= 1 ->
  test_api_with_sample_articles excel_file_path (st, lg)
  = (Return false,
     ({| self := self st; world := w;
         trace := trace st ++ [EvLoad excel_file_path] |},
      (lg ++ [(INFO, TMsgStart TEST_ROWS)]) ++ [(INFO, TMsgSummary 0 TEST_ROWS)])).
Proof.
  intros H Hmax. unfold test_api_with_sample_articles, ttry. unfold tbind at 1.
  unfold tlift, call. cbn [fst snd]. rewrite H.
  unfold tbind at 1. unfold tlog at 1. cbn [fst snd]. unfold tbind at 1.
  cbn [seq TEST_ROWS test_loop]. unfold tbind at 1. unfold test_row.
  replace (max_row sheet <? 2)%nat with true
    by (symmetry; apply Nat.ltb_lt; lia).
  reflexivity.
Qed.

Lemma find_oem_escapes (oem : string) (st : State) (e : exn) :
  escaping FindOEM (world st) oem = Some e ->
  exists w, find_oem oem st
            = (Raise e, {| self := self st; world := w;
                           trace := trace st
                                    ++ [EvGet LAXIMO_BASE_URL (lookup_params FindOEM oem)] |}).
Proof.
  unfold escaping, find_oem, try_except, bind, get, call, raise_for_status, lift,
    logger, emit, raise, ret. cbn [lookup_params].
  destruct (session_get _ _ _) as [w [response | e']]; cbn [snd fst].
  - destruct (_ && _); [discriminate |].
    destruct (ET_fromstring _) as [root | e']; [discriminate |].
    destruct e'; cbn; intros [= <-]; eauto.
  - destruct e'; cbn; intros [= <-]; eauto.
Qed.

(** The test script does not isolate rows.  When FindOEM for the first
    data row lets an exception escape (one that is neither a
    [RequestException] nor a [ParseError]), the script stops there: it
    returns [False], the rows after it are not looked at (the request of
    the first row is the only one), and the log ends with the ERROR
    line of the exception. *)
Theorem test_script_stops_at_exception (excel_file_path : string) (st : State)
    (lg : list (Level * TestMessage)) (w : World) (sheet : Worksheet) (e : exn) :
  openpyxl_load_workbook (world st) excel_file_path = (w, Return sheet) ->
  2 <= max_row sheet ->
  truthy (cell_value sheet 2 4) = true ->
  escaping FindOEM w (py_str (cell_value sheet 2 4)) = Some e ->
  exists w' : World,
    test_api_with_sample_articles excel_file_path (st, lg)
    = (Return false,
       ({| self := self st; world := w';
           trace := trace st
                    ++ [EvLoad excel_file_path;
                        EvGet LAXIMO_BASE_URL
                          (lookup_params FindOEM (py_str (cell_value sheet 2 4)))] |},
        lg ++ [(INFO, TMsgStart TEST_ROWS);
               (INFO, TMsgArticle (py_str (cell_value sheet 2 4)));
               (ERROR, TMsgError e)])).
Proof.
  intros H Hmax Hart Hesc.
  unfold test_api_with_sample_articles, ttry. unfold tbind at 1.
  unfold tlift at 1, call. cbn [fst snd]. rewrite H.
  unfold tbind at 1. unfold tlog at 1. cbn [fst snd]. unfold tbind at 1.
  cbn [seq TEST_ROWS test_loop]. unfold tbind at 1. unfold test_row.
  replace (max_row sheet <? 2)%nat with false
    by (symmetry; apply Nat.ltb_ge; lia).
  rewrite Hart. cbn [negb]. unfold tbind at 1. unfold tlog at 1. cbn [fst snd].
  unfold tbind at 1. unfold tlift at 1. cbn [fst snd].
  match goal with |- context [find_oem ?a ?s] =>
    destruct (find_oem_escapes a s e Hesc) as [w' ->]
  end.
  cbn [self world trace]. exists w'. unfold tbind, tlog, tret. cbn [fst snd].
  now rewrite <- !app_assoc.
Qed.

End MiniTestEdges.

(** ** A second run, and the summary *)

Section RerunExtras.

Lemma rstrip_app (a b : string) :
  PyStr.rstrip b <> "" -> PyStr.rstrip (a +:+ b) = a +:+ PyStr.rstrip b.
Proof.
  intros Hb. induction a as [|c a IH]; [reflexivity |].
  rewrite !string_app_cons. cbn [PyStr.rstrip]. rewrite IH.
  destruct (a +:+ PyStr.rstrip b) as [|d r] eqn:Happ; [| reflexivity].
  exfalso. destruct a; [| discriminate Happ]. apply Hb. exact Happ.
Qed.

Lemma endswith_comma_app (x y : string) :
  y <> "" -> PyStr.endswith (x +:+ y) "," = PyStr.endswith y ",".
Proof.
  intros Hy. induction x as [|c x IH]; [reflexivity |].
  rewrite string_app_cons. cbn [PyStr.endswith].
  replace (String c (x +:+ y) =? ",")%string with false; [exact IH |].
  symmetry. apply String.eqb_neq. intros [= _ H].
  destruct x; [now apply Hy | discriminate H].
Qed.

(** Merging the same cross-numbers twice duplicates them.  When the
    rendered text has a visible character and does not end, white space
    set aside, in a comma, merging it into a description it has already
    been merged into appends [", "] and the text once more: a second run
    over its own output is not a no-op. *)
Theorem second_merge_duplicates (v : CellValue) (text new : string) :
  PyStr.rstrip text <> "" ->
  PyStr.endswith (PyStr.rstrip text) "," = false ->
  merge_description (py_or v (VStr "")) text = Return new ->
  merge_description (py_or (VStr new) (VStr "")) text
  = Return (new +:+ ", " +:+ text).
Proof.
  intros Hvis Hcomma Hfirst.
  assert (text <> "") as Htext by (intros ->; apply Hvis; reflexivity).
  assert (exists x, new = x +:+ text) as [x ->].
  { unfold py_or, merge_description in Hfirst.
    destruct (truthy v) eqn:Hv.
    - rewrite Hv in Hfirst. destruct v as [|s|b r]; try discriminate Hfirst.
      injection Hfirst as <-. eauto.
    - cbn in Hfirst. injection Hfirst as <-. exists "". reflexivity. }
  assert (x +:+ text <> "") as Hne.
  { destruct x; [exact Htext | discriminate]. }
  unfold py_or. cbn [truthy].
  assert (PyStr.nonempty (x +:+ text) = true) as -> by now apply nonempty_true.
  rewrite (merge_description_rule (x +:+ text) text Hne).
  rewrite (rstrip_app x text Hvis), (endswith_comma_app x _ Hvis), Hcomma.
  now rewrite string_app_assoc.
Qed.

End RerunExtras.

Section SummaryExtras.
Context {E : Env}.

Lemma finish_logs (st : State) :
  exists (b : bool) (st' : State) (head : list Event),
    finish st = (Return b, st')
    /\ trace st'
       = trace st ++ head
         ++ [EvLog INFO MsgRule; EvLog INFO MsgDone;
             EvLog INFO (MsgTotalRows (total_rows (self st)));
             EvLog INFO (MsgProcessedRows (processed_rows (self st)));
             EvLog INFO (MsgSuccessCount (success_count (self st)));
             EvLog INFO (MsgErrorCount (error_count (self st)));
             EvLog INFO (MsgNoDataCount (no_data_count (self st)));
             EvLog INFO MsgTotalTime; EvLog INFO MsgRule].
Proof.
  unfold finish. unfold bind at 1. rewrite save_workbook_unfold.
  destruct (sheet (self st)) as [ws|].
  - cbv zeta. destruct (workbook_save _ _ _) as [w [[]|e]];
      unfold bind, logger, emit, get_self, ret; cbn [self world trace];
      (eexists; eexists; eexists [_; _]; split; [reflexivity |]);
      cbn [trace]; rewrite <- !app_assoc; reflexivity.
  - unfold bind, logger, emit, get_self, ret; cbn [self world trace].
    eexists; eexists; eexists [_]; split; [reflexivity |].
    cbn [trace]. rewrite <- !app_assoc. reflexivity.
Qed.

(** The figures of the summary.  A run on a workbook that loads ends
    its trace with the nine summary lines, whose figures are the final
    counters: "processed" is successes plus errors, and the three
    outcome counts add up to the number of data rows, one less than the
    "total rows" figure when the sheet has a header row, since that
    figure is [max_row] and counts the header. *)
Theorem summary_figures (input output : string) (w w0 : World) (ws : Worksheet) :
  openpyxl_load_workbook w input = (w0, Return ws) ->
  exists (b : bool) (st' : State) (before : list Event) (p s e d : nat),
    run input output w = (Return b, st')
    /\ trace st'
       = before
         ++ [EvLog INFO MsgRule; EvLog INFO MsgDone;
             EvLog INFO (MsgTotalRows (max_row ws));
             EvLog INFO (MsgProcessedRows p);
             EvLog INFO (MsgSuccessCount s);
             EvLog INFO (MsgErrorCount e);
             EvLog INFO (MsgNoDataCount d);
             EvLog INFO MsgTotalTime; EvLog INFO MsgRule]
    /\ p = processed_rows (self st') /\ s = success_count (self st')
    /\ e = error_count (self st') /\ d = no_data_count (self st')
    /\ p = s + e
    /\ s + e + d = max_row ws - 1.
Proof.
  intros H. rewrite (run_unfold input output w w0 ws H).
  destruct (loaded_ok input output w w0 ws H) as (_ & Hs & _).
  destruct (rows_spec (seq 2 (max_row ws + 1 - 2)) (loaded input output w))
    as (st1 & evs & Hrun & Ht & Hr & Hsu & Her & Hnd & Hpr & Htot & _).
  rewrite Hrun. cbn [snd].
  destruct (finish_logs st1) as (b & st' & head & Hfin & Ht').
  destruct (finish_spec st1) as (b' & st'' & post & Hfin' & Hs' & _).
  rewrite Hfin in Hfin'. injection Hfin' as <- <-.
  rewrite Hs in *.
  cbn [success_count error_count no_data_count processed_rows total_rows
       set_loaded ExcelProcessor_init] in *.
  exists b, st', (trace st1 ++ head), (processed_rows (self st1)),
    (success_count (self st1)), (error_count (self st1)), (no_data_count (self st1)).
  rewrite Hs', Ht', Htot, <- app_assoc.
  pose proof (tally_total (row_outcomes evs)) as Htal.
  assert (length (row_outcomes evs) = max_row ws + 1 - 2) as Hlen.
  { rewrite <- (length_map fst), Hr. apply length_seq. }
  repeat split; auto; lia.
Qed.

End SummaryExtras.

(** * The further properties at work on the small worlds *)

Lemma lookup_raises_witness :
  escaping FindOEM (world Demo.start) "boom" = Some OtherException
  /\ fst (lookup_result FindOEM "boom" Demo.start) = Raise OtherException
  /\ trace (snd (lookup_result FindOEM "boom" Demo.start))
     = trace Demo.start ++ [EvGet LAXIMO_BASE_URL (lookup_params FindOEM "boom")]
  /\ logs (trace (snd (lookup_result FindOEM "boom" Demo.start)))
     = logs (trace Demo.start).
Proof.
  assert (escaping FindOEM (world Demo.start) "boom" = Some OtherException) as H
    by (vm_compute; reflexivity).
  destruct (lookup_raises FindOEM "boom" Demo.start OtherException)
    as (_ & Hiff & Himp).
  split; [exact H |]. split; [apply Hiff; exact H |].
  destruct (Himp (proj2 Hiff H)) as (Ht & Hl & _). split; assumption.
Defined.

Lemma load_failure_aborts_witness :
  openpyxl_load_workbook Demo.world0 "nofile.xlsx" = (Demo.world1, Raise OtherException)
  /\ exists st' : State,
       run "nofile.xlsx" "out/result.xlsx" Demo.world0 = (Return false, st')
       /\ remote_calls (trace st') = []
       /\ saves (trace st') = [].
Proof.
  assert (openpyxl_load_workbook Demo.world0 "nofile.xlsx"
          = (Demo.world1, Raise OtherException)) as H by reflexivity.
  split; [exact H |].
  destruct (load_failure_aborts "nofile.xlsx" "out/result.xlsx" Demo.world0
              Demo.world1 OtherException H)
    as (st' & Hrun & _ & _ & _ & _ & _ & _ & _ & _ & _ & _ & Hc & _ & Hv & _).
  exists st'. auto.
Defined.

Lemma run_result_is_final_save_witness :
  openpyxl_load_workbook Demo.world0 "catalog.xlsx" = (Demo.world1, Return Demo.catalog)
  /\ exists (b : bool) (st' : State),
       run "catalog.xlsx" "out/result.xlsx" Demo.world0 = (Return b, st').
Proof.
  assert (openpyxl_load_workbook Demo.world0 "catalog.xlsx"
          = (Demo.world1, Return Demo.catalog)) as H by reflexivity.
  split; [exact H |].
  destruct (run_result_is_final_save "catalog.xlsx" "out/result.xlsx" Demo.world0
              Demo.world1 Demo.catalog H) as (b & st' & ws' & Hrun & _).
  exists b, st'. exact Hrun.
Defined.

Lemma header_only_sheet_witness :
  openpyxl_load_workbook Demo2.world0 "header.xlsx"
  = (Demo2.world1, Return Demo2.header_only)
  /\ max_row Demo2.header_only <= 1
  /\ exists (b : bool) (st' : State),
       run "header.xlsx" "out/result.xlsx" Demo2.world0 = (Return b, st')
       /\ remote_calls (trace st') = []
       /\ saves (trace st') = [("out/result.xlsx", Demo2.header_only)].
Proof.
  assert (openpyxl_load_workbook Demo2.world0 "header.xlsx"
          = (Demo2.world1, Return Demo2.header_only)) as H by reflexivity.
  assert (max_row Demo2.header_only <= 1) as Hmax by (cbn; lia).
  split; [exact H |]. split; [exact Hmax |].
  destruct (header_only_sheet "header.xlsx" "out/result.xlsx" Demo2.world0
              Demo2.world1 Demo2.header_only H Hmax)
    as (b & st' & Hrun & _ & Hc & _ & Hv & _).
  exists b, st'. auto.
Defined.

Lemma iteration_writes_one_cell_witness :
  sheet (self Demo.start) = Some Demo.catalog
  /\ exists (o : Outcome) (st' : State) (ws' : Worksheet),
       iteration 3 Demo.start = (Return tt, st')
       /\ sheet (self st') = Some ws'
       /\ cell_value ws' 3 4 = cell_value Demo.catalog 3 4
       /\ cell_value ws' 2 6 = cell_value Demo.catalog 2 6.
Proof.
  assert (sheet (self Demo.start) = Some Demo.catalog) as H by reflexivity.
  split; [exact H |].
  destruct (iteration_writes_one_cell 3 Demo.start Demo.catalog H)
    as (o & st' & evs & ws' & Hrun & _ & _ & Hws' & Hframe & _).
  exists o, st', ws'. repeat split; auto; apply Hframe; intros [=].
Defined.

Lemma run_changes_only_written_descriptions_witness :
  openpyxl_load_workbook Demo.world0 "catalog.xlsx" = (Demo.world1, Return Demo.catalog)
  /\ exists (b : bool) (st' : State) (ws' : Worksheet),
       run "catalog.xlsx" "out/result.xlsx" Demo.world0 = (Return b, st')
       /\ sheet (self st') = Some ws'
       /\ cell_value ws' 1 6 = cell_value Demo.catalog 1 6
       /\ max_row ws' = max_row Demo.catalog.
Proof.
  assert (openpyxl_load_workbook Demo.world0 "catalog.xlsx"
          = (Demo.world1, Return Demo.catalog)) as H by reflexivity.
  split; [exact H |].
  destruct (run_changes_only_written_descriptions "catalog.xlsx" "out/result.xlsx"
              Demo.world0 Demo.world1 Demo.catalog H)
    as (b & st' & ws' & Hrun & Hws' & _ & Hframe & _ & Hmax).
  exists b, st', ws'. repeat split; auto.
Defined.

Lemma merge_keeps_existing_text_witness :
  "A, B" <> ""
  /\ merge_description (VStr "A, B") "C, D" = Return "A, B, C, D"
  /\ merge_description (VStr "A, B,  ") "C" = Return "A, B,  C"
  /\ merge_description (VStr "A ") "C" = Return "A , C".
Proof.
  assert ("A, B" <> "") as H1 by discriminate.
  assert ("A, B,  " <> "") as H2 by discriminate.
  assert ("A " <> "") as H3 by discriminate.
  split; [exact H1 |].
  split; [exact (merge_keeps_existing_text "A, B" "C, D" H1) |].
  split; [exact (merge_keeps_existing_text "A, B,  " "C" H2) |].
  exact (merge_keeps_existing_text "A " "C" H3).
Defined.

Lemma merge_fails_on_non_text_witness :
  merge_description (py_or (VObj true "7") (VStr "")) "C" = Raise AttributeError
  /\ truthy (VObj false "0") = false
  /\ merge_description (py_or (VObj false "0") (VStr "")) "C" = Return "C".
Proof.
  destruct (merge_fails_on_non_text (VObj true "7") "C") as [Hiff _].
  destruct (merge_fails_on_non_text (VObj false "0") "C") as [_ Hfalsy].
  split; [apply Hiff; eauto |]. split; [reflexivity |]. apply Hfalsy. reflexivity.
Defined.

Lemma row_requests_witness :
  sheet (self Demo.start) = Some Demo.catalog
  /\ truthy (cell_value Demo.catalog 7 4) = true
  /\ exists (st' : State) (evs rest : list Event) (ids : list string),
       iteration 7 Demo.start = (Return tt, st')
       /\ remote_calls evs
          = request FindOEM (PyStr.strip (py_str (cell_value Demo.catalog 7 4)))
            :: map (request FindReplacements) ids
       /\ sleeps evs = repeat REQUEST_DELAY (length ids)
       /\ remote_calls rest = map (request FindReplacements) ids
       /\ paced rest = true.
Proof.
  assert (sheet (self Demo.start) = Some Demo.catalog) as H1 by reflexivity.
  assert (truthy (cell_value Demo.catalog 7 4) = true) as H2
    by (vm_compute; reflexivity).
  split; [exact H1 |]. split; [exact H2 |].
  destruct (row_requests 7 Demo.start Demo.catalog H1 H2)
    as (st' & evs & rest & ids & Hrun & _ & Hc & Hs & _ & Hrc & _ & Hp & _).
  exists st', evs, rest, ids. auto.
Defined.

Lemma details_without_id_skipped_witness :
  sheet (self (Demo2.start Demo2.noid_sheet)) = Some Demo2.noid_sheet
  /\ truthy (cell_value Demo2.noid_sheet 2 4) = true
  /\ find_oem (PyStr.strip (py_str (cell_value Demo2.noid_sheet 2 4)))
       (at_find_oem (Demo2.start Demo2.noid_sheet) 2
          (PyStr.strip (py_str (cell_value Demo2.noid_sheet 2 4))))
     = (Return Demo2.noid_details, Demo2.noid_resolved)
  /\ detail_ids Demo2.noid_details = []
  /\ exists (st' : State) (evs : list Event),
       iteration 2 (Demo2.start Demo2.noid_sheet) = (Return tt, st')
       /\ remote_calls evs = [request FindOEM "noid"]
       /\ sleeps evs = []
       /\ row_outcomes evs = [(2, NoData)]
       /\ sheet (self st') = Some Demo2.noid_sheet.
Proof.
  assert (sheet (self (Demo2.start Demo2.noid_sheet)) = Some Demo2.noid_sheet)
    as H1 by reflexivity.
  assert (truthy (cell_value Demo2.noid_sheet 2 4) = true) as H2
    by (vm_compute; reflexivity).
  assert (PyStr.strip (py_str (cell_value Demo2.noid_sheet 2 4)) = "noid") as Ha
    by (vm_compute; reflexivity).
  assert (find_oem (PyStr.strip (py_str (cell_value Demo2.noid_sheet 2 4)))
            (at_find_oem (Demo2.start Demo2.noid_sheet) 2
               (PyStr.strip (py_str (cell_value Demo2.noid_sheet 2 4))))
          = (Return Demo2.noid_details, Demo2.noid_resolved)) as H3.
  { rewrite Ha. apply pair_eta. vm_compute. reflexivity. }
  assert (detail_ids Demo2.noid_details = []) as H4 by reflexivity.
  split; [exact H1 |]. split; [exact H2 |]. split; [exact H3 |]. split; [exact H4 |].
  destruct (details_without_id_skipped 2 (Demo2.start Demo2.noid_sheet)
              Demo2.noid_resolved Demo2.noid_sheet Demo2.noid_details H1 H2 H3 H4)
    as (st' & evs & Hrun & _ & Hc & Hs & Hr & Hws & _).
  exists st', evs. rewrite Ha in Hc. auto.
Defined.

Lemma non_text_description_never_written_witness :
  sheet (self Demo.start) = Some Demo.catalog
  /\ cell_value Demo.catalog 8 6 = VObj true "7"
  /\ exists (st' : State) (evs : list Event) (o : Outcome),
       iteration 8 Demo.start = (Return tt, st')
       /\ row_outcomes evs = [(8, o)]
       /\ o <> Success
       /\ sheet (self st') = Some Demo.catalog
       /\ (o = Error -> error_count (self st') = error_count (self Demo.start) + 1).
Proof.
  assert (sheet (self Demo.start) = Some Demo.catalog) as H1 by reflexivity.
  assert (cell_value Demo.catalog 8 6 = VObj true "7") as H2
    by (vm_compute; reflexivity).
  split; [exact H1 |]. split; [exact H2 |].
  destruct (non_text_description_never_written 8 Demo.start Demo.catalog "7" H1 H2)
    as (st' & evs & o & Hrun & _ & Hr & Hne & Hws & _ & Herr & _).
  exists st', evs, o. repeat split; auto. intros Ho. now destruct (Herr Ho).
Defined.

Lemma test_script_load_failure_witness :
  openpyxl_load_workbook (world Demo2.fresh) "nofile.xlsx"
  = (Demo2.world1, Raise OtherException)
  /\ fst (test_api_with_sample_articles "nofile.xlsx" (Demo2.fresh, []))
     = Return false.
Proof.
  assert (openpyxl_load_workbook (world Demo2.fresh) "nofile.xlsx"
          = (Demo2.world1, Raise OtherException)) as H by reflexivity.
  split; [exact H |].
  now rewrite (test_script_load_failure "nofile.xlsx" Demo2.fresh [] Demo2.world1
                 OtherException H).
Defined.

Lemma test_script_no_data_rows_witness :
  openpyxl_load_workbook (world Demo2.fresh) "header.xlsx"
  = (Demo2.world1, Return Demo2.header_only)
  /\ max_row Demo2.header_only <= 1
  /\ fst (test_api_with_sample_articles "header.xlsx" (Demo2.fresh, []))
     = Return false.
Proof.
  assert (openpyxl_load_workbook (world Demo2.fresh) "header.xlsx"
          = (Demo2.world1, Return Demo2.header_only)) as H by reflexivity.
  assert (max_row Demo2.header_only <= 1) as Hmax by (cbn; lia).
  split; [exact H |]. split; [exact Hmax |].
  now rewrite (test_script_no_data_rows "header.xlsx" Demo2.fresh [] Demo2.world1
                 Demo2.header_only H Hmax).
Defined.

Lemma test_script_stops_at_exception_witness :
  openpyxl_load_workbook (world Demo2.fresh) "catalog.xlsx"
  = (Demo2.world1, Return Demo.catalog)
  /\ 2 <= max_row Demo.catalog
  /\ truthy (cell_value Demo.catalog 2 4) = true
  /\ escaping FindOEM Demo2.world1 (py_str (cell_value Demo.catalog 2 4))
     = Some OtherException
  /\ fst (test_api_with_sample_articles "catalog.xlsx" (Demo2.fresh, []))
     = Return false.
Proof.
  assert (openpyxl_load_workbook (world Demo2.fresh) "catalog.xlsx"
          = (Demo2.world1, Return Demo.catalog)) as H by reflexivity.
  assert (2 <= max_row Demo.catalog) as Hmax by (cbn; lia).
  assert (truthy (cell_value Demo.catalog 2 4) = true) as Ht
    by (vm_compute; reflexivity).
  assert (escaping FindOEM Demo2.world1 (py_str (cell_value Demo.catalog 2 4))
          = Some OtherException) as He by (vm_compute; reflexivity).
  split; [exact H |]. split; [exact Hmax |]. split; [exact Ht |]. split; [exact He |].
  destruct (test_script_stops_at_exception "catalog.xlsx" Demo2.fresh []
              Demo2.world1 Demo.catalog OtherException H Hmax Ht He) as [w' ->].
  reflexivity.
Defined.

(** The test script on the long catalog: its three rows all pass, with
    two requests each. *)
Example demo_test_script :
  fst (test_api_with_sample_articles "long.xlsx" (Demo2.fresh, [])) = Return true
  /\ length (remote_calls
               (trace (fst (snd (test_api_with_sample_articles "long.xlsx"
                                   (Demo2.fresh, [])))))) = 6.
Proof. split; vm_compute; reflexivity. Qed.

Lemma second_merge_duplicates_witness :
  PyStr.rstrip "C, D" <> ""
  /\ PyStr.endswith (PyStr.rstrip "C, D") "," = false
  /\ merge_description (py_or (VStr "A") (VStr "")) "C, D" = Return "A, C, D"
  /\ merge_description (py_or (VStr "A, C, D") (VStr "")) "C, D"
     = Return "A, C, D, C, D".
Proof.
  assert (PyStr.rstrip "C, D" <> "") as H1 by (vm_compute; discriminate).
  assert (PyStr.endswith (PyStr.rstrip "C, D") "," = false) as H2 by reflexivity.
  assert (merge_description (py_or (VStr "A") (VStr "")) "C, D"
          = Return "A, C, D") as H3 by reflexivity.
  split; [exact H1 |]. split; [exact H2 |]. split; [exact H3 |].
  exact (second_merge_duplicates (VStr "A") "C, D" "A, C, D" H1 H2 H3).
Defined.

Lemma summary_figures_witness :
  openpyxl_load_workbook Demo.world0 "catalog.xlsx" = (Demo.world1, Return Demo.catalog)
  /\ exists (b : bool) (st' : State),
       run "catalog.xlsx" "out/result.xlsx" Demo.world0 = (Return b, st')
       /\ success_count (self st') + error_count (self st') + no_data_count (self st')
          = max_row Demo.catalog - 1.
Proof.
  assert (openpyxl_load_workbook Demo.world0 "catalog.xlsx"
          = (Demo.world1, Return Demo.catalog)) as H by reflexivity.
  split; [exact H |].
  destruct (@summary_figures Demo.env "catalog.xlsx" "out/result.xlsx" Demo.world0
              Demo.world1 Demo.catalog H)
    as (b & st' & before & p & s & e & d & Hrun & _ & _ & Hs & He & Hd & _ & Hsum).
  exists b, st'. split; [exact Hrun |]. now rewrite <- Hs, <- He, <- Hd.
Defined.
